(** * ASCOT5 Python data-access layer (a5py): HDF5 adapters, marker helpers,
      MHD evaluation dispatch and the legacy radial-profile reader.

    Shallow embedding of
      - a5py/ascot5io/E_3DS.py      ([E_3DS.write_hdf5], [E_3DS.read_hdf5])
      - a5py/ascot5io/mrk_prt.py    ([mrk_prt.write_hdf5], [mrk_prt.eval_pitch])
      - a5py/ascot5io/options.py    ([options.write_hdf5], [options.read_hdf5])
      - a5py/ascotpy/libmhd.py      ([LibMhd.evaluate])
      - a5py/ascot4interface/erad.py ([erad.read_erad])

    Python exceptions are values of [exn]; code that touches files runs in
    a state-and-error monad over a model of the file system, so that what
    is on disk when an exception escapes is part of every result. *)

From Stdlib Require Import ZArith List String Ascii Lia.
From Stdlib Require Import Floats.SpecFloat.
From stdpp Require Import base option list strings gmap fin_maps.

Local Open Scope string_scope.
Local Open Scope Z_scope.

(** ** Python: exceptions and results *)

Module Py.

Inductive exn : Type :=
| ValueError (msg : string)
| KeyError (key : string)
| IndexError (msg : string)
| TypeError (msg : string)
| OSError (msg : string)
| FileNotFoundError (fn : string)
| AssertionError (msg : string).

Inductive result (A : Type) : Type :=
| Ok (a : A)
| Raise (e : exn).
Arguments Ok {A} a.
Arguments Raise {A} e.

Definition rbind {A B} (r : result A) (k : A -> result B) : result B :=
  match r with
  | Ok a => k a
  | Raise e => Raise e
  end.

Definition is_ok {A} (r : result A) : bool :=
  match r with Ok _ => true | Raise _ => false end.

(** [d[k]] on a Python dict. *)
Definition getitem {V} (d : gmap string V) (k : string) : result V :=
  match d !! k with
  | Some v => Ok v
  | None => Raise (KeyError k)
  end.

End Py.
Export Py.

Notation "'let*' x ':=' r 'in' k" := (rbind r (fun x => k))
  (at level 10, x pattern, r at level 100, k at level 200).

(** ** numpy: dtypes, binary64 scalars, arrays *)

Module Np.

(** The dtypes the adapters name: "f8", "i4" and "i8". *)
Inductive dtype : Type := F8 | I4 | I8.

#[export] Instance dtype_eq_dec : EqDecision dtype.
Proof. solve_decision. Defined.

(** A binary64 value, in the Standard Library's specification of IEEE 754
    (precision 53, maximal exponent 1024).  NaN payloads are not kept. *)
Abbreviation f64 := spec_float.

Definition prec : Z := 53.
Definition emax : Z := 1024.

Definition f64_add : f64 -> f64 -> f64 := SFadd prec emax.
Definition f64_sub : f64 -> f64 -> f64 := SFsub prec emax.
Definition f64_mul : f64 -> f64 -> f64 := SFmul prec emax.
Definition f64_div : f64 -> f64 -> f64 := SFdiv prec emax.
Definition f64_sqrt : f64 -> f64 := SFsqrt prec emax.
(** [x > y], false when either side is NaN. *)
Definition f64_gt (x y : f64) : bool := SFltb y x.

(** The binary64 nearest to the integer [z] (ties to even). *)
Definition f64_of_Z (z : Z) : f64 := binary_normalize prec emax z 0 false.

(** A scalar as Python hands it to numpy: a float or an int. *)
Inductive scalar : Type :=
| SF (x : f64)
| SI (z : Z).

Definition int_min (d : dtype) : Z :=
  match d with I4 => - 2 ^ 31 | _ => - 2 ^ 63 end.
Definition int_max (d : dtype) : Z :=
  match d with I4 => 2 ^ 31 - 1 | _ => 2 ^ 63 - 1 end.
Definition in_range (d : dtype) (z : Z) : bool :=
  (int_min d <=? z) && (z <=? int_max d).

(** Rounding a finite binary64 toward zero.  [None] for NaN and the
    infinities. *)
Definition f64_trunc (x : f64) : option Z :=
  match x with
  | S754_zero _ => Some 0
  | S754_finite s m e =>
      let mag := if 0 <=? e then Z.pos m * 2 ^ e else Z.pos m / 2 ^ (- e) in
      Some (cond_Zopp s mag)
  | _ => None
  end.

(** What a conversion to an integer dtype stores when the value has no
    representation there (NaN, an infinity, out of range) is left to the
    C library underneath; the adapters do not check for it. *)
Class Platform := { int_of_invalid : dtype -> scalar -> Z }.

(** Reading a decimal numeral as a binary64, as Python's [float] does;
    [None] when the text is not a numeral. *)
Class FloatParser := { float_of_string : string -> option f64 }.

Section Cast.
Context `{!Platform}.

Definition to_int (d : dtype) (v : scalar) : Z :=
  match v with
  | SI z => if in_range d z then z else int_of_invalid d v
  | SF x =>
      match f64_trunc x with
      | Some z => if in_range d z then z else int_of_invalid d v
      | None => int_of_invalid d v
      end
  end.

Definition to_f64 (v : scalar) : f64 :=
  match v with
  | SF x => x
  | SI z => f64_of_Z z
  end.
End Cast.

(** The storage of an array: its dtype is the constructor. *)
Inductive buffer : Type :=
| BufF8 (l : list f64)
| BufI4 (l : list Z)
| BufI8 (l : list Z).

Definition buf_dtype (b : buffer) : dtype :=
  match b with BufF8 _ => F8 | BufI4 _ => I4 | BufI8 _ => I8 end.

Definition buf_len (b : buffer) : nat :=
  match b with BufF8 l => length l | BufI4 l | BufI8 l => length l end.

Definition buf_scalars (b : buffer) : list scalar :=
  match b with
  | BufF8 l => SF <$> l
  | BufI4 l | BufI8 l => SI <$> l
  end.

(** Row-major array: [shape] and the elements in C order. *)
Record ndarray : Type := mk_ndarray { shape : list nat; buf : buffer }.

Definition prod_shape (sh : list nat) : nat := foldr Nat.mul 1%nat sh.

(** [a.size] *)
Definition size (a : ndarray) : nat := prod_shape (shape a).
(** [a.dtype] *)
Definition dtype_of (a : ndarray) : dtype := buf_dtype (buf a).

(** Every numpy array holds exactly [size] elements. *)
Definition wf (a : ndarray) : Prop := buf_len (buf a) = size a.

Section Astype.
Context `{!Platform}.

Definition buf_astype (d : dtype) (b : buffer) : buffer :=
  match d, b with
  | F8, BufF8 l => BufF8 l
  | I4, BufI4 l => BufI4 l
  | I8, BufI8 l => BufI8 l
  | F8, _ => BufF8 (to_f64 <$> buf_scalars b)
  | I4, _ => BufI4 (to_int I4 <$> buf_scalars b)
  | I8, _ => BufI8 (to_int I8 <$> buf_scalars b)
  end.

(** [a.astype(d)] *)
Definition astype (d : dtype) (a : ndarray) : ndarray :=
  {| shape := shape a; buf := buf_astype d (buf a) |}.

(** [np.array(v, dtype=d)] of a Python scalar: a 0-d array.  This is the
    conversion of a scalar the dtype can hold ([scalar_fits] below).  For
    a Python int too large for the dtype numpy raises an [OverflowError],
    which is not modelled: properties of code that converts Python scalars
    take [scalar_fits] as a hypothesis, or the success of the call. *)
Definition scalar_array (d : dtype) (v : scalar) : ndarray :=
  {| shape := [];
     buf := match d with
            | F8 => BufF8 [to_f64 v]
            | I4 => BufI4 [to_int I4 v]
            | I8 => BufI8 [to_int I8 v]
            end |}.
End Astype.

(** Elements picked by position; positions outside the list are skipped
    (there are none for the index lists built from a [wf] array). *)
Definition take_idx {A} (idx : list nat) (l : list A) : list A :=
  omap (fun i => l !! i) idx.

Definition buf_take (idx : list nat) (b : buffer) : buffer :=
  match b with
  | BufF8 l => BufF8 (take_idx idx l)
  | BufI4 l => BufI4 (take_idx idx l)
  | BufI8 l => BufI8 (take_idx idx l)
  end.

(** All multi-indices of a shape, in C order. *)
Fixpoint indices (sh : list nat) : list (list nat) :=
  match sh with
  | [] => [[]]
  | n :: sh' => seq 0 n ≫= fun i => cons i <$> indices sh'
  end.

(** Element strides of a C-ordered array. *)
Fixpoint strides (sh : list nat) : list nat :=
  match sh with
  | [] => []
  | _ :: sh' => prod_shape sh' :: strides sh'
  end.

Definition offset (idx st : list nat) : nat :=
  foldr Nat.add 0%nat (zip_with Nat.mul idx st).

Definition is_perm_of_range (axes : list nat) (n : nat) : bool :=
  bool_decide (length axes = n) &&
  forallb (fun i => bool_decide (i ∈ axes)) (seq 0 n).

(** [np.transpose(a, axes)]: axis [k] of the result is axis [axes[k]] of
    [a]; the result is given in C order. *)
Definition transpose (a : ndarray) (axes : list nat) : result ndarray :=
  if is_perm_of_range axes (length (shape a)) then
    let sh' := (fun ax => nth ax (shape a) 0%nat) <$> axes in
    let st' := (fun ax => nth ax (strides (shape a)) 0%nat) <$> axes in
    Ok {| shape := sh';
          buf := buf_take ((fun J => offset J st') <$> indices sh') (buf a) |}
  else Raise (ValueError "axes don't match array").

(** *** Arithmetic on arrays *)

(** Two's-complement wrap-around of an integer dtype. *)
Definition wrap (d : dtype) (z : Z) : Z :=
  match d with
  | F8 => z
  | I4 => (z + 2 ^ 31) mod 2 ^ 32 - 2 ^ 31
  | I8 => (z + 2 ^ 63) mod 2 ^ 64 - 2 ^ 63
  end.

(** The dtype of [a + b] and [a * b]. *)
Definition promote (d1 d2 : dtype) : dtype :=
  match d1, d2 with
  | F8, _ | _, F8 => F8
  | I8, _ | _, I8 => I8
  | I4, I4 => I4
  end.

Inductive binop : Type := Add | Mul | TrueDiv.

Definition int_of (v : scalar) : Z :=
  match v with SI z => z | SF _ => 0 end.

Definition result_dtype (op : binop) (d1 d2 : dtype) : dtype :=
  match op with TrueDiv => F8 | _ => promote d1 d2 end.

(** One element of [x op y] in the dtype [d] of the result. *)
Definition apply_binop (op : binop) (d : dtype) (x y : scalar) : scalar :=
  match op, d with
  | TrueDiv, _ => SF (f64_div (to_f64 x) (to_f64 y))
  | Add, F8 => SF (f64_add (to_f64 x) (to_f64 y))
  | Mul, F8 => SF (f64_mul (to_f64 x) (to_f64 y))
  | Add, _ => SI (wrap d (int_of x + int_of y))
  | Mul, _ => SI (wrap d (int_of x * int_of y))
  end.

Definition buf_of (d : dtype) (l : list scalar) : buffer :=
  match d with
  | F8 => BufF8 (to_f64 <$> l)
  | I4 => BufI4 (int_of <$> l)
  | I8 => BufI8 (int_of <$> l)
  end.

(** Broadcasting of two shapes, both given last axis first. *)
Fixpoint broadcast_rev (s1 s2 : list nat) : option (list nat) :=
  match s1, s2 with
  | [], s | s, [] => Some s
  | a :: s1', b :: s2' =>
      if (a =? b)%nat then cons a <$> broadcast_rev s1' s2'
      else if (a =? 1)%nat then cons b <$> broadcast_rev s1' s2'
      else if (b =? 1)%nat then cons a <$> broadcast_rev s1' s2'
      else None
  end.

Definition broadcast_shapes (s1 s2 : list nat) : option (list nat) :=
  reverse <$> broadcast_rev (reverse s1) (reverse s2).

(** Where the element for the multi-index [J] of the broadcast result
    sits in an operand of shape [s]: the leading axes the operand lacks
    are dropped and an axis of length 1 is read at 0. *)
Definition src_offset (s : list nat) (J : list nat) : nat :=
  offset (zip_with (fun j n => if (n =? 1)%nat then 0%nat else j)
            (drop (length J - length s) J) s)
         (strides s).

(** [a + b], [a * b], [a / b] on arrays. *)
Definition binary_ufunc (op : binop) (a b : ndarray) : result ndarray :=
  match broadcast_shapes (shape a) (shape b) with
  | None =>
      Raise (ValueError "operands could not be broadcast together")
  | Some sh =>
      let d := result_dtype op (dtype_of a) (dtype_of b) in
      let xs := buf_scalars (buf a) in
      let ys := buf_scalars (buf b) in
      Ok {| shape := sh;
            buf := buf_of d
              (omap (fun J =>
                       x ← xs !! src_offset (shape a) J;
                       y ← ys !! src_offset (shape b) J;
                       Some (apply_binop op d x y))
                    (indices sh)) |}
  end.

(** Operands are evaluated left to right, then combined. *)
Definition np_binary (op : binop) (x y : result ndarray) : result ndarray :=
  let* a := x in let* b := y in binary_ufunc op a b.

Definition np_add := np_binary Add.
Definition np_mul := np_binary Mul.
Definition np_truediv := np_binary TrueDiv.

(** [x ** 2]: the square, in the dtype of [x]. *)
Definition np_square (x : result ndarray) : result ndarray :=
  let* a := x in binary_ufunc Mul a a.

(** [np.sqrt(x)], a float64 array. *)
Definition np_sqrt (x : result ndarray) : result ndarray :=
  let* a := x in
  Ok {| shape := shape a;
        buf := BufF8 ((fun v => f64_sqrt (to_f64 v)) <$> buf_scalars (buf a)) |}.

End Np.
Export Np.

(** ** h5py: files, groups, datasets *)

Module H5.

Record dataset : Type :=
  mk_dataset { dvalue : ndarray; dattrs : gmap string string }.

Record group : Type :=
  mk_group { gattrs : gmap string string; gdatasets : gmap string dataset }.

(** An ASCOT5 file: parent groups ("efield", "marker", "options", ...)
    holding one group per stored input. *)
Abbreviation h5file := (gmap string (gmap string group)).

(** A file is an HDF5 file or something else, given by its text. *)
Inductive fentry : Type :=
| HDF5 (f : h5file)
| Other (content : string).

(** The files on disk, by path. *)
Abbreviation fsys := (gmap string fentry).

(** A computation that may read and change the files and may raise.
    The files are returned in both cases: what was written before an
    exception stays written. *)
Definition io (A : Type) : Type := fsys -> result A * fsys.

Definition ret {A} (a : A) : io A := fun fs => (Ok a, fs).
Definition raise {A} (e : exn) : io A := fun fs => (Raise e, fs).
Definition bind {A B} (c : io A) (k : A -> io B) : io B :=
  fun fs =>
    match c fs with
    | (Ok a, fs') => k a fs'
    | (Raise e, fs') => (Raise e, fs')
    end.
Definition lift {A} (r : result A) : io A := fun fs => (r, fs).

#[export] Instance io_ret : MRet io := @ret.
#[export] Instance io_bind : MBind io := fun A B k c => bind c k.

(** [h5py.File(fn, "a")]: read/write if the file exists, create it
    otherwise. *)
Definition File_a (fn : string) : io unit :=
  fun fs =>
    match fs !! fn with
    | None => (Ok tt, <[fn := HDF5 ∅]> fs)
    | Some (HDF5 _) => (Ok tt, fs)
    | Some (Other _) =>
        (Raise (OSError "Unable to open file (file signature not found)"), fs)
    end.

(** [h5py.File(fn, "r")]: the file must exist. *)
Definition File_r (fn : string) : io h5file :=
  fun fs =>
    match fs !! fn with
    | None => (Raise (FileNotFoundError fn), fs)
    | Some (HDF5 f) => (Ok f, fs)
    | Some (Other _) =>
        (Raise (OSError "Unable to open file (file signature not found)"), fs)
    end.

(** [fn] can be opened by [h5py.File(fn, "a")]. *)
Definition appendable (fs : fsys) (fn : string) : Prop :=
  forall s, fs !! fn <> Some (Other s).

(** The handle of an open group: the file and the two path components. *)
Record ghandle : Type :=
  mk_ghandle { h_fn : string; h_parent : string; h_name : string }.

#[export] Instance ghandle_eq_dec : EqDecision ghandle.
Proof. solve_decision. Defined.

(** [g.name], the absolute path of the group. *)
Definition name (g : ghandle) : string :=
  "/" +:+ h_parent g +:+ "/" +:+ h_name g.

Definition file_at (fs : fsys) (fn : string) : option h5file :=
  match fs !! fn with
  | Some (HDF5 f) => Some f
  | _ => None
  end.

Definition group_in (f : h5file) (parent nm : string) : option group :=
  f !! parent ≫= fun p => p !! nm.

(** The group a handle points to, if it is there. *)
Definition group_at (fs : fsys) (g : ghandle) : option group :=
  file_at fs (h_fn g) ≫= fun f => group_in f (h_parent g) (h_name g).

Definition set_group_in (f : h5file) (parent nm : string) (grp : group)
    : h5file :=
  <[parent := <[nm := grp]> (default ∅ (f !! parent))]> f.

Definition get_group (g : ghandle) : io group :=
  fun fs =>
    match file_at fs (h_fn g) with
    | Some f =>
        match group_in f (h_parent g) (h_name g) with
        | Some grp => (Ok grp, fs)
        | None => (Raise (KeyError (name g)), fs)
        end
    | None => (Raise (OSError "Unable to open file"), fs)
    end.

Definition put_group (g : ghandle) (grp : group) : io unit :=
  fun fs =>
    match file_at fs (h_fn g) with
    | Some f =>
        (Ok tt,
         <[h_fn g := HDF5 (set_group_in f (h_parent g) (h_name g) grp)]> fs)
    | None => (Raise (OSError "Unable to open file"), fs)
    end.

(** What [add_group] generates for a new group. *)
Record meta : Type :=
  mk_meta { m_qid : string; m_date : string; m_defdesc : string }.

(** Modelled from the spec: what the two [add_group] helpers, which are
    not among the sources, have in common.  A stored input is a group
    under the parent group of its kind, tagged by a QID generated for it
    (the spec's glossary); its name is the type name, a separator and the
    QID, and it carries the [date] and [description] attributes the
    options reader looks up.  The parent is created when absent.  Creating
    a group under a name already taken raises, as [h5py] does. *)
Definition add_group_with (sep : string) (m : meta)
    (fn parent grp : string) (desc : option string) : io ghandle :=
  fun fs =>
    match file_at fs fn with
    | Some f =>
        let nm := grp +:+ sep +:+ m_qid m in
        match group_in f parent nm with
        | Some _ =>
            (Raise (ValueError "Unable to create group (name already exists)"), fs)
        | None =>
            let g := {| gattrs := <["date" := m_date m]>
                                    (<["description" := default (m_defdesc m) desc]> ∅);
                        gdatasets := ∅ |} in
            (Ok {| h_fn := fn; h_parent := parent; h_name := nm |},
             <[fn := HDF5 (set_group_in f parent nm g)]> fs)
        end
    | None => (Raise (OSError "Unable to open file"), fs)
    end.

Module fileapi.
(** Modelled from the spec: the [add_group] of [_iohelpers/fileapi.py],
    which the field and marker writers import and which is not among the
    sources.  The field reader builds the name of a group as "E_3DS_" and
    the QID. *)
Definition add_group : meta -> string -> string -> string -> option string
                       -> io ghandle :=
  add_group_with "_".
End fileapi.

Module ascot5file.
(** Modelled from the spec: the [add_group] of [ascot5file.py], which the
    options writer imports and which is not among the sources.  The
    options reader builds the name of a group as "opt-" and the QID. *)
Definition add_group : meta -> string -> string -> string -> option string
                       -> io ghandle :=
  add_group_with "-".
End ascot5file.

(** The group [grp] with one more dataset, without attributes yet. *)
Definition add_dataset (grp : group) (nm : string) (a : ndarray) : group :=
  {| gattrs := gattrs grp;
     gdatasets := <[nm := {| dvalue := a; dattrs := ∅ |}]> (gdatasets grp) |}.

Definition set_dattr (grp : group) (nm k v : string) (ds : dataset) : group :=
  {| gattrs := gattrs grp;
     gdatasets := <[nm := {| dvalue := dvalue ds;
                             dattrs := <[k := v]> (dattrs ds) |}]>
                    (gdatasets grp) |}.

(** The elements of [a] under the shape given to [create_dataset]. *)
Definition stored_as (shp : list Z) (a : ndarray) : ndarray :=
  {| shape := Z.to_nat <$> shp; buf := buf a |}.

(** The [data=] argument of [create_dataset]. *)
Inductive array_like : Type :=
| AScalar (v : scalar)
| AArray (a : ndarray).

Definition prod_Z (t : list Z) : Z := foldr Z.mul 1 t.

Section WithPlatform.
Context `{!Platform}.

(** [numpy.asarray(data, dtype=d)]; without [d] the dtype is kept (a
    Python float gives "f8", a Python int "i8"). *)
Definition asarray (d : option dtype) (x : array_like) : ndarray :=
  match x with
  | AScalar v =>
      scalar_array (default (match v with SF _ => F8 | SI _ => I8 end) d) v
  | AArray a =>
      match d with Some d => astype d a | None => a end
  end.

(** [g.create_dataset(nm, shp, data=data, dtype=d)]: the data are
    converted to [d] and stored under the shape [shp], which must
    hold as many elements as the data.  [nm] is the name of a member of
    [g] itself ([member_name] below); h5py reads a name with "/" as a path
    through subgroups, which is not modelled: properties of code that
    passes names from outside take [member_name] as a hypothesis. *)
Definition create_dataset (g : ghandle) (nm : string) (shp : list Z)
    (data : array_like) (d : option dtype) : io (ghandle * string) :=
  let a := asarray d data in
  if bool_decide (prod_Z shp = Z.of_nat (size a)) then
    if forallb (Z.leb 0) shp then
      grp ← get_group g;
      match gdatasets grp !! nm with
      | Some _ =>
          raise (ValueError "Unable to create dataset (name already exists)")
      | None =>
          put_group g (add_dataset grp nm (stored_as shp a));;
          ret (g, nm)
      end
    else raise (ValueError "Unable to create dataset (bad dimensions)")
  else raise (ValueError "Shape tuple is incompatible with data").
End WithPlatform.

(** [d.attrs[k] = v] *)
Definition attrs_set (d : ghandle * string) (k v : string) : io unit :=
  grp ← get_group d.1;
  match gdatasets grp !! d.2 with
  | Some ds => put_group d.1 (set_dattr grp d.2 k v ds)
  | None => raise (KeyError d.2)
  end.

(** The path up to the first "/" and the rest. *)
Fixpoint split_slash (s : string) : option (string * string) :=
  match s with
  | EmptyString => None
  | String c s' =>
      if Ascii.eqb c "/" then Some (EmptyString, s')
      else match split_slash s' with
           | Some (p, r) => Some (String c p, r)
           | None => None
           end
  end.

(** [f[path]] for the path of a stored input, "<parent>/<name>". *)
Definition getpath (f : h5file) (path : string) : result group :=
  match split_slash path with
  | Some (parent, nm) =>
      match group_in f parent nm with
      | Some g => Ok g
      | None => Raise (KeyError path)
      end
  | None => Raise (KeyError path)
  end.

(** [d[:]]: the whole dataset as an array; a scalar dataspace cannot be
    sliced. *)
Definition read_all (d : dataset) : result ndarray :=
  match shape (dvalue d) with
  | [] => Raise (ValueError "Illegal slicing argument for scalar dataspace")
  | _ => Ok (dvalue d)
  end.

(** [for key in g: out[key] = g[key][:]], into an empty [out]. *)
Definition read_datasets (g : group) : result (gmap string ndarray) :=
  if bool_decide (map_Forall (fun _ d => shape (dvalue d) <> []) (gdatasets g))
  then Ok (dvalue <$> gdatasets g)
  else Raise (ValueError "Illegal slicing argument for scalar dataspace").

End H5.
Export H5.

(** ** a5py/ascot5io/E_3DS.py *)

Module E_3DS.

Section WithPlatform.
Context `{!Platform}.

(** [a.shape != (n0, n1, n2)] *)
Definition shape_ne (a : ndarray) (t : list Z) : bool :=
  negb (bool_decide (Z.of_nat <$> shape a = t)).

Definition write_hdf5 (m : meta) (fn : string)
    (rmin rmax : scalar) (nr : Z) (zmin zmax : scalar) (nz : Z)
    (phimin phimax : scalar) (nphi : Z)
    (er ephi ez : ndarray) (desc : option string) : io string :=
  if shape_ne er [nr; nphi; nz] then
    raise (ValueError "ER has an inconsinstent shape.")
  else if shape_ne ephi [nr; nphi; nz] then
    raise (ValueError "Ephi has an inconsinstent shape.")
  else if shape_ne ez [nr; nphi; nz] then
    raise (ValueError "Ez has an inconsinstent shape.")
  else
    let parent := "efield" in
    let group := "E_3DS" in
    er ← lift (transpose er [2; 1; 0]%nat);
    ephi ← lift (transpose ephi [2; 1; 0]%nat);
    ez ← lift (transpose ez [2; 1; 0]%nat);
    File_a fn;;
    g ← fileapi.add_group m fn parent group desc;
    let gname := h_name g in
    create_dataset g "rmin" [1] (AScalar rmin) (Some F8);;
    create_dataset g "rmax" [1] (AScalar rmax) (Some F8);;
    create_dataset g "nr" [1] (AScalar (SI nr)) (Some I4);;
    create_dataset g "phimin" [1] (AScalar phimin) (Some F8);;
    create_dataset g "phimax" [1] (AScalar phimax) (Some F8);;
    create_dataset g "nphi" [1] (AScalar (SI nphi)) (Some I4);;
    create_dataset g "zmin" [1] (AScalar zmin) (Some F8);;
    create_dataset g "zmax" [1] (AScalar zmax) (Some F8);;
    create_dataset g "nz" [1] (AScalar (SI nz)) (Some I4);;
    create_dataset g "er" [nz; nphi; nr] (AArray er) (Some F8);;
    create_dataset g "ephi" [nz; nphi; nr] (AArray ephi) (Some F8);;
    create_dataset g "ez" [nz; nphi; nr] (AArray ez) (Some F8);;
    ret gname.
End WithPlatform.

Definition read_hdf5 (fn qid : string) : io (gmap string ndarray) :=
  let path := "efield" +:+ "/E_3DS_" +:+ qid in
  f ← File_r fn;
  out ← lift (let* g := getpath f path in read_datasets g);
  er ← lift (let* a := getitem out "er" in transpose a [2; 1; 0]%nat);
  let out := <["er" := er]> out in
  ephi ← lift (let* a := getitem out "ephi" in transpose a [2; 1; 0]%nat);
  let out := <["ephi" := ephi]> out in
  ez ← lift (let* a := getitem out "ez" in transpose a [2; 1; 0]%nat);
  let out := <["ez" := ez]> out in
  ret out.

End E_3DS.

(** ** a5py/ascot5io/mrk_prt.py: the writer *)

Module mrk_prt.

Section WithPlatform.
Context `{!Platform}.

(** [if a.size != n: raise ValueError(msg)] *)
Definition check_size (a : ndarray) (n : Z) (msg : string) : io unit :=
  if negb (bool_decide (Z.of_nat (size a) = n))
  then raise (ValueError msg) else ret tt.

(** [g.create_dataset(nm, shp, data=data, dtype=d).attrs['unit'] = u] *)
Definition create_with_unit (g : ghandle) (nm : string) (shp : list Z)
    (data : array_like) (d : dtype) (u : string) : io unit :=
  ds ← create_dataset g nm shp data (Some d);
  attrs_set ds "unit" u.

(** The body of the [with h5py.File(fn, "a") as f:] block and the
    [return] after it. *)
Definition write_body (m : meta) (fn : string) (n : Z)
    (ids mass charge r phi z vr vphi vz anum znum weight time : ndarray)
    (desc : option string) : io string :=
  let parent := "marker" in
  let group := "prt" in
  File_a fn;;
  g ← fileapi.add_group m fn parent group desc;
  let gname := h_name g in
  create_with_unit g "n" [1; 1] (AScalar (SI n)) I8 "1";;
  create_with_unit g "r" [n; 1] (AArray r) F8 "m";;
  create_with_unit g "phi" [n; 1] (AArray phi) F8 "deg";;
  create_with_unit g "z" [n; 1] (AArray z) F8 "m";;
  create_with_unit g "vr" [n; 1] (AArray vr) F8 "m/s";;
  create_with_unit g "vphi" [n; 1] (AArray vphi) F8 "m/s";;
  create_with_unit g "vz" [n; 1] (AArray vz) F8 "m/s";;
  create_with_unit g "mass" [n; 1] (AArray mass) F8 "amu";;
  create_with_unit g "charge" [n; 1] (AArray charge) I4 "e";;
  create_with_unit g "anum" [n; 1] (AArray anum) I4 "1";;
  create_with_unit g "znum" [n; 1] (AArray znum) I4 "1";;
  create_with_unit g "weight" [n; 1] (AArray weight) F8 "markers/s";;
  create_with_unit g "time" [n; 1] (AArray time) F8 "s";;
  create_with_unit g "id" [n; 1] (AArray ids) I8 "1";;
  ret gname.

Definition write_hdf5 (m : meta) (fn : string) (n : Z)
    (ids mass charge r phi z vr vphi vz anum znum weight time : ndarray)
    (desc : option string) : io string :=
  check_size ids n "Inconsistent size for ids.";;
  check_size mass n "Inconsistent size for mass.";;
  check_size charge n "Inconsistent size for charge.";;
  check_size r n "Inconsistent size for r.";;
  check_size phi n "Inconsistent size for phi.";;
  check_size z n "Inconsistent size for z.";;
  check_size vr n "Inconsistent size for vR.";;
  check_size vphi n "Inconsistent size for vphi.";;
  check_size vz n "Inconsistent size for vz.";;
  check_size anum n "Inconsistent size for anum.";;
  check_size znum n "Inconsistent size for znum.";;
  check_size weight n "Inconsistent size for weight.";;
  check_size time n "Inconsistent size for time.";;
  write_body m fn n ids mass charge r phi z vr vphi vz anum znum
    weight time desc.
End WithPlatform.

(** *** The evaluation helpers *)

(** Modelled from the spec: [with self as h5], the context manager of
    the data object (a5py/ascot5io/ascot5data.py, not among the sources).
    The object stands for one group of datasets in the file; entering it
    opens the file for reading and gives that group. *)
Definition enter (self : ghandle) : io group :=
  f ← File_r (h_fn self);
  lift (match group_in f (h_parent self) (h_name self) with
        | Some g => Ok g
        | None => Raise (KeyError (name self))
        end).

(** Modelled from the spec: [read_data(h5, name)], imported from
    [_iohelpers/fileapi.py], not among the sources.  It reads the named
    dataset of the group whole; the unit annotation it attaches does not
    change the numbers and is not carried along here. *)
Definition read_data (h5 : group) (nm : string) : result ndarray :=
  let* d := getitem (gdatasets h5) nm in read_all d.

Section Eval.
(** [ascotpy.evaluate(R, phi, z, t, quantity)], the call into the
    native library. *)
Variable ascotpy_evaluate :
  ndarray -> ndarray -> ndarray -> scalar -> string -> result ndarray.

Definition eval_pitch (self : ghandle) : io ndarray :=
  h5 ← enter self;
  r ← lift (read_data h5 "r");
  z ← lift (read_data h5 "z");
  phi ← lift (read_data h5 "phi");
  vr ← lift (read_data h5 "vr");
  vz ← lift (read_data h5 "vz");
  vphi ← lift (read_data h5 "vphi");
  mass ← lift (read_data h5 "mass");
  lift (let* br := ascotpy_evaluate r phi z (SI 0) "br" in
        let* bz := ascotpy_evaluate r phi z (SI 0) "bz" in
        let* bphi := ascotpy_evaluate r phi z (SI 0) "bphi" in
        let* b := np_sqrt (np_add (np_add (np_square (Ok br))
                                          (np_square (Ok bz)))
                                  (np_square (Ok bphi))) in
        let* v := np_sqrt (np_add (np_add (np_square (Ok vr))
                                          (np_square (Ok vz)))
                                  (np_square (Ok vphi))) in
        let* pitch :=
          np_truediv
            (np_add (np_add (np_mul (Ok vr) (Ok br)) (np_mul (Ok vz) (Ok bz)))
                    (np_mul (Ok vphi) (Ok bphi)))
            (np_mul (Ok b) (Ok v)) in
        Ok pitch).
End Eval.

Section Energy.
(** [energy_velocity(mass, v)], imported from a5py/physlib/gamma.py, not
    among the sources. *)
Variable energy_velocity : ndarray -> ndarray -> result ndarray.

(** [eval_energy(self, ascotpy)]; the [ascotpy] argument is not used. *)
Definition eval_energy (self : ghandle) : io ndarray :=
  h5 ← enter self;
  vr ← lift (read_data h5 "vr");
  vz ← lift (read_data h5 "vz");
  vphi ← lift (read_data h5 "vphi");
  mass ← lift (read_data h5 "mass");
  lift (let* v := np_sqrt (np_add (np_add (np_square (Ok vr))
                                          (np_square (Ok vz)))
                                  (np_square (Ok vphi))) in
        energy_velocity mass v).
End Energy.

End mrk_prt.

(** ** a5py/ascot5io/options.py *)

Module options.

(** A value of an options dictionary: a string (the metadata) or
    something numeric, a scalar or an array; a list of numbers is given
    as the array [np.array] makes of it. *)
Inductive pyval : Type :=
| PStr (s : string)
| PData (x : array_like).

(** [opt != "qid" and opt != "date" and opt != "description"] *)
Definition is_option (opt : string) : bool :=
  negb (String.eqb opt "qid") && negb (String.eqb opt "date")
  && negb (String.eqb opt "description").

Section WithPlatform.
Context `{!Platform} `{!FloatParser}.

(** [np.array(data).astype("f8")].  The test [type(data) is not
    np.array] of the source compares a type with a function and always
    holds, so [np.array] is always applied.  A Python int is taken as
    int64 on the way, as numpy does with the ints int64 holds; for larger
    ones numpy chooses another dtype or raises, which is not modelled
    ([numeric_value] below). *)
Definition to_f8_array (data : pyval) : result ndarray :=
  match data with
  | PData x => Ok (astype F8 (asarray None x))
  | PStr s =>
      match float_of_string s with
      | Some v => Ok (scalar_array F8 (SF v))
      | None => Raise (ValueError "could not convert string to float")
      end
  end.

(** The [for opt in options:] loop; a dictionary is given by its items
    in iteration order. *)
Fixpoint write_options (g : ghandle) (opts : list (string * pyval))
    : io unit :=
  match opts with
  | [] => ret tt
  | (opt, v) :: rest =>
      (if is_option opt then
         data ← lift (to_f8_array v);
         create_dataset g opt [Z.of_nat (size data)] (AArray data) None;;
         ret tt
       else ret tt);;
      write_options g rest
  end.

Definition write_hdf5 (m : meta) (fn : string)
    (options : list (string * pyval)) (desc : option string) : io string :=
  let parent := "options" in
  let group := "opt" in
  File_a fn;;
  g ← ascot5file.add_group m fn parent group desc;
  let name := name g in
  write_options g options;;
  ret name.
End WithPlatform.

(** [read_hdf5(fn, qid)] with [info=False], the default.  (With [info]
    set, the same dictionary is returned together with a list pairing
    the values with the comments of [get_default()].) *)
Definition read_hdf5 (fn qid : string) : io (gmap string pyval) :=
  let path := "options" +:+ "/opt-" +:+ qid in
  f ← File_r fn;
  lift (let out := <["qid" := PStr qid]> ∅ in
        let* g := getpath f path in
        let* date := getitem (gattrs g) "date" in
        let out := <["date" := PStr date]> out in
        let* g := getpath f path in
        let* description := getitem (gattrs g) "description" in
        let out := <["description" := PStr description]> out in
        let* g := getpath f path in
        let* data := read_datasets g in
        Ok (((fun a => PData (AArray a)) <$> data) ∪ out)).

End options.

(** ** a5py/ascotpy/libmhd.py *)

Module LibMhd.

Section Evaluate.
(** [self.eval_mhd(R, phi, z, t)], inherited from [LibAscot]: the call
    into the native library, giving a dictionary of arrays. *)
Variable eval_mhd :
  ndarray -> ndarray -> ndarray -> scalar -> result (gmap string ndarray).

Definition quantities : list string :=
  ["br"; "bphi"; "bz"; "er"; "ephi"; "ez"].

Definition evaluate (R phi z : ndarray) (t : scalar) (quantity : string)
    : result ndarray :=
  let* out :=
    (if bool_decide (quantity ∈ ["br"; "bphi"; "bz"; "er"; "ephi"; "ez"])
     then let* d := eval_mhd R phi z t in
          let* v := getitem d quantity in
          Ok (Some v)
     else Ok None) in
  match out with
  | Some v => Ok v
  | None => Raise (AssertionError "Unknown quantity")
  end.
End Evaluate.

End LibMhd.

(** ** a5py/ascot4interface/erad.py *)

Module erad.

(** *** Text as Python reads it *)

(** [c.isspace()] on the ASCII characters. *)
Definition is_space (c : ascii) : bool :=
  let n := nat_of_ascii c in
  ((9 <=? n) && (n <=? 13) || (28 <=? n) && (n <=? 32))%nat.

Definition is_newline (c : ascii) : bool := (nat_of_ascii c =? 10)%nat.

(** [f.readline()]: the text up to and including the first newline, and
    what is left in the file. *)
Fixpoint readline (s : string) : string * string :=
  match s with
  | EmptyString => (EmptyString, EmptyString)
  | String c s' =>
      if is_newline c then (String c EmptyString, s')
      else let (l, r) := readline s' in (String c l, r)
  end.

(** The word that is open at the start of [s], and the words after it. *)
Fixpoint words (s : string) : string * list string :=
  match s with
  | EmptyString => (EmptyString, [])
  | String c s' =>
      let (w, ws) := words s' in
      if is_space c then
        (EmptyString, match w with EmptyString => ws | _ => w :: ws end)
      else (String c w, ws)
  end.

(** [s.split()] *)
Definition split (s : string) : list string :=
  let (w, ws) := words s in
  match w with EmptyString => ws | _ => w :: ws end.

(** The lines of a text, without their newlines. *)
Fixpoint lines_from (s : string) : string * list string :=
  match s with
  | EmptyString => (EmptyString, [])
  | String c s' =>
      let (l, ls) := lines_from s' in
      if is_newline c then (EmptyString, l :: ls) else (String c l, ls)
  end.

Definition lines (s : string) : list string :=
  let (l, ls) := lines_from s in l :: ls.

(** A line up to its first "#". *)
Fixpoint strip_comment (s : string) : string :=
  match s with
  | EmptyString => EmptyString
  | String c s' =>
      if Ascii.eqb c "#" then EmptyString else String c (strip_comment s')
  end.

(** *** numpy on the table *)

Section WithParser.
Context `{!FloatParser}.

Fixpoint parse_tokens (toks : list string) : result (list f64) :=
  match toks with
  | [] => Ok []
  | t :: toks' =>
      match float_of_string t with
      | Some x => let* xs := parse_tokens toks' in Ok (x :: xs)
      | None => Raise (ValueError "could not convert string to float")
      end
  end.

(** The rows [np.loadtxt] reads: comments and blank lines are skipped,
    every row has as many columns as the first. *)
Fixpoint loadtxt_rows (ncols : option nat) (ls : list string)
    : result (list (list f64)) :=
  match ls with
  | [] => Ok []
  | l :: ls' =>
      match split (strip_comment l) with
      | [] => loadtxt_rows ncols ls'
      | toks =>
          if match ncols with
             | Some n => negb (length toks =? n)%nat
             | None => false
             end
          then Raise (ValueError "Wrong number of columns")
          else
            let* row := parse_tokens toks in
            let* rows := loadtxt_rows (Some (length toks)) ls' in
            Ok (row :: rows)
      end
  end.

(** [np.loadtxt(f)] on the rest of the file, as its rows. *)
Definition loadtxt (rest : string) : result (list (list f64)) :=
  loadtxt_rows None (lines rest).
End WithParser.

(** [h5data[:,k]].  [np.loadtxt] drops the axes of length one, so the
    array has two axes only with at least two rows and two columns;
    with fewer the index raises. *)
Definition column (k : nat) (h5data : list (list f64)) : result (list f64) :=
  match h5data with
  | row :: _ :: _ =>
      if (2 <=? length row)%nat then
        if (k <? length row)%nat
        then Ok (omap (fun r => r !! k) h5data)
        else Raise (IndexError "index is out of bounds for axis 1")
      else Raise (IndexError "too many indices for array")
  | _ => Raise (IndexError "too many indices for array")
  end.

(** [np.diff(a)] *)
Definition np_diff (a : list f64) : list f64 :=
  zip_with (fun x y => f64_sub y x) a (tail a).

(** [max(a)]: the first element not exceeded by a later one. *)
Definition py_max (a : list f64) : result f64 :=
  match a with
  | [] => Raise (ValueError "max() arg is an empty sequence")
  | x :: a' => Ok (foldl (fun m y => if f64_gt y m then y else m) x a')
  end.

(** [min(a)] *)
Definition py_min (a : list f64) : result f64 :=
  match a with
  | [] => Raise (ValueError "min() arg is an empty sequence")
  | x :: a' => Ok (foldl (fun m y => if f64_gt m y then y else m) x a')
  end.

(** The literal [1.0001]. *)
Definition tol : f64 := S754_finite false 4504049987333233 (-52).

(** The resampling of the branch that interpolates:
    [np.linspace(np.amin(rho), np.amax(rho), n_rho)], with [n_rho] still
    the string read from the file, then [np.interp].  What numpy makes
    of a count given as a string is left open. *)
Class Resampler :=
  { resample : string -> list f64 -> list f64 -> result (list f64 * list f64) }.

(** The dictionary [read_erad] returns, by key. *)
Record data : Type :=
  mk_data { comm1 : string; n_rho : string;
            rho : list f64; dV_drho : list f64 }.

(** [open(fn, 'r')] and the whole text of the file. *)
Definition open_text (fn : string) : io string :=
  fun fs =>
    match fs !! fn with
    | None => (Raise (FileNotFoundError fn), fs)
    | Some (Other content) => (Ok content, fs)
    | Some (HDF5 _) => (Raise (ValueError "UnicodeDecodeError"), fs)
    end.

Section WithParser.
Context `{!FloatParser} `{!Resampler}.

Definition read_erad (fn : string) : io data :=
  f ← open_text fn;
  lift (let (comm1, f) := readline f in
        let (line, f) := readline f in
        let* n_rho := match split line with
                      | t :: _ => Ok t
                      | [] => Raise (IndexError "list index out of range")
                      end in
        let* h5data := loadtxt f in
        let* rho := column 0 h5data in
        let* dV_drho := column 1 h5data in
        let diff := np_diff rho in
        let* mx := py_max diff in
        let* mn := py_min diff in
        if f64_gt (f64_div mx mn) tol then
          let* new := resample n_rho rho dV_drho in
          Ok {| comm1 := comm1; n_rho := n_rho;
                rho := new.1; dV_drho := new.2 |}
        else
          Ok {| comm1 := comm1; n_rho := n_rho;
                rho := rho; dV_drho := dV_drho |}).
End WithParser.

End erad.

(** ** A reader of decimal numerals *)

(** [float] restricted to plain decimal numerals: an optional sign,
    digits with an optional fraction, an optional exponent.  The value is
    the binary64 nearest to the decimal (ties to even). *)
Module Decimal.

Definition digit (c : ascii) : option Z :=
  let n := nat_of_ascii c in
  if ((48 <=? n) && (n <=? 57))%nat then Some (Z.of_nat n - 48) else None.

(** The leading digits of [s]: their value after [acc], how many there
    are, and the rest of [s]. *)
Fixpoint digits (s : string) (acc : Z) (cnt : nat) : Z * nat * string :=
  match s with
  | EmptyString => (acc, cnt, s)
  | String c s' =>
      match digit c with
      | Some d => digits s' (10 * acc + d) (S cnt)
      | None => (acc, cnt, s)
      end
  end.

Definition sign (s : string) : bool * string :=
  match s with
  | String "-" s' => (true, s')
  | String "+" s' => (false, s')
  | _ => (false, s)
  end.

(** The exponent part, absent or "e" or "E" with a signed integer. *)
Definition exponent (s : string) : option Z :=
  match s with
  | EmptyString => Some 0
  | String c s' =>
      if Ascii.eqb c "e" || Ascii.eqb c "E" then
        let (neg, s'') := sign s' in
        match digits s'' 0 0 with
        | (e, S _, EmptyString) => Some (if neg then - e else e)
        | _ => None
        end
      else None
  end.

(** The binary64 nearest to [(-1)^neg * m * 10^e]. *)
Definition of_decimal (neg : bool) (m e : Z) : f64 :=
  match m with
  | Z.pos p =>
      if 0 <=? e then
        binary_normalize prec emax (cond_Zopp neg (m * 10 ^ e)) 0 false
      else
        match 10 ^ (- e) with
        | Z.pos q => f64_div (S754_finite neg p 0) (S754_finite false q 0)
        | _ => S754_nan
        end
  | _ => S754_zero neg
  end.

Definition parse (s : string) : option f64 :=
  let (neg, s) := sign s in
  let '(i, ni, s) := digits s 0 0 in
  let '(m, nf, s) :=
    match s with
    | String "." s' => digits s' i 0
    | _ => (i, 0%nat, s)
    end in
  match (ni + nf)%nat with
  | O => None
  | _ =>
      match exponent s with
      | Some e => Some (of_decimal neg m (e - Z.of_nat nf))
      | None => None
      end
  end.

End Decimal.

Definition decimal_parser : FloatParser :=
  {| float_of_string := Decimal.parse |}.

(** A resampler that refuses a count given as a string, as
    [np.linspace] does when it wants an integer. *)
Definition strict_resampler : erad.Resampler :=
  {| erad.resample := fun _ _ _ =>
       Raise (TypeError "'str' object cannot be interpreted as an integer") |}.

(** ** Where the models of numpy and h5py apply *)

(** A Python scalar that [numpy.asarray(v, dtype=d)] converts as
    [scalar_array] says: every float at "f8"; an int at "f8" when the
    binary64 nearest to it is finite; an int, or a float rounded toward
    zero, at an integer dtype that holds it.  For any other scalar numpy
    raises ([OverflowError], or [ValueError] for a NaN at an integer
    dtype). *)
Definition scalar_fits (d : dtype) (v : scalar) : bool :=
  match d, v with
  | F8, SF _ => true
  | F8, SI z =>
      match f64_of_Z z with
      | S754_infinity _ | S754_nan => false
      | _ => true
      end
  | _, SI z => in_range d z
  | _, SF x =>
      match f64_trunc x with
      | Some z => in_range d z
      | None => false
      end
  end.

Fixpoint has_char (c : ascii) (s : string) : bool :=
  match s with
  | EmptyString => false
  | String c' s' => Ascii.eqb c c' || has_char c s'
  end.

(** A name with a "/" is a path to h5py: [create_dataset] makes the
    subgroups on the way, and a name that begins with "/" starts at the
    root of the file. *)
Definition has_slash (k : string) : bool := has_char "/" k.

(** A name that [g.create_dataset] takes as the name of a member of [g]
    itself: no path, not "." (the group), not empty and without NUL (both
    refused). *)
Definition member_name (k : string) : bool :=
  negb (String.eqb k "") && negb (String.eqb k ".")
  && negb (has_slash k) && negb (has_char "000" k).

(** Data that [np.array] takes as it is modelled: an array, a Python
    float, or a Python int that int64 holds.  (A larger int becomes a
    uint64 or an object array, which keeps its value, or an
    [OverflowError] in the cast to "f8".) *)
Definition plain_data (x : array_like) : bool :=
  match x with
  | AScalar (SI z) => in_range I8 z
  | _ => true
  end.

(** An option value that [np.array(v).astype("f8")] converts as
    [options.to_f8_array] says: plain data, or a string that reads as a
    number. *)
Definition numeric_value `{!FloatParser} (v : options.pyval) : bool :=
  match v with
  | options.PData x => plain_data x
  | options.PStr s =>
      match float_of_string s with
      | Some _ => true
      | None => false
      end
  end.

(** ** Layouts and formulas the properties are stated with *)

(** Three nested ranges, innermost fastest. *)
Definition tab3 {X} (a b c : nat) (f : nat -> nat -> nat -> X) : list X :=
  seq 0 a ≫= fun i => seq 0 b ≫= fun j => seq 0 c ≫= fun k => [f i j k].

(** The attributes and datasets of a freshly added group. *)
Definition new_group (m : meta) (desc : option string) : group :=
  {| gattrs := <["date" := m_date m]>
                 (<["description" := default (m_defdesc m) desc]> ∅);
     gdatasets := ∅ |}.

(** A group after a run of [create_dataset] calls. *)
Definition with_datasets `{!Platform} (g0 : group)
    (l : list (string * list Z * array_like * option dtype)) : group :=
  foldl (fun g '(nm, shp, data, d) =>
           add_dataset g nm (stored_as shp (asarray d data))) g0 l.

(** The group [E_3DS.write_hdf5] leaves in the file, from the arrays as
    they are handed to [create_dataset]. *)
Definition E_3DS_group `{!Platform} (m : meta) (desc : option string)
    (rmin rmax : scalar) (nr : Z) (zmin zmax : scalar) (nz : Z)
    (phimin phimax : scalar) (nphi : Z) (er ephi ez : ndarray) : group :=
  with_datasets (new_group m desc)
    [ ("rmin", [1], AScalar rmin, Some F8);
      ("rmax", [1], AScalar rmax, Some F8);
      ("nr", [1], AScalar (SI nr), Some I4);
      ("phimin", [1], AScalar phimin, Some F8);
      ("phimax", [1], AScalar phimax, Some F8);
      ("nphi", [1], AScalar (SI nphi), Some I4);
      ("zmin", [1], AScalar zmin, Some F8);
      ("zmax", [1], AScalar zmax, Some F8);
      ("nz", [1], AScalar (SI nz), Some I4);
      ("er", [nz; nphi; nr], AArray er, Some F8);
      ("ephi", [nz; nphi; nr], AArray ephi, Some F8);
      ("ez", [nz; nphi; nr], AArray ez, Some F8) ].

(** [transpose(a, (2,1,0))] of an array known to be 3-D. *)
Definition rev_axes (a : ndarray) : ndarray :=
  match shape a with
  | [p; q; r] =>
      {| shape := [r; q; p];
         buf := buf_take (tab3 r q p (fun k j i => ((i * q + j) * r + k)%nat))
                         (buf a) |}
  | _ => a
  end.

(** A platform on which a conversion to an integer dtype stores the most
    negative integer for a value it cannot represent (the "integer
    indefinite" of x86). *)
Definition indefinite_platform : Platform :=
  {| int_of_invalid := fun d _ => int_min d |}.

(** A group after a run of [create_dataset(...).attrs['unit'] = u] lines. *)
Definition with_unit_datasets `{!Platform} (g0 : group)
    (l : list (string * list Z * array_like * dtype * string)) : group :=
  foldl (fun g '(nm, shp, data, d, u) =>
           let a := stored_as shp (asarray (Some d) data) in
           set_dattr (add_dataset g nm a) nm "unit" u
             {| dvalue := a; dattrs := ∅ |}) g0 l.

(** The group [mrk_prt.write_hdf5] leaves in the file. *)
Definition mrk_prt_group `{!Platform} (m : meta) (desc : option string) (n : Z)
    (ids mass charge r phi z vr vphi vz anum znum weight time : ndarray)
    : group :=
  with_unit_datasets (new_group m desc)
    [ ("n", [1; 1], AScalar (SI n), I8, "1");
      ("r", [n; 1], AArray r, F8, "m");
      ("phi", [n; 1], AArray phi, F8, "deg");
      ("z", [n; 1], AArray z, F8, "m");
      ("vr", [n; 1], AArray vr, F8, "m/s");
      ("vphi", [n; 1], AArray vphi, F8, "m/s");
      ("vz", [n; 1], AArray vz, F8, "m/s");
      ("mass", [n; 1], AArray mass, F8, "amu");
      ("charge", [n; 1], AArray charge, I4, "e");
      ("anum", [n; 1], AArray anum, I4, "1");
      ("znum", [n; 1], AArray znum, I4, "1");
      ("weight", [n; 1], AArray weight, F8, "markers/s");
      ("time", [n; 1], AArray time, F8, "s");
      ("id", [n; 1], AArray ids, I8, "1") ].

(** The integers of a buffer of an integer dtype. *)
Definition buf_ints (b : buffer) : option (list Z) :=
  match b with
  | BufF8 _ => None
  | BufI4 l | BufI8 l => Some l
  end.

(** [stored] holds, at every position, the float of [src] rounded toward
    zero, wherever that integer exists and fits the dtype [d]. *)
Definition truncated_into (d : dtype) (src stored : buffer) : Prop :=
  forall l, src = BufF8 l ->
    exists zs, buf_ints stored = Some zs
      /\ length zs = length l
      /\ forall i x z, l !! i = Some x -> f64_trunc x = Some z ->
           in_range d z = true -> zs !! i = Some z.

(** The dataset [nm] of [G] has dtype [d], shape [shp] and unit [u], and
    holds the elements of [src] converted to [d]. *)
Definition stored_dataset `{!Platform} (G : group) (nm : string) (d : dtype)
    (shp : list nat) (src : ndarray) (u : string) : Prop :=
  exists ds,
    gdatasets G !! nm = Some ds
    /\ dtype_of (dvalue ds) = d
    /\ shape (dvalue ds) = shp
    /\ buf (dvalue ds) = buf_astype d (buf src)
    /\ dattrs ds !! "unit" = Some u.

(** The dataset [nm] of [G] holds the floats of [src] rounded toward zero. *)
Definition stored_truncated (G : group) (nm : string) (d : dtype)
    (src : ndarray) : Prop :=
  exists ds,
    gdatasets G !! nm = Some ds
    /\ truncated_into d (buf src) (buf (dvalue ds)).

(** The datasets of the options group after the loop of
    [options.write_hdf5] has gone through [opts] without raising. *)
Definition options_step `{!Platform} `{!FloatParser}
    (D : gmap string dataset) (kv : string * options.pyval)
    : gmap string dataset :=
  if options.is_option kv.1 then
    match options.to_f8_array kv.2 with
    | Ok a => <[kv.1 := {| dvalue := stored_as [Z.of_nat (size a)] a;
                           dattrs := ∅ |}]> D
    | Raise _ => D
    end
  else D.

Definition options_stored `{!Platform} `{!FloatParser}
    (opts : list (string * options.pyval)) (D : gmap string dataset)
    : gmap string dataset :=
  foldl options_step D opts.

(** The array [np.array(x).astype("f8")] laid out in one dimension. *)
Definition flat_f8 `{!Platform} (x : array_like) : ndarray :=
  {| shape := [size (asarray None x)];
     buf := buf_astype F8 (buf (asarray None x)) |}.

(** The format [options.read_hdf5] returns a value in: a one-dimensional
    float64 array. *)
Definition is_flat_f8 (v : options.pyval) : Prop :=
  exists a n, v = options.PData (AArray a) /\ shape a = [n] /\ dtype_of a = F8.

(** The length of the vector with components [a], [b], [c]:
    sqrt(a^2 + b^2 + c^2). *)
Definition norm3 (a b c : result ndarray) : result ndarray :=
  np_sqrt (np_add (np_add (np_square a) (np_square b)) (np_square c)).

(** The pitch as the specification writes it:
    (vr*br + vz*bz + vphi*bphi) / (|B| * |v|). *)
Definition pitch_formula (vr vz vphi br bz bphi : ndarray) : result ndarray :=
  np_truediv
    (np_add (np_add (np_mul (Ok vr) (Ok br)) (np_mul (Ok vz) (Ok bz)))
            (np_mul (Ok vphi) (Ok bphi)))
    (np_mul (norm3 (Ok br) (Ok bz) (Ok bphi)) (norm3 (Ok vr) (Ok vz) (Ok vphi))).

(** A float64 array, from its shape and its elements in C order. *)
Definition f8 (s : list nat) (l : list f64) : ndarray :=
  {| shape := s; buf := BufF8 l |}.

(** The binary64 operation of an array operator. *)
Definition f64_op (op : binop) : f64 -> f64 -> f64 :=
  match op with Add => f64_add | Mul => f64_mul | TrueDiv => f64_div end.

(** a1*b1 + a2*b2 + a3*b3 and sqrt(a^2 + b^2 + c^2) in binary64, summed
    from the left. *)
Definition dot3 (a1 a2 a3 b1 b2 b3 : f64) : f64 :=
  f64_add (f64_add (f64_mul a1 b1) (f64_mul a2 b2)) (f64_mul a3 b3).

Definition len3 (a b c : f64) : f64 :=
  f64_sqrt (f64_add (f64_add (f64_mul a a) (f64_mul b b)) (f64_mul c c)).

(** The pitch of one marker: v.B / (|B| |v|). *)
Definition pitch1 (vr vz vphi br bz bphi : f64) : f64 :=
  f64_div (dot3 vr vz vphi br bz bphi)
          (f64_mul (len3 br bz bphi) (len3 vr vz vphi)).

(** The only error array arithmetic raises. *)
Definition broadcast_error : exn :=
  ValueError "operands could not be broadcast together".

Definition tame (r : result ndarray) : Prop :=
  forall e, r = Raise e -> e = broadcast_error.

(** The dataset [k] of the group a handle points to, if both exist. *)
Definition dataset_at (fs : fsys) (g : ghandle) (k : string) : option dataset :=
  group_at fs g ≫= fun G => gdatasets G !! k.

(** ** Concrete inputs *)

Module Sample.

Definition meta0 : meta :=
  {| m_qid := "0000000001"; m_date := "2020-01-01 00:00:00";
     m_defdesc := "No description." |}.

Definition f64_one : f64 := S754_finite false 4503599627370496 (-52).

Definition floats (l : list Z) : buffer := BufF8 (f64_of_Z <$> l).

(** A float64 field component on a 2 x 1 x 3 grid. *)
Definition field : ndarray :=
  {| shape := [2; 1; 3]%nat; buf := floats [0; 1; 2; 3; 4; 5] |}.

(** An integer field component on a 1 x 1 x 1 grid. *)
Definition int_field : ndarray :=
  {| shape := [1; 1; 1]%nat; buf := BufI8 [1] |}.

(** Per-marker arrays for two markers. *)
Definition two_floats : ndarray :=
  {| shape := [2]%nat; buf := floats [3; 4] |}.
Definition two_halves : ndarray :=
  {| shape := [2]%nat;
     buf := BufF8 [f64_div (f64_of_Z 5) (f64_of_Z 2);
                   f64_div (f64_of_Z (-3)) (f64_of_Z 2)] |}.
Definition two_ints : ndarray :=
  {| shape := [2]%nat; buf := BufI8 [1; 2] |}.
Definition three_floats : ndarray :=
  {| shape := [3]%nat; buf := floats [1; 2; 3] |}.

(** A 2 x 2 float64 option value. *)
Definition square : ndarray :=
  {| shape := [2; 2]%nat; buf := floats [1; 2; 3; 4] |}.

(** Options in the format [read_hdf5] returns. *)
Definition options_read_format : list (string * options.pyval) :=
  [ ("qid", options.PStr "0000000042");
    ("SIM_MODE", options.PData (AArray {| shape := [1]%nat;
                                         buf := floats [3] |}));
    ("ENDCOND_LIM", options.PData (AArray two_floats)) ].

(** Options as a caller may build them: a Python int, a nested list. *)
Definition options_mixed : list (string * options.pyval) :=
  [ ("description", options.PStr "test");
    ("SIM_MODE", options.PData (AScalar (SI 3)));
    ("GRID", options.PData (AArray {| shape := [2; 2]%nat;
                                     buf := BufI8 [1; 2; 3; 4] |})) ].

(** Options with a number given as a string. *)
Definition options_text : list (string * options.pyval) :=
  [ ("description", options.PStr "test");
    ("SIM_MODE", options.PData (AScalar (SI 3)));
    ("FIXEDSTEP_USERDEFINED", options.PStr "0.5") ].

(** A file holding one marker group with two markers: positions,
    velocities and mass. *)
Definition marker_group : group :=
  {| gattrs := ∅;
     gdatasets :=
       list_to_map
         ((fun '(nm, l) =>
             (nm, {| dvalue := {| shape := [2; 1]%nat; buf := floats l |};
                     dattrs := ∅ |}))
            <$> [ ("r", [6; 7]); ("z", [0; 1]); ("phi", [0; 90]);
                  ("vr", [3; 0]); ("vz", [4; 0]); ("vphi", [0; 5]);
                  ("mass", [4; 4]) ]) |}.

Definition marker_files : fsys :=
  {[ "markers.h5" := HDF5 {[ "marker" := {[ "prt_0000000001" := marker_group ]} ]} ]}.

Definition marker_self : ghandle :=
  {| h_fn := "markers.h5"; h_parent := "marker"; h_name := "prt_0000000001" |}.

(** A field along z, of strength 2, at every point. *)
Definition uniform_bz (R phi z : ndarray) (t : scalar) (quantity : string)
    : result ndarray :=
  Ok {| shape := shape R;
        buf := BufF8 ((fun _ => if String.eqb quantity "bz"
                                 then f64_of_Z 2 else f64_of_Z 0)
                      <$> buf_scalars (buf R)) |}.

(** An MHD evaluation that gives every quantity the value 1 at every
    point. *)
Definition ones_mhd (R phi z : ndarray) (t : scalar)
    : result (gmap string ndarray) :=
  let one := {| shape := shape R;
                buf := BufF8 ((fun _ => f64_one) <$> buf_scalars (buf R)) |} in
  Ok (list_to_map ((fun q => (q, one)) <$> LibMhd.quantities)).



End Sample.

(** ** Notions the further properties are stated with *)

(** Nothing but the group [g] differs between [fs] and [fs']: every other
    group of every file, and every other file, is as it was. *)
Definition only_group_changed (g : ghandle) (fs fs' : fsys) : Prop :=
  (forall g', g' <> g -> group_at fs' g' = group_at fs g')
  /\ (forall fn, fn <> h_fn g -> fs' !! fn = fs !! fn).

(** Whatever the computation does and however it ends, it changes
    nothing but the group [g]. *)
Definition changes_only {A} (g : ghandle) (c : io A) : Prop :=
  forall fs r fs', c fs = (r, fs') -> only_group_changed g fs fs'.

(** What a value of an options dictionary becomes when it is written and
    read back. *)
Definition as_read `{!Platform} (v : options.pyval) : options.pyval :=
  match v with
  | options.PData x => options.PData (AArray (flat_f8 x))
  | options.PStr _ => v
  end.

(** Element [i], counted in C order, of an array. *)
Definition item (a : ndarray) (i : nat) : option scalar :=
  buf_scalars (buf a) !! i.

(** Where element (i,j,k) sits, in C order, in an array whose second and
    third axes have the lengths [q] and [r]. *)
Definition pos3 (q r i j k : nat) : nat := ((i * q + j) * r + k)%nat.

(** A scalar converted to float64. *)
Definition as_f8 (v : scalar) : scalar := SF (to_f64 v).

(** A one-element array. *)
Definition one_f8 (v : scalar) : ndarray :=
  {| shape := [1%nat]; buf := BufF8 [to_f64 v] |}.
Definition one_i4 (z : Z) : ndarray :=
  {| shape := [1%nat]; buf := BufI4 [z] |}.


Module Cases.

Definition stored (a : ndarray) : dataset := {| dvalue := a; dattrs := ∅ |}.

(** A field component as it lies in a file, with shape (3,1,2). *)
Definition field_on_disk : ndarray :=
  {| shape := [3; 1; 2]%nat; buf := Sample.floats [0; 3; 1; 4; 2; 5] |}.

(** A file with one stored field, and the same without its "ez". *)
Definition field_group : group :=
  {| gattrs := ∅;
     gdatasets := {[ "er" := stored field_on_disk;
                     "ephi" := stored field_on_disk;
                     "ez" := stored field_on_disk;
                     "nr" := stored {| shape := [1%nat]; buf := BufI4 [2] |} ]} |}.

Definition field_files : fsys :=
  {[ "in.h5" := HDF5 {[ "efield" := {[ "E_3DS_0000000001" := field_group ]} ]} ]}.

Definition field_group_no_ez : group :=
  {| gattrs := ∅;
     gdatasets := {[ "er" := stored field_on_disk;
                     "ephi" := stored field_on_disk ]} |}.

Definition field_files_no_ez : fsys :=
  {[ "in.h5" := HDF5 {[ "efield" := {[ "E_3DS_0000000001" := field_group_no_ez ]} ]} ]}.

Definition field_self : ghandle :=
  {| h_fn := "in.h5"; h_parent := "efield"; h_name := "E_3DS_0000000001" |}.

(** The sample markers without their mass. *)
Definition marker_group_no_mass : group :=
  {| gattrs := ∅;
     gdatasets := delete "mass" (gdatasets Sample.marker_group) |}.

Definition marker_files_no_mass : fsys :=
  {[ "markers.h5" :=
       HDF5 {[ "marker" := {[ "prt_0000000001" := marker_group_no_mass ]} ]} ]}.

(** An energy that is mass times speed squared, for the example. *)
Definition mv2 (mass v : ndarray) : result ndarray :=
  np_mul (Ok mass) (np_square (Ok v)).

(** A file with one options group; one of its datasets is named "date". *)
Definition options_group : group :=
  {| gattrs := {[ "date" := "2020-01-01 00:00:00"; "description" := "test" ]};
     gdatasets := {[ "SIM_MODE" := stored {| shape := [1%nat];
                                             buf := Sample.floats [3] |};
                     "date" := stored Sample.two_floats ]} |}.

Definition options_files : fsys :=
  {[ "in.h5" := HDF5 {[ "options" := {[ "opt-0000000042" := options_group ]} ]} ]}.

(** What [options.read_hdf5] returns for it, as items. *)
Definition options_items : list (string * options.pyval) :=
  [ ("qid", options.PStr "0000000042");
    ("date", options.PData (AArray Sample.two_floats));
    ("description", options.PStr "test");
    ("SIM_MODE", options.PData (AArray {| shape := [1%nat];
                                         buf := Sample.floats [3] |})) ].

(** A dictionary whose second option is no number. *)
Definition options_bad : list (string * options.pyval) :=
  [ ("SIM_MODE", options.PData (AScalar (SI 3)));
    ("ENDCOND_LIM", options.PStr "soon");
    ("GRID", options.PData (AArray Sample.square)) ].




End Cases.

(** ** textwrap.dedent *)

Module textwrap.

Definition is_indent (c : ascii) : bool := Ascii.eqb c " " || Ascii.eqb c "009".

Fixpoint all_indent (l : string) : bool :=
  match l with
  | EmptyString => true
  | String c l' => is_indent c && all_indent l'
  end.

(** A line of spaces and tabs, at least one: it is emptied. *)
Definition whitespace_only (l : string) : bool :=
  match l with EmptyString => false | _ => all_indent l end.

(** The spaces and tabs a line begins with, when something else follows
    them on the line. *)
Fixpoint indent_of (l : string) : option string :=
  match l with
  | EmptyString => None
  | String c l' =>
      if is_indent c then String c <$> indent_of l' else Some EmptyString
  end.

Fixpoint common_prefix (a b : string) : string :=
  match a, b with
  | String x a', String y b' =>
      if Ascii.eqb x y then String x (common_prefix a' b') else EmptyString
  | _, _ => EmptyString
  end.

(** The margin: what all the indented lines begin with. *)
Definition margin (ls : list string) : option string :=
  foldl (fun m l =>
           match indent_of l with
           | None => m
           | Some i => Some (match m with
                             | None => i
                             | Some m => common_prefix m i
                             end)
           end) None ls.

Fixpoint strip_prefix (m l : string) : option string :=
  match m, l with
  | EmptyString, _ => Some l
  | String x m', String y l' =>
      if Ascii.eqb x y then strip_prefix m' l' else None
  | _, EmptyString => None
  end.

Definition join (ls : list string) : string :=
  match ls with
  | [] => EmptyString
  | l :: ls' => foldl (fun s l' => s +:+ String "010" l') l ls'
  end.

(** [textwrap.dedent(text)]: lines of blanks are emptied, and the margin
    is taken off every line that begins with it. *)
Definition dedent (text : string) : string :=
  let ls := (fun l => if whitespace_only l then EmptyString else l)
              <$> erad.lines text in
  match margin ls with
  | Some (String _ _ as mg) =>
      join ((fun l => default l (strip_prefix mg l)) <$> ls)
  | _ => join ls
  end.

End textwrap.

(** ** a5py/ascot5io/options.py: the defaults and the annotated listing *)

Module options_info.

(** An element of the lists [get_default] and [read_hdf5] build: a banner,
    the tuple [(text,)], or a parameter, the tuple [(name, comment,
    value)]. *)
Inductive entry (V : Type) : Type :=
| Banner (text : string)
| Param (name cmt : string) (val : V).
Arguments Banner {V} text.
Arguments Param {V} name cmt val.

(** The values [get_default] lists: Python ints, floats (the binary64
    nearest to the literal) and lists of ints. *)
Definition py_int (z : Z) : options.pyval := options.PData (AScalar (SI z)).
Definition float_literal (s : string) : f64 :=
  default S754_nan (Decimal.parse s).
Definition py_float (s : string) : options.pyval :=
  options.PData (AScalar (SF (float_literal s))).
Definition py_neg_float (s : string) : options.pyval :=
  options.PData (AScalar (SF (SFopp (float_literal s)))).
Definition py_int_list (l : list Z) : options.pyval :=
  options.PData (AArray {| shape := [length l]; buf := BufI8 l |}).

(** The list [info] of [get_default], as its [append] calls build it. *)
Definition info : list (entry options.pyval) :=
[ Banner
"    #**************************************************************************#
    #*                      SIMULATION MODE AND TIME-STEP                     *#
    #*                                                                        *#
    #**************************************************************************#
    ";
Param "SIM_MODE"
"         # Simulation mode (1, 2, 3, 4)
         # - 1 Gyro-orbit
         # - 2 Guiding center
         # - 3 Hybrid
         # - 4 Magnetic field lines
         "
(py_int 3);
Param "ENABLE_ADAPTIVE"
"         # Use adaptive time-step (0, 1)
         # This option is used only if SIM_MODE = 2 or 3. Gyro-orbit
         # simulations are always done with fixed time-step and magnetic field line
         # simulations with adaptive time-step.
         # - 0 Use fixed time-step
         # - 1 Use adaptive time-step
         "
(py_int 1);
Param "RECORD_GO_AS_GC"
"         # Record GOs as GCs in diagnostics (0, 1)
         # - 0 Record GOs as GOs
         # - 1 Record GOs as GCs
         "
(py_int 0);
Param "FIXEDSTEP_USE_USERDEFINED"
"         # Define fixed time-step value explicitly (0,1)
         # Note: The adaptive scheme uses fixed time-step value as an initial step.
         # - 0 Calculate time-step from FIXEDSTEP_NSTEPS_PER_GYROTIME
         # - 1 Use opt.opt.FIXEDSTEP_USERDEFINED as a time-step
         "
(py_int 0);
Param "FIXEDSTEP_USERDEFINED"
"         # User-defined time-step [s]
         "
(py_float "1e-8");
Param "FIXEDSTEP_NSTEPS_PER_GYROTIME"
"         # Time-step is 2pi / ( gyrofrequency * N ) where N is this parameter
         "
(py_int 20);
Param "ADAPTIVE_TOL_ORBIT"
"         # Relative error tolerance for orbit following in adaptive scheme
         "
(py_float "1e-8");
Param "ADAPTIVE_TOL_CCOL"
"         # Relative error tolerance for Coulomb collisions in adaptive scheme
         "
(py_float "1e-1");
Param "ADAPTIVE_MAX_DRHO"
"         # Maximum allowed change in rho during one time-step in adaptive scheme
         "
(py_float "0.1");
Param "ADAPTIVE_MAX_DPHI"
"         # Maximum allowed change in phi during one time-step in adaptive scheme
         "
(py_int 2);
Banner
"    #**************************************************************************#
    #*                             END CONDITIONS                             *#
    #*                                                                        *#
    #**************************************************************************#
    ";
Param "ENDCOND_SIMTIMELIM"
("         # Terminate when marker's clock (" +:+ String "034" ("laboratory" +:+ String "034" ") time reaches a limit
         # The limit is set by ENDCOND_MAX_SIM_TIME
         "))
(py_int 1);
Param "ENDCOND_CPUTIMELIM"
"         # Terminate when marker's cpu time reaches a limit
         # The limit is set by ENDCOND_MAX_CPU_TIME
         "
(py_int 1);
Param "ENDCOND_RHOLIM"
"         # Terminate if marker goes outside given rho boundaries
         # rho boundaries are defined by ENDCOND_MAX_RHO and ENDCOND_MAX_RHO.
         "
(py_int 0);
Param "ENDCOND_ENERGYLIM"
"         # Terminate when marker energy is below a user-specified value
         # The user specified values are ENDCOND_MIN_ENERGY and
         # ENDCOND_MIN_ENERGY_TIMES_THERMAL. Marker is terminated when either
         # of these limits is reached.
         "
(py_int 1);
Param "ENDCOND_WALLHIT"
"         # Terminate when marker impacts wall
         "
(py_int 1);
Param "ENDCOND_MAXORBS"
"         # Terminate when marker has completed user-specified number of orbits
         # Limit ENDCOND_MAX_TOROIDALORBS is used for a number of toroidal
         # and ENDCOND_MAX_POLOIDALORBS for poloidal orbits. Marker is
         # terminated when either of these limits is reached.
         "
(py_int 0);
Param "ENDCOND_MAX_SIM_TIME"
"         # Maximum simulation time [s]
         "
(py_int 1);
Param "ENDCOND_MAX_CPU_TIME"
"         # Maximum cpu time [s]
         "
(py_int 3600);
Param "ENDCOND_MAX_RHO"
"         # Maximum rho value
         "
(py_int 2);
Param "ENDCOND_MIN_RHO"
"         # Minimum rho value
         "
(py_int 0);
Param "ENDCOND_MIN_ENERGY"
"         # Minimum energy [eV]
         "
(py_float "1e3");
Param "ENDCOND_MIN_ENERGY_TIMES_THERMAL"
"         # Minimum energy limit local electron thermal energy times this value
         "
(py_int 2);
Param "ENDCOND_MAX_TOROIDALORBS"
"         # Maximum number of toroidal orbits
         "
(py_int 100);
Param "ENDCOND_MAX_POLOIDALORBS"
"         # Maximum number of poloidal orbits
         "
(py_int 100);
Banner
"    #**************************************************************************#
    #*                               PHYSICS                                  *#
    #*                                                                        *#
    #**************************************************************************#
    ";
Param "ENABLE_ORBIT_FOLLOWING"
"         # Trace markers in an electromagnetic field
         "
(py_int 1);
Param "ENABLE_COULOMB_COLLISIONS"
"         # Markers experience Coulomb collisions with background plasma
         "
(py_int 1);
Param "DISABLE_FIRSTORDER_GCTRANS"
"         # Disable first order guiding center transformation in velocity space
         "
(py_int 0);
Param "DISABLE_ENERGY_CCOLL"
"         # Disable guiding center energy collisions
         "
(py_int 0);
Param "DISABLE_PITCH_CCOLL"
"         # Disable guiding center pitch collisions
         "
(py_int 0);
Param "DISABLE_GCDIFF_CCOLL"
"         # Disable guiding center spatial diffusion
         "
(py_int 0);
Banner
"    #**************************************************************************#
    #*                            DISTRIBUTIONS                               *#
    #*                                                                        *#
    #**************************************************************************#
    ";
Param "ENABLE_DIST_5D"
"         # Collect distribution histogram in [R, phi, z, vpa, vpe, t, q]
         # The coordinates are
         #   - R   major radius
         #   - phi toroidal angle
         #   - z   z-coordinate
         #   - vpa velocity component parallel to magnetic field
         #   - vpe velocity component perpendicular to magnetic field
         #   - t   time
         #   - q   charge
         "
(py_int 1);
Param "ENABLE_DIST_6D"
"         # Collect distribution histogram in [R, phi, z, vR, vphi, vz, t, q]
         # The coordinates are
         #    - R    major radius
         #    - phi  toroidal angle
         #    - z    z-coordinate
         #    - vR   velocity R-component
         #    - vphi velocity phi-component
         #    - vz   velocity z-component
         #    - t    time
         #    - q    charge
         "
(py_int 1);
Param "ENABLE_DIST_rho5D"
"         # Collect distribution histogram in [rho, pol, phi, vpa, vpe, t, q]
         # The coordinates are
         #    - rho  flux surface
         #    - pol  poloidal angle
         #    - phi  toroidal angle
         #    - z    z-coordinate
         #    - vpa  velocity component parallel to magnetic field
         #    - vpe  velocity component perpendicular to magnetic field
         #    - t    time
         #    - q    charge
         "
(py_int 1);
Param "ENABLE_DIST_rho6D"
"         # Collect distribution histogram in [rho, pol, phi, vR, vphi, vz, t, q]
         # The coordinates are
         #    - rho  flux surface
         #    - pol  poloidal angle
         #    - phi  toroidal angle
         #    - z    z-coordinate
         #    - vR   velocity R-component
         #    - vphi velocity phi-component
         #    - vz   velocity z-component
         #    - t    time
         #    - q    charge
         "
(py_int 1);
Param "DIST_MIN_R"
"         # Minimum bin edge for major R coordinate [m]
         "
(py_float "0.1");
Param "DIST_MAX_R"
"         # Maximum bin edge for R coordinate [m]
         "
(py_int 10);
Param "DIST_NBIN_R"
"         # Number of bins the interval [DIST_MIN_R, DIST_MAX_R] is divided to
         "
(py_int 10);
Param "DIST_MIN_phi"
"         # Minimum bin edge for phi coordinate [deg]
         "
(py_int 0);
Param "DIST_MAX_phi"
"         # Maximum bin edge for phi coordinate [deg]
         "
(py_int 360);
Param "DIST_NBIN_phi"
"         # Number of bins the interval [DIST_MIN_phi, DIST_MAX_phi] is divided to
         "
(py_int 10);
Param "DIST_MIN_z"
"         # Minimum bin edge for z coordinate [m]
         "
(py_int (- 5));
Param "DIST_MAX_z"
"         # Maximum bin edge for z coordinate [m]
         "
(py_int 5);
Param "DIST_NBIN_z"
"         # Number of bins the interval [DIST_MIN_z, DIST_MAX_z] is divided to
         "
(py_int 10);
Param "DIST_MIN_rho"
"         # Minimum bin edge for rho coordinate
         "
(py_int 0);
Param "DIST_MAX_rho"
"         # Maximum bin edge for rho coordinate
         "
(py_int 2);
Param "DIST_NBIN_rho"
"         # Number of bins the interval [DIST_MIN_rho, DIST_MAX_rho] is divided to
         "
(py_int 10);
Param "DIST_MIN_pol"
"         # Minimum bin edge for pol coordinate [deg]
         "
(py_int 0);
Param "DIST_MAX_pol"
"         # Maximum bin edge for pol coordinate [deg]
         "
(py_int 360);
Param "DIST_NBIN_pol"
"         # Number of bins the interval [DIST_MIN_pol, DIST_MAX_pol] is divided to
         "
(py_int 10);
Param "DIST_MIN_vpa"
"         # Minimum bin edge for vpa coordinate [m/s]
         "
(py_neg_float "3e8");
Param "DIST_MAX_vpa"
"         # Maximum bin edge for vpa coordinate [m/s]
         "
(py_float "3e8");
Param "DIST_NBIN_vpa"
"         # Number of bins the interval [DIST_MIN_vpa, DIST_MAX_vpa] is divided to
         "
(py_int 10);
Param "DIST_MIN_vpe"
"         # Minimum bin edge for vpe coordinate [m/s]
         "
(py_int 0);
Param "DIST_MAX_vpe"
"         # Maximum bin edge for vpe coordinate [m/s]
         "
(py_float "3e8");
Param "DIST_NBIN_vpe"
"         # Number of bins the interval [DIST_MIN_vpe, DIST_MAX_vpe] is divided to
         "
(py_int 10);
Param "DIST_MIN_vR"
"         # Minimum bin edge for vR coordinate [m/s]
         "
(py_int 0);
Param "DIST_MAX_vR"
"         # Maximum bin edge for vR coordinate [m/s]
         "
(py_float "3e8");
Param "DIST_NBIN_vR"
"         # Number of bins the interval [DIST_MIN_vR, DIST_MAX_vR] is divided to
         "
(py_int 10);
Param "DIST_MIN_vphi"
"         # Minimum bin edge for vphi coordinate [m/s]
         "
(py_int 0);
Param "DIST_MAX_vphi"
"         # Maximum bin edge for vphi coordinate [m/s]
         "
(py_float "3e8");
Param "DIST_NBIN_vphi"
"         # Number of bins the interval [DIST_MIN_vphi, DIST_MAX_vphi] is divided to
         "
(py_int 10);
Param "DIST_MIN_vz"
"         # Minimum bin edge for vz coordinate [m/s]
         "
(py_int 0);
Param "DIST_MAX_vz"
"         # Maximum bin edge for vz coordinate [m/s]
         "
(py_float "3e8");
Param "DIST_NBIN_vz"
"         # Number of bins the interval [DIST_MIN_vz, DIST_MAX_vz] is divided to
         "
(py_int 10);
Param "DIST_MIN_t"
"         # Minimum bin edge for t coordinate [s]
         "
(py_int 0);
Param "DIST_MAX_t"
"         # Maximum bin edge for t coordinate [s]
         "
(py_int 1);
Param "DIST_NBIN_t"
"         # Number of bins the interval [DIST_MIN_t, DIST_MAX_t] is divided to
         "
(py_int 1);
Param "DIST_MIN_q"
"         # Minimum bin edge for q coordinate [e]
         "
(py_int (- 100));
Param "DIST_MAX_q"
"         # Maximum bin edge for q coordinate [e]
         "
(py_int 100);
Param "DIST_NBIN_q"
"         # Number of bins the interval [DIST_MIN_q, DIST_MAX_q] is divided to
         "
(py_int 1);
Banner
"    #**************************************************************************#
    #*                             ORBIT WRITE                                *#
    #*                                                                        *#
    #**************************************************************************#
    ";
Param "ENABLE_ORBITWRITE"
"         # Enable diagnostics that store marker orbit
         #    - 0 Marker orbit diagnostics are not collected
         #    - 1 Marker orbit diagnostics are collected
         "
(py_int 1);
Param "ORBITWRITE_MODE"
"         # What kind of marker orbit diagnostics are collected
         # These are only used if ENABLE_ORBITWRITE is active.
         #    - 0 When marker crosses a plane (Poincare-plot)
         #    - 1 Between given time intervals
         "
(py_int 1);
Param "ORBITWRITE_MAXPOINTS"
"         # Maximum number of points (per marker) to be written
         # If this number is exceeded when marker is being simulated, the oldest
         # points will be replaced as long as the simulation continues. Thus, this
         # parameter is effectively the number of marker's last positions that are
         # stored.
         "
(py_int 10);
Param "ORBITWRITE_TOROIDALANGLES"
"         # Poloidal angles of toroidal planes where toroidal plots are collected
         # Used when ENABLE_ORBITWRITE = 1 and ORBITWRITE_MODE = 0.
         "
(py_int_list [0; 180]);
Param "ORBITWRITE_POLOIDALANGLES"
"         # Toroidal angles of poloidal planes where poloidal plots are collected
         # Used when ENABLE_ORBITWRITE = 1 and ORBITWRITE_MODE = 0.
         "
(py_int_list [0; 180]);
Param "ORBITWRITE_INTERVAL"
"         # Time interval for writing marker state [s]
         # Used when ENABLE_ORBITWRITE = 1 and ORBITWRITE_MODE = 1.
         "
(py_float "1e-8") ].


(** [get_default()]: every text dedented.  (The list is also printed,
    which is not modelled.) *)
Definition get_default : list (entry options.pyval) :=
  (fun namecmtval =>
     match namecmtval with
     | Banner text => Banner (textwrap.dedent text)
     | Param name cmt val => Param name (textwrap.dedent cmt) val
     end) <$> info.

(** The order in which h5py goes through the members of a group is left
    open; every member comes once. *)
Class GroupOrder := {
  keys_of : gmap string dataset -> list string;
  keys_of_NoDup : forall D, NoDup (keys_of D);
  keys_of_elem : forall D k, k ∈ keys_of D <-> is_Some (D !! k)
}.

Definition unknown : string := "Unknown parameter".

(** [namecmtval[0]] *)
Definition key {V} (e : entry V) : string :=
  match e with Banner text => text | Param name _ _ => name end.

(** [(text,) == e] *)
Definition is_banner {V} (text : string) (e : entry V) : bool :=
  match e with
  | Banner text' => String.eqb text text'
  | Param _ _ _ => false
  end.

(** The loop over [defopt] for one name: the banners met that are not in
    [info] yet are appended, up to the parameter of that name; its
    comment, or "Unknown parameter" when there is none, is returned with
    [info]. *)
Fixpoint find_comment {V} (name : string) (defopt : list (entry options.pyval))
    (info : list (entry V)) : list (entry V) * string :=
  match defopt with
  | [] => (info, unknown)
  | Banner text :: defopt' =>
      if existsb (is_banner text) info then find_comment name defopt' info
      else find_comment name defopt' (info ++ [Banner text])%list
  | Param name' cmt _ :: defopt' =>
      if String.eqb name name' then (info, cmt)
      else find_comment name defopt' info
  end.

(** The loop [for name in out], over the names that are no metadata. *)
Definition parse {V} (defopt : list (entry options.pyval))
    (items : list (string * V)) : list (entry V) :=
  foldl (fun info '(name, val) =>
           let '(info, cmt) := find_comment name defopt info in
           (info ++ [Param name cmt val])%list) [] items.

(** [info[i] = x] *)
Definition setitem {A} (l : list A) (i : nat) (x : A) : result (list A) :=
  if (i <? length l)%nat then Ok (<[i := x]> l)
  else Raise (IndexError "list assignment index out of range").

(** The first loop of the sort: for every element of [defopt], the first
    element of [unsorted] with the same first component is put at [i]. *)
Fixpoint sort_known {V} (defopt : list (entry options.pyval))
    (unsorted info : list (entry V)) (i : nat)
    : result (list (entry V) * nat) :=
  match defopt with
  | [] => Ok (info, i)
  | opt :: defopt' =>
      match List.find (fun e => String.eqb (key opt) (key e)) unsorted with
      | Some e =>
          let* info := setitem info i e in
          sort_known defopt' unsorted info (S i)
      | None => sort_known defopt' unsorted info i
      end
  end.

(** [len(e) > 1 and e[1] == "Unknown parameter"] *)
Definition is_unknown {V} (e : entry V) : bool :=
  match e with
  | Banner _ => false
  | Param _ cmt _ => String.eqb cmt unknown
  end.

(** The second loop of the sort. *)
Fixpoint sort_unknown {V} (unsorted info : list (entry V)) (i : nat)
    : result (list (entry V) * nat) :=
  match unsorted with
  | [] => Ok (info, i)
  | e :: unsorted' =>
      if is_unknown e then
        let* info := setitem info i e in
        sort_unknown unsorted' info (S i)
      else sort_unknown unsorted' info i
  end.

Section WithOrder.
Context `{!GroupOrder}.

(** [read_hdf5(fn, qid, info=True)] *)
Definition read_hdf5 (fn qid : string)
    : io (gmap string options.pyval * list (entry ndarray)) :=
  let path := "options" +:+ "/opt-" +:+ qid in
  f ← File_r fn;
  lift (let out := <["qid" := options.PStr qid]> ∅ in
        let* g := getpath f path in
        let* date := getitem (gattrs g) "date" in
        let out := <["date" := options.PStr date]> out in
        let* g := getpath f path in
        let* description := getitem (gattrs g) "description" in
        let out := <["description" := options.PStr description]> out in
        let* g := getpath f path in
        let* data := read_datasets g in
        let out := ((fun a => options.PData (AArray a)) <$> data) ∪ out in
        let names := List.filter options.is_option (keys_of (gdatasets g)) in
        let items := omap (fun name => pair name <$> data !! name) names in
        let defopt := get_default in
        let info := parse defopt items in
        let unsorted := info in
        let* known := sort_known defopt unsorted info 0 in
        let* all := sort_unknown unsorted known.1 known.2 in
        Ok (out, all.1)).
End WithOrder.

End options_info.

(** The comment [read_hdf5] attaches to a parameter. *)
Definition comment_of (defopt : list (options_info.entry options.pyval))
    (name : string) : string :=
  match List.find (fun e => match e with
                            | options_info.Param name' _ _ => String.eqb name name'
                            | options_info.Banner _ => false
                            end) defopt with
  | Some (options_info.Param _ cmt _) => cmt
  | _ => options_info.unknown
  end.

(** What the parsing loop of [read_hdf5] has listed once the options
    [done] are gone through: banners of the defaults and one entry for
    each option, no first component twice. *)
Definition listed {V} (D : list (options_info.entry options.pyval))
    (done : list (string * V)) (U : list (options_info.entry V)) : Prop :=
  NoDup (options_info.key <$> U)
  /\ (forall e, e ∈ U ->
        (exists t, e = options_info.Banner t
                   /\ @options_info.Banner options.pyval t ∈ D)
        \/ (exists k v, e = options_info.Param k (comment_of D k) v
                        /\ (k, v) ∈ done))
  /\ (forall k v, (k, v) ∈ done ->
        options_info.Param k (comment_of D k) v ∈ U).

(** The two runs the sort of [read_hdf5] lays down: for every default
    the first entry with its first component, then the entries with the
    comment "Unknown parameter". *)
Definition known_part {V} (D : list (options_info.entry options.pyval))
    (U : list (options_info.entry V)) : list (options_info.entry V) :=
  omap (fun opt => List.find (fun e => String.eqb (options_info.key opt)
                                                   (options_info.key e)) U) D.

Definition unknown_part {V} (U : list (options_info.entry V))
    : list (options_info.entry V) :=
  List.filter options_info.is_unknown U.

(** The name of a parameter entry. *)
Definition param_name {V} (e : options_info.entry V) : option string :=
  match e with
  | options_info.Param name _ _ => Some name
  | options_info.Banner _ => None
  end.

(** The defaults that come before the parameter [name]: all of them when
    there is no such parameter. *)
Fixpoint before (name : string) (D : list (options_info.entry options.pyval))
    : list (options_info.entry options.pyval) :=
  match D with
  | [] => []
  | options_info.Banner text :: D' => options_info.Banner text :: before name D'
  | options_info.Param name' cmt val :: D' =>
      if String.eqb name name' then []
      else options_info.Param name' cmt val :: before name D'
  end.

(** An entry of the listing is the default [opt] with the value of the
    group [G] in the place of the default value. *)
Definition filled_in (G : gmap string dataset)
    (e : options_info.entry ndarray) (opt : options_info.entry options.pyval)
    : Prop :=
  match opt with
  | options_info.Banner text => e = options_info.Banner text
  | options_info.Param name cmt _ =>
      exists d, G !! name = Some d /\ e = options_info.Param name cmt (dvalue d)
  end.

(** An order of the members of a group, for the examples: the one in which
    the map lists them. *)
Definition listing_order : options_info.GroupOrder.
Proof.
  refine {| options_info.keys_of := fun D => (map_to_list D).*1 |}.
  - intros D. apply NoDup_fst_map_to_list.
  - intros D k. rewrite list_elem_of_fmap. split.
    + intros ([k' d] & -> & Hd%elem_of_map_to_list). by exists d.
    + intros [d Hd]. exists (k, d). split; [done|]. by apply elem_of_map_to_list.
Defined.

(** An options group with two parameters of the defaults, one that the
    defaults do not have, and a dataset named "date". *)
Definition info_group : group :=
  {| gattrs := {[ "date" := "2020-01-01 00:00:00"; "description" := "test" ]};
     gdatasets :=
       {[ "ENDCOND_SIMTIMELIM" :=
            Cases.stored {| shape := [1%nat]; buf := Sample.floats [1] |};
          "SIM_MODE" :=
            Cases.stored {| shape := [1%nat]; buf := Sample.floats [3] |};
          "MY_FLAG" :=
            Cases.stored {| shape := [1%nat]; buf := Sample.floats [7] |};
          "date" := Cases.stored Sample.two_floats ]} |}.

Definition info_files : fsys :=
  {[ "in.h5" := HDF5 {[ "options" := {[ "opt-0000000042" := info_group ]} ]} ]}.

(** An options group with a dataset for every parameter of the defaults. *)
Definition default_group : group :=
  {| gattrs := {[ "date" := "2020-01-01 00:00:00"; "description" := "test" ]};
     gdatasets :=
       list_to_map
         (omap (fun e => match e with
                         | options_info.Param name _ _ =>
                             Some (name, Cases.stored
                                     {| shape := [1%nat];
                                        buf := Sample.floats [1] |})
                         | options_info.Banner _ => None
                         end) options_info.get_default) |}.

Definition default_files : fsys :=
  {[ "in.h5" := HDF5 {[ "options" := {[ "opt-0000000042" := default_group ]} ]} ]}.

(** * Properties *)

(** ** Lists laid out by nested ranges *)

Section SeqBind.
Context {X : Type}.

Lemma length_seq_bind (g : nat -> list X) (m s n : nat) :
  (forall i, length (g i) = m) ->
  length (seq s n ≫= g) = (n * m)%nat.
Proof.
  intros Hg. revert s. induction n as [|n IH]; intros s; simpl; [done|].
  rewrite length_app, Hg, IH. done.
Qed.

Lemma lookup_seq_bind (g : nat -> list X) (m s n i r : nat) :
  (forall i, length (g i) = m) ->
  (i < n)%nat -> (r < m)%nat ->
  (seq s n ≫= g) !! (i * m + r)%nat = g (s + i)%nat !! r.
Proof.
  intros Hg. revert s i. induction n as [|n IH]; intros s i Hi Hr; [lia|].
  simpl. destruct i as [|i].
  - rewrite lookup_app_l by (rewrite Hg; lia).
    simpl. by rewrite Nat.add_0_r.
  - rewrite lookup_app_r by (rewrite Hg; simpl; lia).
    rewrite Hg.
    replace (S i * m + r - m)%nat with (i * m + r)%nat by (simpl; lia).
    rewrite IH by lia. f_equal. f_equal. lia.
Qed.

Lemma Forall_seq_bind (P : X -> Prop) (g : nat -> list X) (s n : nat) :
  (forall i, (s <= i < s + n)%nat -> Forall P (g i)) ->
  Forall P (seq s n ≫= g).
Proof.
  revert s. induction n as [|n IH]; intros s Hg; simpl; [constructor|].
  apply Forall_app. split; [apply Hg; lia|].
  apply IH. intros i Hi. apply Hg. lia.
Qed.

Lemma seq_bind_ext (g h : nat -> list X) (s n : nat) :
  (forall i, (s <= i < s + n)%nat -> g i = h i) ->
  seq s n ≫= g = seq s n ≫= h.
Proof.
  revert s. induction n as [|n IH]; intros s Hg; simpl; [done|].
  rewrite Hg by lia. f_equal. apply IH. intros i Hi. apply Hg. lia.
Qed.

Lemma omap_seq_bind {Y} (f : X -> option Y) (g : nat -> list X) (s n : nat) :
  omap f (seq s n ≫= g) = seq s n ≫= (fun i => omap f (g i)).
Proof.
  revert s. induction n as [|n IH]; intros s; simpl; [done|].
  by rewrite omap_app, IH.
Qed.
Lemma fmap_seq_bind {Y} (f : X -> Y) (g : nat -> list X) (s n : nat) :
  f <$> (seq s n ≫= g) = seq s n ≫= (fun i => f <$> g i).
Proof.
  revert s. induction n as [|n IH]; intros s; simpl; [done|].
  by rewrite fmap_app, IH.
Qed.
End SeqBind.

Lemma seq_bind_blocks (c base s n : nat) :
  seq s n ≫= (fun j => seq (j * c + base) c)
  = seq (s * c + base) (n * c).
Proof.
  revert s. induction n as [|n IH]; intros s; simpl; [done|].
  rewrite IH, seq_app. do 2 f_equal. lia.
Qed.

Lemma seq_bind_singleton (base c : nat) :
  seq 0 c ≫= (fun k => [(base + k)%nat]) = seq base c.
Proof.
  enough (H : forall s, seq s c ≫= (fun k => [(base + k)%nat]) = seq (base + s) c).
  { rewrite H. f_equal. lia. }
  induction c as [|c IH]; intros s; simpl; [done|].
  f_equal. rewrite IH. f_equal. lia.
Qed.

Lemma length_tab3 {X} a b c (f : nat -> nat -> nat -> X) :
  length (tab3 a b c f) = (a * b * c)%nat.
Proof.
  unfold tab3.
  rewrite (length_seq_bind _ (b * c)); [lia|]. intros i.
  rewrite (length_seq_bind _ c); [lia|]. intros j.
  rewrite (length_seq_bind _ 1); [lia|done].
Qed.

Lemma lookup_tab3 {X} a b c (f : nat -> nat -> nat -> X) i j k :
  (i < a)%nat -> (j < b)%nat -> (k < c)%nat ->
  tab3 a b c f !! ((i * b + j) * c + k)%nat = Some (f i j k).
Proof.
  intros Hi Hj Hk. unfold tab3.
  assert (Hin : forall i j, length (seq 0 c ≫= fun k => [f i j k]) = c).
  { intros i' j'. rewrite (length_seq_bind _ 1); [lia|done]. }
  assert (Hmid : forall i,
    length (seq 0 b ≫= fun j => seq 0 c ≫= fun k => [f i j k]) = (b * c)%nat).
  { intros i'. by rewrite (length_seq_bind _ c). }
  replace ((i * b + j) * c + k)%nat with (i * (b * c) + (j * c + k))%nat by lia.
  rewrite (lookup_seq_bind _ (b * c)) by (auto; nia).
  rewrite (lookup_seq_bind _ c) by auto.
  replace k with (k * 1 + 0)%nat at 1 by lia.
  rewrite (lookup_seq_bind _ 1) by (auto; lia).
  done.
Qed.

Lemma Forall_tab3 {X} (P : X -> Prop) a b c (f : nat -> nat -> nat -> X) :
  (forall i j k, (i < a)%nat -> (j < b)%nat -> (k < c)%nat -> P (f i j k)) ->
  Forall P (tab3 a b c f).
Proof.
  intros Hf. unfold tab3.
  apply Forall_seq_bind; intros i Hi.
  apply Forall_seq_bind; intros j Hj.
  apply Forall_seq_bind; intros k Hk.
  repeat constructor. apply Hf; lia.
Qed.

Lemma omap_tab3_ext {X Y} (g g' : X -> option Y) a b c
    (f f' : nat -> nat -> nat -> X) :
  (forall i j k, (i < a)%nat -> (j < b)%nat -> (k < c)%nat ->
     g (f i j k) = g' (f' i j k)) ->
  omap g (tab3 a b c f) = omap g' (tab3 a b c f').
Proof.
  intros Hf. unfold tab3. rewrite !omap_seq_bind.
  apply seq_bind_ext; intros i Hi. rewrite !omap_seq_bind.
  apply seq_bind_ext; intros j Hj. rewrite !omap_seq_bind.
  apply seq_bind_ext; intros k Hk. simpl.
  rewrite Hf by lia. done.
Qed.

Lemma tab3_row_major a b c :
  tab3 a b c (fun i j k => ((i * b + j) * c + k)%nat) = seq 0 (a * b * c).
Proof.
  unfold tab3.
  rewrite (seq_bind_ext _ (fun i => seq (i * (b * c) + 0) (b * c))).
  - rewrite seq_bind_blocks. f_equal; lia.
  - intros i _.
    rewrite (seq_bind_ext _ (fun j => seq (j * c + i * b * c) c)).
    + rewrite seq_bind_blocks. f_equal; lia.
    + intros j _. rewrite seq_bind_singleton. f_equal. lia.
Qed.

Lemma take_idx_seq {X} (l : list X) : take_idx (seq 0 (length l)) l = l.
Proof.
  unfold take_idx. induction l as [|x l IH] using rev_ind; [done|].
  rewrite length_app, seq_app, omap_app. simpl.
  rewrite lookup_app_r, Nat.sub_diag by lia. simpl.
  f_equal. rewrite <- IH at 2.
  apply list_omap_ext. apply Forall2_same_length_lookup_2; [done|].
  intros i x1 x2 H1 H2. rewrite H1 in H2. injection H2 as <-.
  apply lookup_seq in H1 as [-> Hlt]. simpl. by rewrite lookup_app_l.
Qed.

Lemma lookup_take_idx {X} (idx : list nat) (l : list X) n :
  Forall (fun i => (i < length l)%nat) idx ->
  take_idx idx l !! n = idx !! n ≫= fun i => l !! i.
Proof.
  unfold take_idx. intros H. revert n.
  induction H as [|i idx Hi _ IH]; intros n; [done|].
  simpl. destruct (lookup_lt_is_Some_2 l i Hi) as [x Hx]. rewrite Hx.
  destruct n as [|n]; simpl; [by rewrite Hx|apply IH].
Qed.

(** ** Reversing the axes of a 3-D array *)

Lemma indices3 (st : list nat) a b c :
  (fun J => offset J st) <$> indices [a; b; c]
  = tab3 a b c (fun i j k => offset [i; j; k] st).
Proof.
  unfold tab3. simpl indices.
  rewrite fmap_seq_bind. apply seq_bind_ext; intros i _.
  rewrite <- list_fmap_compose, fmap_seq_bind. apply seq_bind_ext; intros j _.
  rewrite <- list_fmap_compose, fmap_seq_bind. apply seq_bind_ext; intros k _.
  done.
Qed.

Lemma tab3_ext {X} a b c (f f' : nat -> nat -> nat -> X) :
  (forall i j k, f i j k = f' i j k) -> tab3 a b c f = tab3 a b c f'.
Proof.
  intros H. unfold tab3.
  apply seq_bind_ext; intros i _. apply seq_bind_ext; intros j _.
  apply seq_bind_ext; intros k _. by rewrite H.
Qed.

(** On shape (p,q,r), [transpose(a,(2,1,0))] has shape (r,q,p) and its
    element (k,j,i) is element (i,j,k) of [a]. *)
Lemma transpose_210 (a : ndarray) p q r :
  shape a = [p; q; r] ->
  transpose a [2; 1; 0]%nat
  = Ok {| shape := [r; q; p];
          buf := buf_take (tab3 r q p (fun k j i => ((i * q + j) * r + k)%nat))
                          (buf a) |}.
Proof.
  intros Hs. unfold transpose. rewrite Hs.
  replace (is_perm_of_range [2; 1; 0]%nat (length [p; q; r])) with true
    by (symmetry; vm_compute; reflexivity).
  cbn [fmap list_fmap nth strides].
  rewrite indices3. do 3 f_equal.
  apply tab3_ext. intros k j i. unfold offset, prod_shape. simpl. lia.
Qed.

Lemma take_idx_210_twice {X} (l : list X) p q r :
  length l = (p * q * r)%nat ->
  take_idx (tab3 p q r (fun i j k => ((k * q + j) * p + i)%nat))
    (take_idx (tab3 r q p (fun k j i => ((i * q + j) * r + k)%nat)) l) = l.
Proof.
  intros Hl. rewrite <- (take_idx_seq l) at 2.
  rewrite Hl, <- tab3_row_major. unfold take_idx at 1 3.
  apply omap_tab3_ext. intros i j k Hi Hj Hk.
  rewrite lookup_take_idx.
  - rewrite lookup_tab3 by done. done.
  - apply Forall_tab3. intros k' j' i' Hk' Hj' Hi'. rewrite Hl.
    assert (H1 : (i' * q + j' + 1 <= p * q)%nat) by nia.
    apply (Nat.mul_le_mono_r _ _ r) in H1. lia.
Qed.

Lemma transpose_210_involutive (a b : ndarray) p q r :
  wf a -> shape a = [p; q; r] ->
  transpose a [2; 1; 0]%nat = Ok b ->
  transpose b [2; 1; 0]%nat = Ok a.
Proof.
  intros Hwf Hs Hb. rewrite (transpose_210 a p q r Hs) in Hb.
  injection Hb as <-. rewrite (transpose_210 _ r q p) by done.
  destruct a as [sh bf]. simpl in *. subst sh. f_equal. f_equal.
  unfold wf, size in Hwf. simpl in Hwf.
  assert (Hlen : buf_len bf = (p * q * r)%nat) by lia.
  destruct bf; simpl in *; f_equal; by apply take_idx_210_twice.
Qed.

Example transpose_2x1x3 :
  transpose {| shape := [2; 1; 3]%nat; buf := BufI8 [0; 1; 2; 3; 4; 5] |}
            [2; 1; 0]%nat
  = Ok {| shape := [3; 1; 2]%nat; buf := BufI8 [0; 3; 1; 4; 2; 5] |}.
Proof. reflexivity. Qed.

Example f64_of_Z_3 : f64_of_Z 3 = S754_finite false 6755399441055744 (-51).
Proof. reflexivity. Qed.

Example f64_trunc_neg_2_5 :
  f64_trunc (f64_div (f64_of_Z (-5)) (f64_of_Z 2)) = Some (-2).
Proof. vm_compute. reflexivity. Qed.

(** ** Running the h5py operations *)

Lemma io_bind_run {A B} (c : io A) (k : A -> io B) (fs : fsys) :
  (c ≫= k) fs
  = match c fs with
    | (Ok a, fs') => k a fs'
    | (Raise e, fs') => (Raise e, fs')
    end.
Proof. reflexivity. Qed.

Lemma io_bind_assoc {A B C} (c : io A) (k1 : A -> io B) (k2 : B -> io C) fs :
  ((c ≫= k1) ≫= k2) fs = (c ≫= fun a => k1 a ≫= k2) fs.
Proof. rewrite !io_bind_run. by destruct (c fs) as [[a|e] fs']. Qed.

Lemma io_bind_ok {A B} (c : io A) (k : A -> io B) fs a fs' :
  c fs = (Ok a, fs') -> (c ≫= k) fs = k a fs'.
Proof. intros H. by rewrite io_bind_run, H. Qed.

Lemma io_bind_raise {A B} (c : io A) (k : A -> io B) fs e fs' :
  c fs = (Raise e, fs') -> (c ≫= k) fs = (Raise e, fs').
Proof. intros H. by rewrite io_bind_run, H. Qed.

Lemma file_at_insert fs fn f : file_at (<[fn := HDF5 f]> fs) fn = Some f.
Proof. unfold file_at. by rewrite lookup_insert_eq. Qed.

Lemma group_in_set f parent nm grp :
  group_in (set_group_in f parent nm grp) parent nm = Some grp.
Proof.
  unfold group_in, set_group_in. rewrite lookup_insert_eq. simpl.
  by rewrite lookup_insert_eq.
Qed.

Lemma group_at_file fs g grp :
  group_at fs g = Some grp ->
  exists f, file_at fs (h_fn g) = Some f
            /\ group_in f (h_parent g) (h_name g) = Some grp.
Proof.
  unfold group_at. destruct (file_at fs (h_fn g)) as [f|]; [|done].
  simpl. eauto.
Qed.

Lemma get_group_ok fs g grp :
  group_at fs g = Some grp -> get_group g fs = (Ok grp, fs).
Proof.
  intros (f & Hf & Hg)%group_at_file. unfold get_group. by rewrite Hf, Hg.
Qed.

Lemma put_group_ok fs g grp0 grp :
  group_at fs g = Some grp0 ->
  exists fs', put_group g grp fs = (Ok tt, fs') /\ group_at fs' g = Some grp.
Proof.
  intros (f & Hf & Hg)%group_at_file. unfold put_group. rewrite Hf.
  eexists; split; [done|]. unfold group_at.
  by rewrite file_at_insert; simpl; rewrite group_in_set.
Qed.

Lemma File_a_ok fs fn :
  appendable fs fn ->
  exists fs', File_a fn fs = (Ok tt, fs')
              /\ file_at fs' fn = Some (default ∅ (file_at fs fn)).
Proof.
  intros Hn. unfold File_a, file_at. unfold appendable in Hn.
  destruct (fs !! fn) as [[f|c]|] eqn:E; [| by destruct (Hn c) |].
  - eexists; split; [done|]. by rewrite E.
  - eexists; split; [done|]. by rewrite lookup_insert_eq.
Qed.

Lemma add_group_ok sep m fn parent grp desc fs f :
  file_at fs fn = Some f ->
  group_in f parent (grp +:+ sep +:+ m_qid m) = None ->
  exists fs',
    let g := {| h_fn := fn; h_parent := parent;
                h_name := grp +:+ sep +:+ m_qid m |} in
    add_group_with sep m fn parent grp desc fs = (Ok g, fs')
    /\ group_at fs' g = Some (new_group m desc).
Proof.
  intros Hf Hfresh. unfold add_group_with. rewrite Hf, Hfresh.
  eexists; split; [done|]. unfold group_at. simpl.
  by rewrite file_at_insert; simpl; rewrite group_in_set.
Qed.

Section CreateDataset.
Context `{!Platform}.

Lemma create_dataset_ok fs g grp nm shp data d :
  group_at fs g = Some grp ->
  gdatasets grp !! nm = None ->
  prod_Z shp = Z.of_nat (size (asarray d data)) ->
  forallb (Z.leb 0) shp = true ->
  exists fs',
    create_dataset g nm shp data d fs = (Ok (g, nm), fs')
    /\ group_at fs' g
       = Some (add_dataset grp nm (stored_as shp (asarray d data))).
Proof.
  intros Hg Hfresh Hsz Hpos. unfold create_dataset.
  rewrite bool_decide_true by done. rewrite Hpos.
  rewrite (io_bind_ok _ _ _ _ _ (get_group_ok _ _ _ Hg)). rewrite Hfresh.
  destruct (put_group_ok fs g grp
              (add_dataset grp nm (stored_as shp (asarray d data))) Hg)
    as (fs' & Hput & Hg').
  rewrite (io_bind_ok _ _ _ _ _ Hput). eauto.
Qed.
End CreateDataset.

Lemma attrs_set_ok fs g grp nm ds k v :
  group_at fs g = Some grp ->
  gdatasets grp !! nm = Some ds ->
  exists fs',
    attrs_set (g, nm) k v fs = (Ok tt, fs')
    /\ group_at fs' g = Some (set_dattr grp nm k v ds).
Proof.
  intros Hg Hds. unfold attrs_set. simpl.
  rewrite (io_bind_ok _ _ _ _ _ (get_group_ok _ _ _ Hg)). rewrite Hds.
  by apply put_group_ok with grp.
Qed.

(** ** E_3DS: validation comes before the file *)

Section E_3DS_props.
Context `{!Platform}.

(** C2.  When one of er, ephi, ez does not have the shape (nr,nphi,nz),
    [E_3DS.write_hdf5] raises a [ValueError] and the files are exactly as
    they were: the file is neither opened (which would create it when
    absent) nor written to. *)
Theorem E_3DS_write_bad_shape_raises m fn rmin rmax nr zmin zmax nz
    phimin phimax nphi er ephi ez desc (fs : fsys) :
  (Z.of_nat <$> shape er <> [nr; nphi; nz]
   \/ Z.of_nat <$> shape ephi <> [nr; nphi; nz]
   \/ Z.of_nat <$> shape ez <> [nr; nphi; nz]) ->
  exists msg,
    E_3DS.write_hdf5 m fn rmin rmax nr zmin zmax nz phimin phimax nphi
      er ephi ez desc fs
    = (Raise (ValueError msg), fs).
Proof.
  intros Hbad. unfold E_3DS.write_hdf5, E_3DS.shape_ne.
  destruct (decide (Z.of_nat <$> shape er = [nr; nphi; nz])) as [He|He].
  2: { rewrite bool_decide_false by done. simpl. eauto. }
  rewrite bool_decide_true by done. simpl.
  destruct (decide (Z.of_nat <$> shape ephi = [nr; nphi; nz])) as [Hp|Hp].
  2: { rewrite bool_decide_false by done. simpl. eauto. }
  rewrite bool_decide_true by done. simpl.
  destruct (decide (Z.of_nat <$> shape ez = [nr; nphi; nz])) as [Hz|Hz].
  2: { rewrite bool_decide_false by done. simpl. eauto. }
  by destruct Hbad as [?|[?|?]].
Qed.
End E_3DS_props.

(** ** E_3DS: what is stored, and reading it back *)

Lemma lift_run {A} (r : result A) fs : lift r fs = (r, fs).
Proof. reflexivity. Qed.

Lemma File_r_ok fs fn f : file_at fs fn = Some f -> File_r fn fs = (Ok f, fs).
Proof.
  unfold file_at, File_r. destruct (fs !! fn) as [[?|]|]; naive_solver.
Qed.

Lemma take_idx_fmap {X Y} (f : X -> Y) idx (l : list X) :
  take_idx idx (f <$> l) = f <$> take_idx idx l.
Proof.
  unfold take_idx. induction idx as [|i idx IH]; [done|].
  cbn [omap list_omap]. rewrite list_lookup_fmap.
  destruct (l !! i); simpl; by rewrite IH.
Qed.

Section AstypeProps.
Context `{!Platform}.

Lemma astype_same d a : dtype_of a = d -> astype d a = a.
Proof.
  destruct a as [sh b]. unfold dtype_of, astype. simpl. intros <-.
  by destruct b.
Qed.

Lemma buf_take_astype d idx b :
  buf_take idx (buf_astype d b) = buf_astype d (buf_take idx b).
Proof.
  destruct d, b; simpl; by rewrite ?take_idx_fmap.
Qed.

End AstypeProps.

Lemma shape3_of_tuple (a : ndarray) (n0 n1 n2 : Z) :
  Z.of_nat <$> shape a = [n0; n1; n2] ->
  shape a = [Z.to_nat n0; Z.to_nat n1; Z.to_nat n2]
  /\ 0 <= n0 /\ 0 <= n1 /\ 0 <= n2.
Proof.
  destruct (shape a) as [|x [|y [|z [|]]]]; try done.
  intros [= <- <- <-]. rewrite !Nat2Z.id. split; [done|lia].
Qed.

Lemma transpose_rev_axes (a : ndarray) p q r :
  shape a = [p; q; r] -> transpose a [2; 1; 0]%nat = Ok (rev_axes a).
Proof.
  intros Hs. rewrite (transpose_210 a p q r Hs). unfold rev_axes. by rewrite Hs.
Qed.

Lemma rev_axes_shape (a : ndarray) p q r :
  shape a = [p; q; r] -> shape (rev_axes a) = [r; q; p].
Proof. intros Hs. unfold rev_axes. by rewrite Hs. Qed.

Ltac io_step H :=
  rewrite (io_bind_ok _ _ _ _ _ H); clear H.

Ltac fresh_name :=
  cbn [with_datasets foldl add_dataset new_group gdatasets];
  repeat (rewrite lookup_insert_ne by done); apply lookup_empty.

Ltac create_step :=
  lazymatch goal with
  | Hg : group_at ?fs ?g = Some ?grp
    |- context [ (create_dataset ?g ?nm ?shp ?data ?d ≫= _) ?fs ] =>
      let fs' := fresh "fs" in
      let Hr := fresh "Hrun" in
      let Hg' := fresh "Hg" in
      let Hfr := fresh "Hfr" in
      let Hsz := fresh "Hsz" in
      let Hp := fresh "Hp" in
      assert (Hfr : gdatasets grp !! nm = None) by fresh_name;
      assert (Hp : forallb (Z.leb 0) shp = true) by done;
      assert (Hsz : prod_Z shp = Z.of_nat (size (asarray d data)));
      [ | destruct (create_dataset_ok fs g grp nm shp data d Hg Hfr Hsz Hp)
            as (fs' & Hr & Hg'); io_step Hr; clear Hg Hfr Hsz Hp ]
  end.

Section E_3DS_write.
Context `{!Platform}.

Lemma E_3DS_write_ok m fn rmin rmax nr zmin zmax nz phimin phimax nphi
    er ephi ez desc (fs : fsys) :
  Z.of_nat <$> shape er = [nr; nphi; nz] ->
  Z.of_nat <$> shape ephi = [nr; nphi; nz] ->
  Z.of_nat <$> shape ez = [nr; nphi; nz] ->
  appendable fs fn ->
  group_in (default ∅ (file_at fs fn)) "efield" ("E_3DS_" +:+ m_qid m) = None ->
  exists fs',
    E_3DS.write_hdf5 m fn rmin rmax nr zmin zmax nz phimin phimax nphi
      er ephi ez desc fs
    = (Ok ("E_3DS_" +:+ m_qid m), fs')
    /\ group_at fs' {| h_fn := fn; h_parent := "efield";
                       h_name := "E_3DS_" +:+ m_qid m |}
       = Some (E_3DS_group m desc rmin rmax nr zmin zmax nz phimin phimax nphi
                 (rev_axes er) (rev_axes ephi) (rev_axes ez)).
Proof.
  intros He Hp Hz Hfile Hfresh.
  apply shape3_of_tuple in He as He'. destruct He' as (Hse & Hnr & Hnphi & Hnz).
  apply shape3_of_tuple in Hp as Hp'. destruct Hp' as (Hsp & _).
  apply shape3_of_tuple in Hz as Hz'. destruct Hz' as (Hsz & _).
  unfold E_3DS.write_hdf5, E_3DS.shape_ne.
  rewrite !bool_decide_true by done. cbn [negb].
  rewrite (transpose_rev_axes _ _ _ _ Hse), (transpose_rev_axes _ _ _ _ Hsp),
    (transpose_rev_axes _ _ _ _ Hsz).
  rewrite !(io_bind_ok _ _ _ _ _ (lift_run _ _)).
  destruct (File_a_ok fs fn Hfile) as (fs1 & Hopen & Hf1). io_step Hopen.
  destruct (add_group_ok "_" m fn "efield" "E_3DS" desc fs1 _ Hf1 Hfresh)
    as (fs2 & Hadd & Hg).
  cbn zeta in Hadd, Hg. io_step Hadd. cbn [h_name].
  assert (Hsize : forall a, shape a = [Z.to_nat nr; Z.to_nat nphi; Z.to_nat nz] ->
            prod_Z [nz; nphi; nr]
            = Z.of_nat (size (asarray (Some F8) (AArray (rev_axes a))))).
  { intros a Ha. unfold size. cbn [asarray astype shape].
    rewrite (rev_axes_shape _ _ _ _ Ha). unfold prod_Z, prod_shape. simpl. lia. }
  assert (Hpos : forallb (Z.leb 0) [nz; nphi; nr] = true).
  { simpl. rewrite !andb_true_iff, !Z.leb_le. lia. }
  do 9 (create_step; [done|]).
  do 3 (create_step; [by apply Hsize|]).
  eexists. split; [reflexivity|]. eassumption.
Qed.
End E_3DS_write.

Lemma rev_axes_involutive (a : ndarray) p q r :
  wf a -> shape a = [p; q; r] -> rev_axes (rev_axes a) = a.
Proof.
  intros Hwf Hs.
  pose proof (transpose_210_involutive a (rev_axes a) p q r Hwf Hs
                (transpose_rev_axes a p q r Hs)) as H.
  rewrite (transpose_rev_axes _ r q p) in H by (by apply rev_axes_shape).
  by injection H.
Qed.

Lemma rev_axes_astype `{!Platform} d (a : ndarray) :
  rev_axes (astype d a) = astype d (rev_axes a).
Proof.
  destruct a as [sh b]. unfold rev_axes, astype. cbn [shape buf].
  destruct sh as [|p [|q [|r [|]]]]; try done.
  cbn [shape buf]. by rewrite buf_take_astype.
Qed.

Lemma E_3DS_path qid :
  split_slash ("efield" +:+ "/E_3DS_" +:+ qid) = Some ("efield", "E_3DS_" +:+ qid).
Proof. reflexivity. Qed.

(** What [E_3DS.read_hdf5] returns for a group whose datasets can all be
    sliced and whose three field datasets are 3-D. *)
Lemma E_3DS_read_ok fs fn qid f G er ephi ez :
  file_at fs fn = Some f ->
  group_in f "efield" ("E_3DS_" +:+ qid) = Some G ->
  map_Forall (fun _ d => shape (dvalue d) <> []) (gdatasets G) ->
  dvalue <$> gdatasets G !! "er" = Some er ->
  dvalue <$> gdatasets G !! "ephi" = Some ephi ->
  dvalue <$> gdatasets G !! "ez" = Some ez ->
  length (shape er) = 3%nat -> length (shape ephi) = 3%nat ->
  length (shape ez) = 3%nat ->
  E_3DS.read_hdf5 fn qid fs
  = (Ok (<["ez" := rev_axes ez]>
           (<["ephi" := rev_axes ephi]>
              (<["er" := rev_axes er]> (dvalue <$> gdatasets G)))), fs).
Proof.
  intros Hf HG Hall Her Hephi Hez Hler Hlephi Hlez.
  assert (Hrev : forall a, length (shape a) = 3%nat ->
            transpose a [2; 1; 0]%nat = Ok (rev_axes a)).
  { intros a Ha. destruct (shape a) as [|p [|q [|r [|]]]] eqn:E; try done.
    by apply transpose_rev_axes with p q r. }
  unfold E_3DS.read_hdf5.
  rewrite (io_bind_ok _ _ _ _ _ (File_r_ok _ _ _ Hf)).
  unfold getpath. rewrite E_3DS_path, HG. cbn [rbind].
  unfold read_datasets. rewrite bool_decide_true by done.
  rewrite (io_bind_ok _ _ _ _ _ (lift_run _ _)).
  unfold getitem.
  rewrite lookup_fmap, Her. cbn [rbind]. rewrite (Hrev _ Hler).
  rewrite (io_bind_ok _ _ _ _ _ (lift_run _ _)).
  rewrite lookup_insert_ne by done.
  rewrite lookup_fmap, Hephi. cbn [rbind]. rewrite (Hrev _ Hlephi).
  rewrite (io_bind_ok _ _ _ _ _ (lift_run _ _)).
  rewrite !lookup_insert_ne by done.
  rewrite lookup_fmap, Hez. cbn [rbind]. rewrite (Hrev _ Hlez).
  rewrite (io_bind_ok _ _ _ _ _ (lift_run _ _)).
  reflexivity.
Qed.

Lemma stored_as_id (shp : list Z) (a : ndarray) :
  Z.to_nat <$> shp = shape a -> stored_as shp a = a.
Proof. destruct a. unfold stored_as. simpl. by intros ->. Qed.

Section E_3DS_roundtrip.
Context `{!Platform}.

(** C1 (amended).  Writing er, ephi, ez of shape (nr,nphi,nz), with grid
    limits that binary64 holds and counts that int32 holds, into a file
    that is absent or an HDF5 file without a group of the generated name,
    and reading the new group back by its QID, returns the three arrays
    converted to float64 with their axes in the original order: the
    (2,1,0) transposition of the write is undone by that of the read.
    Inputs that are float64 already come back equal to themselves. *)
Theorem E_3DS_write_read m fn rmin rmax nr zmin zmax nz phimin phimax nphi
    er ephi ez desc (fs : fsys) :
  Forall (fun v => scalar_fits F8 v = true)
    [rmin; rmax; phimin; phimax; zmin; zmax] ->
  Forall (fun n => scalar_fits I4 (SI n) = true) [nr; nphi; nz] ->
  wf er -> wf ephi -> wf ez ->
  Z.of_nat <$> shape er = [nr; nphi; nz] ->
  Z.of_nat <$> shape ephi = [nr; nphi; nz] ->
  Z.of_nat <$> shape ez = [nr; nphi; nz] ->
  appendable fs fn ->
  group_in (default ∅ (file_at fs fn)) "efield" ("E_3DS_" +:+ m_qid m) = None ->
  exists fs' out,
    E_3DS.write_hdf5 m fn rmin rmax nr zmin zmax nz phimin phimax nphi
      er ephi ez desc fs
    = (Ok ("E_3DS_" +:+ m_qid m), fs')
    /\ E_3DS.read_hdf5 fn (m_qid m) fs' = (Ok out, fs')
    /\ out !! "er" = Some (astype F8 er)
    /\ out !! "ephi" = Some (astype F8 ephi)
    /\ out !! "ez" = Some (astype F8 ez)
    /\ (dtype_of er = F8 -> out !! "er" = Some er)
    /\ (dtype_of ephi = F8 -> out !! "ephi" = Some ephi)
    /\ (dtype_of ez = F8 -> out !! "ez" = Some ez).
Proof.
  intros _ _ Hwe Hwp Hwz He Hp Hz Hfile Hfresh.
  destruct (E_3DS_write_ok m fn rmin rmax nr zmin zmax nz phimin phimax nphi
              er ephi ez desc fs He Hp Hz Hfile Hfresh) as (fs' & Hw & Hg).
  apply group_at_file in Hg as (f & Hf & HG). cbn [h_fn h_parent h_name] in *.
  apply shape3_of_tuple in He as (Hse & _).
  apply shape3_of_tuple in Hp as (Hsp & _).
  apply shape3_of_tuple in Hz as (Hsz & _).
  set (G := E_3DS_group _ _ _ _ _ _ _ _ _ _ _ _ _ _) in HG.
  assert (Hst : forall a, shape a = [Z.to_nat nr; Z.to_nat nphi; Z.to_nat nz] ->
            stored_as [nz; nphi; nr] (asarray (Some F8) (AArray (rev_axes a)))
            = astype F8 (rev_axes a)).
  { intros a Ha. apply stored_as_id. cbn [asarray astype shape].
    by rewrite (rev_axes_shape _ _ _ _ Ha). }
  assert (Hback : forall a, wf a ->
            shape a = [Z.to_nat nr; Z.to_nat nphi; Z.to_nat nz] ->
            rev_axes (astype F8 (rev_axes a)) = astype F8 a).
  { intros a Hwf Ha. rewrite rev_axes_astype.
    by rewrite (rev_axes_involutive _ _ _ _ Hwf Ha). }
  assert (Hlen : forall a,
            shape a = [Z.to_nat nr; Z.to_nat nphi; Z.to_nat nz] ->
            length (shape (astype F8 (rev_axes a))) = 3%nat).
  { intros a Ha. cbn [astype shape]. by rewrite (rev_axes_shape _ _ _ _ Ha). }
  pose proof (E_3DS_read_ok fs' fn (m_qid m) f G
                (astype F8 (rev_axes er)) (astype F8 (rev_axes ephi))
                (astype F8 (rev_axes ez)) Hf HG) as Hread.
  exists fs'. eexists. split; [exact Hw|].
  split.
  { apply Hread; auto.
    - subst G. unfold E_3DS_group.
      cbn [with_datasets foldl add_dataset new_group gdatasets].
      rewrite (Hst _ Hse), (Hst _ Hsp), (Hst _ Hsz).
      repeat (apply map_Forall_insert_2;
              [by (cbn [dvalue astype shape stored_as];
                   rewrite ?(rev_axes_shape _ _ _ _ Hse),
                     ?(rev_axes_shape _ _ _ _ Hsp),
                     ?(rev_axes_shape _ _ _ _ Hsz))|]).
      apply map_Forall_empty.
    - subst G. unfold E_3DS_group.
      cbn [with_datasets foldl add_dataset new_group gdatasets].
      rewrite !lookup_insert_ne by done. rewrite lookup_insert_eq.
      cbn [fmap option_fmap option_map dvalue]. by rewrite (Hst _ Hse).
    - subst G. unfold E_3DS_group.
      cbn [with_datasets foldl add_dataset new_group gdatasets].
      rewrite !lookup_insert_ne by done. rewrite lookup_insert_eq.
      cbn [fmap option_fmap option_map dvalue]. by rewrite (Hst _ Hsp).
    - subst G. unfold E_3DS_group.
      cbn [with_datasets foldl add_dataset new_group gdatasets].
      rewrite lookup_insert_eq.
      cbn [fmap option_fmap option_map dvalue]. by rewrite (Hst _ Hsz). }
  rewrite (Hback _ Hwe Hse), (Hback _ Hwp Hsp), (Hback _ Hwz Hsz).
  assert (H1 : forall (M : gmap string ndarray) x y z,
            <["ez" := z]> (<["ephi" := y]> (<["er" := x]> M)) !! "er" = Some x
            /\ <["ez" := z]> (<["ephi" := y]> (<["er" := x]> M)) !! "ephi" = Some y
            /\ <["ez" := z]> (<["ephi" := y]> (<["er" := x]> M)) !! "ez" = Some z).
  { intros. rewrite !lookup_insert_ne by done. rewrite lookup_insert_eq.
    rewrite lookup_insert_ne by done. rewrite !lookup_insert_eq. done. }
  destruct (H1 (dvalue <$> gdatasets G) (astype F8 er) (astype F8 ephi)
              (astype F8 ez)) as (-> & -> & ->).
  repeat split; try done; intros Hd; by rewrite astype_same.
Qed.
End E_3DS_roundtrip.

Lemma E_3DS_roundtrip_counterexample :
  let er := Sample.int_field in
  let one := SF Sample.f64_one in
  let w := @E_3DS.write_hdf5 indefinite_platform Sample.meta0 "in.h5"
             one one 1 one one 1 one one 1 er er er None ∅ in
  Z.of_nat <$> shape er = [1; 1; 1]
  /\ w.1 = Ok "E_3DS_0000000001"
  /\ (let* out := (E_3DS.read_hdf5 "in.h5" "0000000001" w.2).1 in
      Ok (out !! "er"))
     = Ok (Some {| shape := [1; 1; 1]%nat; buf := BufF8 [Sample.f64_one] |})
  /\ {| shape := [1; 1; 1]%nat; buf := BufF8 [Sample.f64_one] |} <> er.
Proof.
  cbv zeta. split; [reflexivity|]. split; [vm_compute; reflexivity|].
  split; [vm_compute; reflexivity|]. discriminate.
Qed.

(** ** mrk_prt: validation comes before the file *)

Section mrk_prt_validation.
Context `{!Platform}.

Lemma check_size_pass a n msg (fs : fsys) :
  Z.of_nat (size a) = n -> mrk_prt.check_size a n msg fs = (Ok tt, fs).
Proof.
  intros Hsz. unfold mrk_prt.check_size. by rewrite bool_decide_true.
Qed.

Lemma check_size_fail a n msg (fs : fsys) :
  Z.of_nat (size a) <> n ->
  mrk_prt.check_size a n msg fs = (Raise (ValueError msg), fs).
Proof.
  intros Hsz. unfold mrk_prt.check_size. by rewrite bool_decide_false.
Qed.

Lemma check_size_pass_bind {B} a n msg (k : unit -> io B) (fs : fsys) :
  Z.of_nat (size a) = n -> (mrk_prt.check_size a n msg ≫= k) fs = k tt fs.
Proof. intros Hsz. apply io_bind_ok. by apply check_size_pass. Qed.

End mrk_prt_validation.

(** ** mrk_prt: what is stored *)

Ltac fresh_unit_name :=
  cbn [with_unit_datasets foldl add_dataset set_dattr new_group gdatasets];
  repeat (rewrite lookup_insert_ne by done); apply lookup_empty.

Section mrk_prt_write.
Context `{!Platform}.

Lemma create_with_unit_ok fs g grp nm shp data d u :
  group_at fs g = Some grp ->
  gdatasets grp !! nm = None ->
  prod_Z shp = Z.of_nat (size (asarray (Some d) data)) ->
  forallb (Z.leb 0) shp = true ->
  exists fs',
    mrk_prt.create_with_unit g nm shp data d u fs = (Ok tt, fs')
    /\ group_at fs' g
       = Some (let a := stored_as shp (asarray (Some d) data) in
               set_dattr (add_dataset grp nm a) nm "unit" u
                 {| dvalue := a; dattrs := ∅ |}).
Proof.
  intros Hg Hfresh Hsz Hpos. unfold mrk_prt.create_with_unit.
  destruct (create_dataset_ok fs g grp nm shp data (Some d) Hg Hfresh Hsz Hpos)
    as (fs1 & Hrun & Hg1).
  io_step Hrun.
  apply (attrs_set_ok fs1 g _ nm _ "unit" u Hg1).
  cbn [add_dataset gdatasets]. by rewrite lookup_insert_eq.
Qed.

Lemma mrk_prt_write_body_ok m fn n
    ids mass charge r phi z vr vphi vz anum znum weight time desc
    (fs : fsys) :
  Forall (fun a => Z.of_nat (size a) = n)
    [ids; mass; charge; r; phi; z; vr; vphi; vz; anum; znum; weight; time] ->
  appendable fs fn ->
  group_in (default ∅ (file_at fs fn)) "marker" ("prt_" +:+ m_qid m) = None ->
  exists fs',
    mrk_prt.write_body m fn n ids mass charge r phi z vr vphi vz anum znum
      weight time desc fs
    = (Ok ("prt_" +:+ m_qid m), fs')
    /\ group_at fs' {| h_fn := fn; h_parent := "marker";
                       h_name := "prt_" +:+ m_qid m |}
       = Some (mrk_prt_group m desc n ids mass charge r phi z vr vphi vz
                 anum znum weight time).
Proof.
  intros Hall Hfile Hfresh. rewrite !Forall_cons in Hall. destruct_and!.
  unfold mrk_prt.write_body.
  destruct (File_a_ok fs fn Hfile) as (fs1 & Hopen & Hf1). io_step Hopen.
  destruct (add_group_ok "_" m fn "marker" "prt" desc fs1 _ Hf1 Hfresh)
    as (fs2 & Hadd & Hg).
  cbn zeta in Hadd, Hg. io_step Hadd. cbn [h_name].
  assert (Hsize : forall a d, Z.of_nat (size a) = n ->
            prod_Z [n; 1] = Z.of_nat (size (asarray (Some d) (AArray a)))).
  { intros a d Ha. unfold size in *. cbn [asarray astype shape].
    unfold prod_Z. simpl. lia. }
  assert (Hpos : forallb (Z.leb 0) [n; 1] = true).
  { simpl. rewrite !andb_true_iff, !Z.leb_le. lia. }
  repeat lazymatch goal with
  | Hg : group_at ?fs ?g = Some ?grp
    |- context [ (mrk_prt.create_with_unit ?g ?nm ?shp ?data ?d ?u ≫= _) ?fs ] =>
      let fs' := fresh "fs" in
      let Hr := fresh "Hrun" in
      let Hg' := fresh "Hg" in
      let Hfr := fresh "Hfr" in
      assert (Hfr : gdatasets grp !! nm = None) by fresh_unit_name;
      destruct (create_with_unit_ok fs g grp nm shp data d u Hg Hfr)
        as (fs' & Hr & Hg');
      [ first [ reflexivity | by apply Hsize ] | done | ];
      io_step Hr; clear Hg Hfr
  end.
  eexists. split; [reflexivity|]. eassumption.
Qed.
End mrk_prt_write.

Section mrk_prt_validation_thm.
Context `{!Platform}.

(** C3.  If one of the thirteen per-marker arrays has a size other than
    [n], [mrk_prt.write_hdf5] raises a [ValueError] and leaves the files as
    they were (the file is not opened, which would create it when absent).
    If all thirteen sizes equal [n], the checks raise nothing: the call
    does what the [with] block does, and into a file that is absent or an
    HDF5 file without a group of the generated name it succeeds. *)
Theorem mrk_prt_write_validation m fn n
    ids mass charge r phi z vr vphi vz anum znum weight time desc
    (fs : fsys) :
  let arrays := [ids; mass; charge; r; phi; z; vr; vphi; vz; anum; znum;
                 weight; time] in
  (Exists (fun a => Z.of_nat (size a) <> n) arrays ->
   exists msg,
     mrk_prt.write_hdf5 m fn n ids mass charge r phi z vr vphi vz anum znum
       weight time desc fs
     = (Raise (ValueError msg), fs))
  /\ (Forall (fun a => Z.of_nat (size a) = n) arrays ->
      mrk_prt.write_hdf5 m fn n ids mass charge r phi z vr vphi vz anum znum
        weight time desc fs
      = mrk_prt.write_body m fn n ids mass charge r phi z vr vphi vz anum
          znum weight time desc fs
      /\ (appendable fs fn ->
          group_in (default ∅ (file_at fs fn)) "marker" ("prt_" +:+ m_qid m)
          = None ->
          exists fs',
            mrk_prt.write_hdf5 m fn n ids mass charge r phi z vr vphi vz
              anum znum weight time desc fs
            = (Ok ("prt_" +:+ m_qid m), fs'))).
Proof.
  intros arrays.
  assert (Hpass : Forall (fun a => Z.of_nat (size a) = n) arrays ->
            mrk_prt.write_hdf5 m fn n ids mass charge r phi z vr vphi vz anum
              znum weight time desc fs
            = mrk_prt.write_body m fn n ids mass charge r phi z vr vphi vz
                anum znum weight time desc fs).
  { intros HF. subst arrays. rewrite !Forall_cons in HF. destruct_and!.
    unfold mrk_prt.write_hdf5. by rewrite !check_size_pass_bind by done. }
  split.
  - intros HE. subst arrays. unfold mrk_prt.write_hdf5.
    repeat lazymatch goal with
    | |- context [ (mrk_prt.check_size ?a ?n ?msg ≫= _) ?fs ] =>
        let He := fresh "He" in
        destruct (decide (Z.of_nat (size a) = n)) as [He|He];
        [ rewrite (check_size_pass_bind a n msg _ fs He)
        | rewrite (io_bind_raise _ _ _ _ _ (check_size_fail a n msg fs He));
          by eauto ]
    end.
    repeat (apply Exists_cons in HE as [HE|HE]; [done|]).
    by apply Exists_nil in HE.
  - intros HF. split; [by apply Hpass|]. intros Hfile Hfresh.
    rewrite (Hpass HF).
    destruct (mrk_prt_write_body_ok m fn n ids mass charge r phi z vr vphi vz
                anum znum weight time desc fs HF Hfile Hfresh) as (fs' & Hw & _).
    eauto.
Qed.
End mrk_prt_validation_thm.

Lemma File_a_other fs fn c :
  fs !! fn = Some (Other c) ->
  exists e, File_a fn fs = (Raise e, fs).
Proof. intros H. unfold File_a. rewrite H. eauto. Qed.

Lemma add_group_taken sep m fn parent grp desc fs f G :
  file_at fs fn = Some f ->
  group_in f parent (grp +:+ sep +:+ m_qid m) = Some G ->
  exists e, add_group_with sep m fn parent grp desc fs = (Raise e, fs).
Proof. intros Hf HG. unfold add_group_with. rewrite Hf, HG. eauto. Qed.

Lemma appendable_dec (fs : fsys) fn :
  appendable fs fn \/ exists c, fs !! fn = Some (Other c).
Proof.
  unfold appendable. destruct (fs !! fn) as [[f|c]|]; [left|right|left]; eauto.
Qed.

Section Truncation.
Context `{!Platform}.

Lemma to_int_trunc d x z :
  f64_trunc x = Some z -> in_range d z = true -> to_int d (SF x) = z.
Proof. intros Hx Hz. unfold to_int. by rewrite Hx, Hz. Qed.

Lemma astype_truncates d b : d <> F8 -> truncated_into d b (buf_astype d b).
Proof.
  intros Hd l ->. destruct d; [done| |]; simpl; eexists;
    (split; [done|]); (split; [by rewrite !length_fmap|]);
    intros i x z Hl Hx Hz; rewrite <- list_fmap_compose, list_lookup_fmap, Hl;
    simpl; f_equal; by apply to_int_trunc.
Qed.

Lemma dtype_astype d b : buf_dtype (buf_astype d b) = d.
Proof. by destruct d, b. Qed.
End Truncation.

Section mrk_prt_stored.
Context `{!Platform}.

Lemma mrk_prt_write_inv m fn n
    ids mass charge r phi z vr vphi vz anum znum weight time desc
    (fs fs' : fsys) gname :
  mrk_prt.write_hdf5 m fn n ids mass charge r phi z vr vphi vz anum znum
    weight time desc fs = (Ok gname, fs') ->
  gname = "prt_" +:+ m_qid m
  /\ 0 <= n
  /\ group_at fs' {| h_fn := fn; h_parent := "marker"; h_name := gname |}
     = Some (mrk_prt_group m desc n ids mass charge r phi z vr vphi vz
               anum znum weight time).
Proof.
  intros Hrun.
  set (arrays := [ids; mass; charge; r; phi; z; vr; vphi; vz; anum; znum;
                  weight; time]).
  destruct (decide (Forall (fun a => Z.of_nat (size a) = n) arrays))
    as [Hall|Hnot].
  2: { apply not_Forall_Exists in Hnot; [|solve_decision].
       exfalso. revert Hrun. unfold mrk_prt.write_hdf5.
       repeat lazymatch goal with
       | |- context [ (mrk_prt.check_size ?a ?n ?msg ≫= _) ?fs ] =>
           let He := fresh "He" in
           destruct (decide (Z.of_nat (size a) = n)) as [He|He];
           [ rewrite (io_bind_ok _ _ _ _ _ (check_size_pass a n msg fs He))
           | by rewrite (io_bind_raise _ _ _ _ _ (check_size_fail a n msg fs He)) ]
       end.
       subst arrays.
       repeat (apply Exists_cons in Hnot as [Hnot|Hnot]; [done|]).
       by apply Exists_nil in Hnot. }
  assert (Hbody : mrk_prt.write_body m fn n ids mass charge r phi z vr vphi vz
                    anum znum weight time desc fs = (Ok gname, fs')).
  { rewrite <- Hrun. unfold mrk_prt.write_hdf5. subst arrays.
    rewrite !Forall_cons in Hall. destruct_and!.
    by rewrite !check_size_pass_bind by done. }
  clear Hrun.
  destruct (appendable_dec fs fn) as [Happ|[c Hc]].
  2: { destruct (File_a_other fs fn c Hc) as [e He].
       unfold mrk_prt.write_body, fileapi.add_group in Hbody.
       by rewrite (io_bind_raise _ _ _ _ _ He) in Hbody. }
  destruct (group_in (default ∅ (file_at fs fn)) "marker" ("prt_" +:+ m_qid m))
    as [G|] eqn:HG.
  { destruct (File_a_ok fs fn Happ) as (fs1 & Hopen & Hf1).
    destruct (add_group_taken "_" m fn "marker" "prt" desc fs1 _ G Hf1 HG)
      as [e He].
    unfold mrk_prt.write_body in Hbody.
    rewrite (io_bind_ok _ _ _ _ _ Hopen) in Hbody.
    by rewrite (io_bind_raise _ _ _ _ _ He) in Hbody. }
  destruct (mrk_prt_write_body_ok m fn n ids mass charge r phi z vr vphi vz
              anum znum weight time desc fs Hall Happ HG) as (fs2 & Hok & Hg).
  rewrite Hok in Hbody. injection Hbody as <- <-.
  split; [done|]. split; [|done].
  subst arrays. apply Forall_cons in Hall as [<- _]. lia.
Qed.
End mrk_prt_stored.

Ltac mrk_prt_lookup :=
  unfold mrk_prt_group;
  cbn [with_unit_datasets foldl add_dataset set_dattr new_group gdatasets];
  rewrite ?lookup_insert_ne by done; apply lookup_insert_eq.

Section mrk_prt_dtypes.
Context `{!Platform}.

Lemma mrk_prt_group_stored m desc n
    ids mass charge r phi z vr vphi vz anum znum weight time
    (i : nat) (nm : string) (d : dtype) (src : ndarray) (u : string) :
  [ ("r", [n; 1], AArray r, F8, "m");
    ("phi", [n; 1], AArray phi, F8, "deg");
    ("z", [n; 1], AArray z, F8, "m");
    ("vr", [n; 1], AArray vr, F8, "m/s");
    ("vphi", [n; 1], AArray vphi, F8, "m/s");
    ("vz", [n; 1], AArray vz, F8, "m/s");
    ("mass", [n; 1], AArray mass, F8, "amu");
    ("charge", [n; 1], AArray charge, I4, "e");
    ("anum", [n; 1], AArray anum, I4, "1");
    ("znum", [n; 1], AArray znum, I4, "1");
    ("weight", [n; 1], AArray weight, F8, "markers/s");
    ("time", [n; 1], AArray time, F8, "s");
    ("id", [n; 1], AArray ids, I8, "1") ] !! i
  = Some (nm, [n; 1], AArray src, d, u) ->
  stored_dataset
    (mrk_prt_group m desc n ids mass charge r phi z vr vphi vz
       anum znum weight time) nm d [Z.to_nat n; 1%nat] src u.
Proof.
  intros Hi.
  assert (HG : gdatasets (mrk_prt_group m desc n ids mass charge r phi z vr
                            vphi vz anum znum weight time) !! nm
               = Some {| dvalue := stored_as [n; 1] (astype d src);
                         dattrs := <["unit" := u]> ∅ |}).
  { do 13 (destruct i as [|i]; [injection Hi as <- <- <- <-; mrk_prt_lookup|]).
    done. }
  eexists. split; [exact HG|]. cbn [dvalue dattrs].
  split; [apply dtype_astype|]. split; [done|]. split; [done|].
  apply lookup_insert_eq.
Qed.

Lemma stored_dataset_truncated G nm d shp src u :
  d <> F8 -> stored_dataset G nm d shp src u -> stored_truncated G nm d src.
Proof.
  intros Hd (ds & Hds & _ & _ & Hbuf & _). exists ds. split; [done|].
  rewrite Hbuf. by apply astype_truncates.
Qed.

(** C8.  After a successful [mrk_prt.write_hdf5] the new group holds
    charge, anum and znum as "i4" datasets and the ids as the "i8" dataset
    "id", whatever the dtype of the arrays passed in; where such an array
    holds floats, each is stored rounded toward zero (when the result fits
    the dtype).  The nine other per-marker arrays are "f8" datasets.  All
    thirteen have shape (n,1). *)
Theorem mrk_prt_write_dtypes m fn n
    ids mass charge r phi z vr vphi vz anum znum weight time desc
    (fs fs' : fsys) gname :
  mrk_prt.write_hdf5 m fn n ids mass charge r phi z vr vphi vz anum znum
    weight time desc fs = (Ok gname, fs') ->
  exists G,
    group_at fs' {| h_fn := fn; h_parent := "marker"; h_name := gname |}
    = Some G
    /\ let shp := [Z.to_nat n; 1%nat] in
       (stored_dataset G "charge" I4 shp charge "e"
        /\ stored_dataset G "anum" I4 shp anum "1"
        /\ stored_dataset G "znum" I4 shp znum "1"
        /\ stored_dataset G "id" I8 shp ids "1")
       /\ (stored_truncated G "charge" I4 charge
           /\ stored_truncated G "anum" I4 anum
           /\ stored_truncated G "znum" I4 znum
           /\ stored_truncated G "id" I8 ids)
       /\ (stored_dataset G "r" F8 shp r "m"
           /\ stored_dataset G "phi" F8 shp phi "deg"
           /\ stored_dataset G "z" F8 shp z "m"
           /\ stored_dataset G "vr" F8 shp vr "m/s"
           /\ stored_dataset G "vphi" F8 shp vphi "m/s"
           /\ stored_dataset G "vz" F8 shp vz "m/s"
           /\ stored_dataset G "mass" F8 shp mass "amu"
           /\ stored_dataset G "weight" F8 shp weight "markers/s"
           /\ stored_dataset G "time" F8 shp time "s").
Proof.
  intros Hrun. apply mrk_prt_write_inv in Hrun as (-> & Hn & Hg).
  eexists. split; [exact Hg|]. cbv zeta.
  pose proof (mrk_prt_group_stored m desc n ids mass charge r phi z vr vphi vz
                anum znum weight time) as HG.
  assert (Hcharge := HG 7%nat _ _ _ _ eq_refl).
  assert (Hanum := HG 8%nat _ _ _ _ eq_refl).
  assert (Hznum := HG 9%nat _ _ _ _ eq_refl).
  assert (Hid := HG 12%nat _ _ _ _ eq_refl).
  split; [done|]. split.
  { repeat split; by eapply stored_dataset_truncated. }
  repeat split.
  - exact (HG 0%nat _ _ _ _ eq_refl).
  - exact (HG 1%nat _ _ _ _ eq_refl).
  - exact (HG 2%nat _ _ _ _ eq_refl).
  - exact (HG 3%nat _ _ _ _ eq_refl).
  - exact (HG 4%nat _ _ _ _ eq_refl).
  - exact (HG 5%nat _ _ _ _ eq_refl).
  - exact (HG 6%nat _ _ _ _ eq_refl).
  - exact (HG 10%nat _ _ _ _ eq_refl).
  - exact (HG 11%nat _ _ _ _ eq_refl).
Qed.
End mrk_prt_dtypes.

(** ** options: what is stored *)

Section options_write.
Context `{!Platform} `{!FloatParser}.

Lemma write_options_ok g opts (fs : fsys) grp :
  group_at fs g = Some grp ->
  NoDup opts.*1 ->
  (forall k v, (k, v) ∈ opts -> options.is_option k = true ->
     gdatasets grp !! k = None /\ is_ok (options.to_f8_array v) = true) ->
  exists fs',
    options.write_options g opts fs = (Ok tt, fs')
    /\ group_at fs' g
       = Some {| gattrs := gattrs grp;
                 gdatasets := options_stored opts (gdatasets grp) |}.
Proof.
  revert fs grp. induction opts as [|[k v] opts IH]; intros fs grp Hg Hnd Hall.
  { exists fs. split; [done|]. by destruct grp. }
  apply NoDup_cons in Hnd as [Hk Hnd]. cbn [options.write_options].
  unfold options_stored. cbn [foldl]. unfold options_step at 2. cbn [fst snd].
  destruct (options.is_option k) eqn:Hopt.
  - destruct (Hall k v) as [Hfresh Hok]; [left|done|].
    destruct (options.to_f8_array v) as [a|e] eqn:Hconv; [|done].
    rewrite io_bind_assoc, (io_bind_ok _ _ _ _ _ (lift_run _ _)).
    rewrite io_bind_assoc.
    destruct (create_dataset_ok fs g grp k [Z.of_nat (size a)] (AArray a) None
                Hg Hfresh) as (fs1 & Hrun & Hg1).
    { unfold prod_Z. simpl. lia. }
    { simpl. rewrite andb_true_r. apply Z.leb_le. lia. }
    rewrite (io_bind_ok _ _ _ _ _ Hrun).
    rewrite (io_bind_ok _ _ _ tt fs1) by done.
    destruct (IH fs1 _ Hg1 Hnd) as (fs2 & Hrest & Hg2).
    { intros k' v' Hin Hopt'. destruct (Hall k' v') as [Hf' Hok'];
        [by right|done|]. split; [|done].
      cbn [add_dataset gdatasets]. rewrite lookup_insert_ne; [done|].
      intros ->. apply Hk. apply list_elem_of_fmap. by exists (k', v'). }
    exists fs2. split; [done|]. exact Hg2.
  - rewrite (io_bind_ok _ _ _ tt fs) by done.
    apply (IH fs grp Hg Hnd). intros k' v' Hin. apply Hall. by right.
Qed.
End options_write.

Section options_stored_props.
Context `{!Platform} `{!FloatParser}.

Lemma options_stored_lookup opts (D : gmap string dataset) k :
  NoDup opts.*1 ->
  options_stored opts D !! k
  = match (list_to_map opts : gmap string options.pyval) !! k with
    | Some v =>
        if options.is_option k then
          match options.to_f8_array v with
          | Ok a => Some {| dvalue := stored_as [Z.of_nat (size a)] a;
                            dattrs := ∅ |}
          | Raise _ => D !! k
          end
        else D !! k
    | None => D !! k
    end.
Proof.
  revert D. induction opts as [|[k0 v0] opts IH]; intros D Hnd; [done|].
  apply NoDup_cons in Hnd as [Hk Hnd].
  unfold options_stored. cbn [foldl]. fold (options_stored opts (options_step D (k0, v0))).
  rewrite (IH _ Hnd). cbn [list_to_map foldr].
  destruct (decide (k = k0)) as [->|Hne].
  - rewrite lookup_insert_eq.
    rewrite (not_elem_of_list_to_map_1 opts k0 Hk).
    unfold options_step. cbn [fst snd].
    destruct (options.is_option k0); [|done].
    destruct (options.to_f8_array v0); [|done]. by rewrite lookup_insert_eq.
  - rewrite lookup_insert_ne by done.
    assert (HD : options_step D (k0, v0) !! k = D !! k).
    { unfold options_step. cbn [fst snd].
      destruct (options.is_option k0); [|done].
      destruct (options.to_f8_array v0); [|done].
      by rewrite lookup_insert_ne. }
    by rewrite HD.
Qed.

Lemma flat_f8_stored x :
  stored_as [Z.of_nat (size (astype F8 (asarray None x)))]
    (astype F8 (asarray None x))
  = flat_f8 x.
Proof.
  unfold stored_as, flat_f8, size. cbn [astype shape buf fmap list_fmap].
  by rewrite Nat2Z.id.
Qed.

Lemma numeric_value_ok v :
  numeric_value v = true -> is_ok (options.to_f8_array v) = true.
Proof.
  destruct v as [s|x]; cbn [numeric_value options.to_f8_array]; [|done].
  by destruct (float_of_string s).
Qed.

(** A numeric string is stored as the one number it reads as. *)
Lemma string_stored s f :
  float_of_string s = Some f ->
  options.to_f8_array (options.PStr s)
  = Ok {| shape := []; buf := BufF8 [f] |}
  /\ stored_as [Z.of_nat (size {| shape := []; buf := BufF8 [f] |})]
       {| shape := []; buf := BufF8 [f] |}
     = {| shape := [1%nat]; buf := BufF8 [f] |}.
Proof. intros Hs. cbn [options.to_f8_array]. by rewrite Hs. Qed.

Lemma options_write_ok m fn opts desc (fs : fsys) :
  NoDup opts.*1 ->
  (forall k v, (k, v) ∈ opts -> options.is_option k = true ->
     is_ok (options.to_f8_array v) = true) ->
  appendable fs fn ->
  group_in (default ∅ (file_at fs fn)) "options" ("opt-" +:+ m_qid m) = None ->
  exists fs',
    options.write_hdf5 m fn opts desc fs
    = (Ok ("/options/opt-" +:+ m_qid m), fs')
    /\ group_at fs' {| h_fn := fn; h_parent := "options";
                       h_name := "opt-" +:+ m_qid m |}
       = Some {| gattrs := gattrs (new_group m desc);
                 gdatasets := options_stored opts ∅ |}.
Proof.
  intros Hnd Hall Hfile Hfresh. unfold options.write_hdf5.
  destruct (File_a_ok fs fn Hfile) as (fs1 & Hopen & Hf1). io_step Hopen.
  destruct (add_group_ok "-" m fn "options" "opt" desc fs1 _ Hf1 Hfresh)
    as (fs2 & Hadd & Hg).
  cbn zeta in Hadd, Hg. io_step Hadd.
  destruct (write_options_ok _ opts fs2 _ Hg Hnd) as (fs3 & Hloop & Hg3).
  { intros k v Hin Hopt. split; [apply lookup_empty|by eapply Hall]. }
  io_step Hloop. eexists. split; [reflexivity|]. exact Hg3.
Qed.

Lemma group_at_put (fs : fsys) g f grp g' :
  file_at fs (h_fn g) = Some f ->
  group_at (<[h_fn g := HDF5 (set_group_in f (h_parent g) (h_name g) grp)]> fs) g'
  = if decide (g' = g) then Some grp else group_at fs g'.
Proof.
  intros Hf. case_decide as Hg.
  { subst g'. unfold group_at. by rewrite file_at_insert; simpl; rewrite group_in_set. }
  unfold group_at, file_at.
  destruct (decide (h_fn g' = h_fn g)) as [Hfn|Hfn].
  2: { by rewrite lookup_insert_ne. }
  rewrite Hfn, lookup_insert_eq. unfold file_at in Hf.
  destruct (fs !! h_fn g) as [[f0|]|]; try done. injection Hf as ->. simpl.
  unfold group_in, set_group_in.
  destruct (decide (h_parent g' = h_parent g)) as [Hp|Hp].
  2: { by rewrite lookup_insert_ne. }
  rewrite Hp, lookup_insert_eq. simpl.
  destruct (decide (h_name g' = h_name g)) as [Hn|Hn].
  { destruct g, g'. simpl in *. congruence. }
  rewrite lookup_insert_ne by done. by destruct (f !! h_parent g).
Qed.

(** Whatever [create_dataset] does, the datasets of other names, and of
    other groups, stay. *)
Lemma create_dataset_frame g nm shp data d (fs : fsys) r fs' g' k :
  k <> nm ->
  create_dataset g nm shp data d fs = (r, fs') ->
  dataset_at fs' g' k = dataset_at fs g' k.
Proof.
  intros Hk. unfold create_dataset.
  case_bool_decide; [|by intros [= <- <-]].
  destruct (forallb _ _); [|by intros [= <- <-]].
  rewrite io_bind_run. unfold get_group.
  destruct (file_at fs (h_fn g)) as [f|] eqn:Hf; [|by intros [= <- <-]].
  destruct (group_in f (h_parent g) (h_name g)) as [grp|] eqn:HG;
    [|by intros [= <- <-]].
  destruct (gdatasets grp !! nm); [by intros [= <- <-]|].
  rewrite io_bind_run. unfold put_group. rewrite Hf.
  intros [= <- <-]. unfold dataset_at. rewrite (group_at_put _ _ _ _ _ Hf).
  case_decide as Hg; [|done]. subst g'. unfold group_at.
  rewrite Hf. simpl. rewrite HG. simpl. cbn [add_dataset gdatasets].
  by rewrite lookup_insert_ne.
Qed.

(** Whatever the loop does, datasets named like the metadata stay. *)
Lemma write_options_frame g opts (fs : fsys) r fs' g' k :
  options.is_option k = false ->
  options.write_options g opts fs = (r, fs') ->
  dataset_at fs' g' k = dataset_at fs g' k.
Proof.
  intros Hk. revert fs. induction opts as [|[k0 v0] opts IH]; intros fs.
  { by intros [= <- <-]. }
  cbn [options.write_options]. rewrite io_bind_run.
  destruct (options.is_option k0) eqn:Hk0.
  - rewrite !io_bind_run. unfold lift at 1.
    destruct (options.to_f8_array v0) as [a|e]; [|by intros [= <- <-]].
    rewrite io_bind_run.
    destruct (create_dataset g k0 [Z.of_nat (size a)] (AArray a) None fs)
      as [r1 fs1] eqn:Hc.
    apply (create_dataset_frame _ _ _ _ _ _ _ _ g' k) in Hc; [|congruence].
    destruct r1 as [?|e]; [|by intros [= <- <-]].
    cbn [ret]. intros Hrest. apply IH in Hrest. congruence.
  - cbn [ret]. apply IH.
Qed.

Lemma File_a_frame fn (fs : fsys) r fs' g' :
  File_a fn fs = (r, fs') -> group_at fs' g' = group_at fs g'.
Proof.
  unfold File_a.
  destruct (fs !! fn) as [[f|c]|] eqn:E; intros [= <- <-]; try done.
  unfold group_at, file_at.
  destruct (decide (h_fn g' = fn)) as [->|Hfn].
  - rewrite lookup_insert_eq, E. simpl. unfold group_in. by rewrite lookup_empty.
  - by rewrite lookup_insert_ne.
Qed.

Lemma add_group_frame sep m fn parent grp desc (fs : fsys) r fs' g' k :
  add_group_with sep m fn parent grp desc fs = (r, fs') ->
  dataset_at fs' g' k = dataset_at fs g' k.
Proof.
  unfold add_group_with.
  destruct (file_at fs fn) as [f|] eqn:Hf; [|by intros [= <- <-]].
  destruct (group_in f parent (grp +:+ sep +:+ m_qid m)) as [G|] eqn:HG;
    [by intros [= <- <-]|].
  intros [= <- <-]. unfold dataset_at.
  rewrite (group_at_put fs {| h_fn := fn; h_parent := parent;
                              h_name := grp +:+ sep +:+ m_qid m |} f _ g' Hf).
  case_decide as Hg; [|done]. subst g'. unfold group_at. cbn [h_fn h_parent h_name].
  rewrite Hf. simpl. rewrite HG. simpl. apply lookup_empty.
Qed.

Lemma options_write_frame m fn opts desc (fs : fsys) r fs' g' k :
  options.is_option k = false ->
  options.write_hdf5 m fn opts desc fs = (r, fs') ->
  dataset_at fs' g' k = dataset_at fs g' k.
Proof.
  intros Hk. unfold options.write_hdf5, ascot5file.add_group.
  rewrite io_bind_run.
  destruct (File_a fn fs) as [r1 fs1] eqn:Ho.
  assert (Hd1 : dataset_at fs1 g' k = dataset_at fs g' k).
  { unfold dataset_at. by rewrite (File_a_frame _ _ _ _ g' Ho). }
  destruct r1 as [[]|e]; [|by intros [= <- <-]].
  rewrite io_bind_run.
  destruct (add_group_with "-" m fn "options" "opt" desc fs1) as [r2 fs2] eqn:Ha.
  apply (add_group_frame _ _ _ _ _ _ _ _ _ g' k) in Ha.
  destruct r2 as [g|e]; [|intros [= <- <-]; congruence].
  rewrite io_bind_run.
  destruct (options.write_options g opts fs2) as [r3 fs3] eqn:Hloop.
  apply (write_options_frame _ _ _ _ _ g' k Hk) in Hloop.
  destruct r3; intros [= <- <-]; congruence.
Qed.

(** C9 (amended).  For a dictionary whose keys have no "/",
    [options.write_hdf5] never creates a dataset named "qid", "date" or
    "description": however the call ends, every group of every file has
    under these names what it had before (nothing, in a group that is
    new).  When moreover the keys of the options are names of members and
    their values are numeric (an array, a float, an int that int64 holds,
    or a string that reads as a number), the call, on a file that is
    absent or an HDF5 file without a group of the generated name,
    succeeds and for every option the dataset of that name holds
    [np.array(value).astype("f8")] as a one-dimensional array of [size]
    elements, whatever the dtype and the shape of the value; there are
    no other datasets. *)
Theorem options_write_datasets m fn opts desc (fs : fsys) :
  let h := {| h_fn := fn; h_parent := "options";
              h_name := "opt-" +:+ m_qid m |} in
  ((forall k v, (k, v) ∈ opts -> has_slash k = false) ->
   forall r fs' g k,
     options.write_hdf5 m fn opts desc fs = (r, fs') ->
     k ∈ ["qid"; "date"; "description"] ->
     dataset_at fs' g k = dataset_at fs g k)
  /\ (NoDup opts.*1 ->
      (forall k v, (k, v) ∈ opts -> options.is_option k = true ->
         member_name k = true /\ numeric_value v = true) ->
      appendable fs fn ->
      group_in (default ∅ (file_at fs fn)) "options" ("opt-" +:+ m_qid m)
      = None ->
      exists fs' G,
        options.write_hdf5 m fn opts desc fs
        = (Ok ("/options/opt-" +:+ m_qid m), fs')
        /\ group_at fs' h = Some G
        /\ gdatasets G !! "qid" = None
        /\ gdatasets G !! "date" = None
        /\ gdatasets G !! "description" = None
        /\ (forall k x, (k, options.PData x) ∈ opts ->
              options.is_option k = true ->
              gdatasets G !! k = Some {| dvalue := flat_f8 x; dattrs := ∅ |})
        /\ (forall k s f, (k, options.PStr s) ∈ opts ->
              options.is_option k = true ->
              float_of_string s = Some f ->
              gdatasets G !! k
              = Some {| dvalue := {| shape := [1%nat]; buf := BufF8 [f] |};
                        dattrs := ∅ |})
        /\ (forall k, is_Some (gdatasets G !! k) ->
              options.is_option k = true /\ exists v, (k, v) ∈ opts)).
Proof.
  intros h. split.
  { intros _ r fs' g k Hrun Hk. eapply options_write_frame; [|exact Hrun].
    repeat (apply elem_of_cons in Hk as [->|Hk]; [done|]).
    by apply elem_of_nil in Hk. }
  intros Hnd Hnum Hfile Hfresh.
  destruct (options_write_ok m fn opts desc fs Hnd) as (fs' & Hw & Hg);
    [|done|done|].
  { intros k v Hin Hopt. apply numeric_value_ok.
    by destruct (Hnum k v Hin Hopt). }
  exists fs'. eexists. split; [exact Hw|]. split; [exact Hg|].
  cbn [gdatasets].
  assert (Hmeta : forall k, options.is_option k = false ->
            options_stored opts ∅ !! k = None).
  { intros k Hk. rewrite options_stored_lookup, Hk by done.
    rewrite lookup_empty. by destruct (_ !! k). }
  split; [by apply Hmeta|]. split; [by apply Hmeta|]. split; [by apply Hmeta|].
  split; [|split].
  - intros k x Hin Hopt. rewrite options_stored_lookup by done.
    rewrite (elem_of_list_to_map_1 _ _ _ Hnd Hin), Hopt.
    cbn [options.to_f8_array]. by rewrite flat_f8_stored.
  - intros k s f Hin Hopt Hs. rewrite options_stored_lookup by done.
    rewrite (elem_of_list_to_map_1 _ _ _ Hnd Hin), Hopt.
    destruct (string_stored s f Hs) as [-> ->]. done.
  - intros k [ds Hds]. rewrite options_stored_lookup in Hds by done.
    destruct (list_to_map opts !! k) as [v|] eqn:Hk;
      [|by rewrite lookup_empty in Hds].
    destruct (options.is_option k); [|by rewrite lookup_empty in Hds].
    split; [done|]. exists v. by apply elem_of_list_to_map_2.
Qed.
End options_stored_props.

(** ** options: reading back *)

Lemma options_path qid :
  split_slash ("options" +:+ "/opt-" +:+ qid) = Some ("options", "opt-" +:+ qid).
Proof. reflexivity. Qed.

Lemma options_read_ok fs fn qid f G date descr :
  file_at fs fn = Some f ->
  group_in f "options" ("opt-" +:+ qid) = Some G ->
  gattrs G !! "date" = Some date ->
  gattrs G !! "description" = Some descr ->
  map_Forall (fun _ d => shape (dvalue d) <> []) (gdatasets G) ->
  options.read_hdf5 fn qid fs
  = (Ok (((fun a => options.PData (AArray a)) <$> (dvalue <$> gdatasets G))
         ∪ <["description" := options.PStr descr]>
             (<["date" := options.PStr date]>
                (<["qid" := options.PStr qid]> ∅))), fs).
Proof.
  intros Hf HG Hdate Hdescr Hall. unfold options.read_hdf5.
  rewrite (io_bind_ok _ _ _ _ _ (File_r_ok _ _ _ Hf)).
  unfold getpath. rewrite options_path, HG. cbn [rbind].
  unfold getitem. rewrite Hdate, Hdescr. cbn [rbind].
  unfold read_datasets. by rewrite bool_decide_true.
Qed.

Section options_roundtrip.
Context `{!Platform} `{!FloatParser}.

Lemma options_stored_sliceable opts :
  NoDup opts.*1 ->
  map_Forall (fun _ d => shape (dvalue d) <> []) (options_stored opts ∅).
Proof.
  intros Hnd k ds Hds. rewrite options_stored_lookup in Hds by done.
  rewrite lookup_empty in Hds.
  destruct (list_to_map opts !! k) as [v|]; [|done].
  destruct (options.is_option k); [|done].
  destruct (options.to_f8_array v); [|done].
  by injection Hds as <-.
Qed.

Lemma flat_f8_id a n :
  shape a = [n] -> dtype_of a = F8 -> flat_f8 (AArray a) = a.
Proof.
  intros Hs Hd. destruct a as [sh b]. unfold flat_f8, size, dtype_of in *.
  cbn [asarray shape buf] in *. subst sh.
  destruct b; try done. simpl. by rewrite Nat.mul_1_r.
Qed.

(** C4 (amended).  For a dictionary whose options have names of members
    as keys and numeric values (an array, a float, an int that int64
    holds, or a string that reads as a number), written into a file that
    is absent or an HDF5 file without a group of the generated name,
    reading the new group back by its QID returns a dictionary in which
    every key other than "qid", "date" and "description" maps to its
    value converted to float64 and laid out in one dimension.  A value
    that is a one-dimensional float64 array (the format [read_hdf5]
    returns) comes back equal to the one passed in. *)
Theorem options_write_read m fn opts desc (fs : fsys) :
  NoDup opts.*1 ->
  (forall k v, (k, v) ∈ opts -> options.is_option k = true ->
     member_name k = true /\ numeric_value v = true) ->
  appendable fs fn ->
  group_in (default ∅ (file_at fs fn)) "options" ("opt-" +:+ m_qid m) = None ->
  exists fs' out,
    options.write_hdf5 m fn opts desc fs
    = (Ok ("/options/opt-" +:+ m_qid m), fs')
    /\ options.read_hdf5 fn (m_qid m) fs' = (Ok out, fs')
    /\ (forall k x, (k, options.PData x) ∈ opts -> options.is_option k = true ->
          out !! k = Some (options.PData (AArray (flat_f8 x)))
          /\ (is_flat_f8 (options.PData x) ->
              out !! k = Some (options.PData x)))
    /\ (forall k s f, (k, options.PStr s) ∈ opts ->
          options.is_option k = true ->
          float_of_string s = Some f ->
          out !! k = Some (options.PData
                             (AArray {| shape := [1%nat]; buf := BufF8 [f] |}))).
Proof.
  intros Hnd Hnum Hfile Hfresh.
  destruct (options_write_ok m fn opts desc fs Hnd) as (fs' & Hw & Hg);
    [|done|done|].
  { intros k v Hin Hopt. apply numeric_value_ok.
    by destruct (Hnum k v Hin Hopt). }
  apply group_at_file in Hg as (f & Hf & HG). cbn [h_fn h_parent h_name] in *.
  exists fs'. eexists. split; [exact Hw|]. split.
  { eapply options_read_ok; [exact Hf|exact HG| | |].
    - cbn [gattrs new_group]. apply lookup_insert_eq.
    - cbn [gattrs new_group]. rewrite lookup_insert_ne by done.
      apply lookup_insert_eq.
    - cbn [gdatasets]. by apply options_stored_sliceable. }
  split.
  - intros k x Hin Hopt.
    lazymatch goal with
    | |- ?L = _ /\ _ =>
        assert (Hout : L = Some (options.PData (AArray (flat_f8 x))))
    end.
    { apply lookup_union_Some_l. cbn [gdatasets].
      rewrite !lookup_fmap, options_stored_lookup by done.
      rewrite (elem_of_list_to_map_1 _ _ _ Hnd Hin), Hopt.
      cbn [options.to_f8_array fmap option_fmap option_map dvalue].
      by rewrite flat_f8_stored. }
    split; [exact Hout|].
    intros (a & n & [= ->] & Hs & Hd). rewrite Hout.
    by rewrite (flat_f8_id _ _ Hs Hd).
  - intros k s0 f0 Hin Hopt Hs.
    apply lookup_union_Some_l. cbn [gdatasets].
    rewrite !lookup_fmap, options_stored_lookup by done.
    rewrite (elem_of_list_to_map_1 _ _ _ Hnd Hin), Hopt.
    destruct (string_stored s0 f0 Hs) as [-> ->]. done.
Qed.
End options_roundtrip.

(** ** The readers do not handle errors *)

(** C5.  Whatever error opening the file raises, and whatever error the
    lookup of the group in the opened file raises, [E_3DS.read_hdf5] and
    [options.read_hdf5] end with that very error, return no dictionary and
    leave the files as they were. *)
Theorem readers_propagate_errors (fn qid : string) (fs : fsys) (e : exn) :
  (File_r fn fs = (Raise e, fs) ->
   E_3DS.read_hdf5 fn qid fs = (Raise e, fs)
   /\ options.read_hdf5 fn qid fs = (Raise e, fs))
  /\ (forall f, File_r fn fs = (Ok f, fs) ->
        (getpath f ("efield" +:+ "/E_3DS_" +:+ qid) = Raise e ->
         E_3DS.read_hdf5 fn qid fs = (Raise e, fs))
        /\ (getpath f ("options" +:+ "/opt-" +:+ qid) = Raise e ->
            options.read_hdf5 fn qid fs = (Raise e, fs))).
Proof.
  split.
  - intros Hopen. split.
    + unfold E_3DS.read_hdf5. by rewrite (io_bind_raise _ _ _ _ _ Hopen).
    + unfold options.read_hdf5. by rewrite (io_bind_raise _ _ _ _ _ Hopen).
  - intros f Hopen. split; intros Hpath.
    + unfold E_3DS.read_hdf5. rewrite (io_bind_ok _ _ _ _ _ Hopen).
      rewrite Hpath. cbn [rbind]. by rewrite (io_bind_raise _ _ _ e fs).
    + unfold options.read_hdf5. rewrite (io_bind_ok _ _ _ _ _ Hopen).
      by rewrite Hpath.
Qed.

(** ** libmhd: dispatch on the quantity *)

(** C6.  For a quantity among "br", "bphi", "bz", "er", "ephi", "ez",
    [LibMhd.evaluate] gives what [eval_mhd(R, phi, z, t)[quantity]] gives;
    for every other string it raises an [AssertionError]. *)
Theorem LibMhd_evaluate_dispatch
    (eval_mhd : ndarray -> ndarray -> ndarray -> scalar ->
                result (gmap string ndarray))
    (R phi z : ndarray) (t : scalar) (quantity : string) :
  (quantity ∈ LibMhd.quantities ->
   LibMhd.evaluate eval_mhd R phi z t quantity
   = (let* d := eval_mhd R phi z t in getitem d quantity))
  /\ (quantity ∉ LibMhd.quantities ->
      LibMhd.evaluate eval_mhd R phi z t quantity
      = Raise (AssertionError "Unknown quantity")).
Proof.
  unfold LibMhd.evaluate, LibMhd.quantities. split; intros Hq.
  - rewrite bool_decide_true by done.
    destruct (eval_mhd R phi z t) as [d|e]; [|done]. cbn [rbind].
    by destruct (getitem d quantity).
  - by rewrite bool_decide_false.
Qed.

(** ** mrk_prt: the pitch *)

Lemma tame_Ok a : tame (Ok a).
Proof. by intros e. Qed.

Lemma tame_binary_ufunc op a b : tame (binary_ufunc op a b).
Proof.
  intros e. unfold binary_ufunc. destruct (broadcast_shapes _ _); [done|].
  by intros [= <-].
Qed.

Lemma tame_np_binary op x y : tame x -> tame y -> tame (np_binary op x y).
Proof.
  intros Hx Hy e. unfold np_binary.
  destruct x as [a|ex]; [|intros [= <-]; by apply Hx].
  destruct y as [b|ey]; [|intros [= <-]; by apply Hy].
  apply tame_binary_ufunc.
Qed.

Lemma tame_np_square x : tame x -> tame (np_square x).
Proof.
  intros Hx e. unfold np_square.
  destruct x as [a|ex]; [|intros [= <-]; by apply Hx].
  apply tame_binary_ufunc.
Qed.

Lemma tame_np_sqrt x : tame x -> tame (np_sqrt x).
Proof.
  intros Hx e. unfold np_sqrt.
  destruct x as [a|ex]; [done|intros [= <-]; by apply Hx].
Qed.

Lemma tame_norm3 a b c : tame (norm3 (Ok a) (Ok b) (Ok c)).
Proof.
  unfold norm3, np_add.
  repeat first [ apply tame_np_sqrt | apply tame_np_binary
               | apply tame_np_square | apply tame_Ok ].
Qed.

(** Naming the two norms before the quotient, as the source does, or
    writing them in place, as the formula does, is the same. *)
Lemma pitch_let_norms (N B V : result ndarray) :
  tame N -> tame B -> tame V ->
  (let* b := B in let* v := V in
   let* pitch := np_truediv N (np_mul (Ok b) (Ok v)) in Ok pitch)
  = np_truediv N (np_mul B V).
Proof.
  intros HN HB HV. unfold np_truediv, np_mul, np_binary.
  destruct B as [b|eb]; cbn [rbind].
  - destruct V as [v|ev]; cbn [rbind].
    + destruct N as [n|en]; cbn [rbind]; [|done].
      destruct (binary_ufunc Mul b v); cbn [rbind]; [|done].
      by destruct (binary_ufunc TrueDiv n a).
    + rewrite (HV ev eq_refl). destruct N as [n|en]; cbn [rbind]; [done|].
      by rewrite (HN en eq_refl).
  - rewrite (HB eb eq_refl). destruct N as [n|en]; cbn [rbind]; [done|].
    by rewrite (HN en eq_refl).
Qed.

(** *** Operands of one shape *)

Lemma broadcast_rev_same s : broadcast_rev s s = Some s.
Proof.
  induction s as [|a s IH]; [done|]. simpl.
  by rewrite Nat.eqb_refl, IH.
Qed.

Lemma broadcast_shapes_same s : broadcast_shapes s s = Some s.
Proof.
  unfold broadcast_shapes. rewrite broadcast_rev_same. simpl.
  by rewrite reverse_involutive.
Qed.

Lemma indices_length sh J : J ∈ indices sh -> length J = length sh.
Proof.
  revert J. induction sh as [|n sh IH]; intros J; simpl.
  - by intros ->%list_elem_of_singleton.
  - intros (i & HJ & _)%list_elem_of_bind.
    apply list_elem_of_fmap in HJ as (J' & -> & HJ'). simpl. f_equal. by apply IH.
Qed.

Lemma offsets_row_major sh :
  (fun J => offset J (strides sh)) <$> indices sh = seq 0 (prod_shape sh).
Proof.
  induction sh as [|n sh IH]; [done|].
  cbn [indices strides prod_shape foldr].
  rewrite fmap_seq_bind.
  rewrite (seq_bind_ext _ (fun i => seq (i * prod_shape sh + 0) (prod_shape sh))).
  { rewrite seq_bind_blocks. done. }
  intros i _. rewrite <- list_fmap_compose.
  rewrite Nat.add_0_r, <- (Nat.add_0_r (i * prod_shape sh)), <- fmap_add_seq.
  rewrite <- IH, <- list_fmap_compose. apply list_fmap_ext.
  intros _ J _. unfold offset. simpl. fold (prod_shape sh). lia.
Qed.

Lemma zip_clip_id J sh :
  Forall2 (fun j n => (j < n)%nat) J sh ->
  zip_with (fun j n => if (n =? 1)%nat then 0%nat else j) J sh = J.
Proof.
  induction 1 as [|j n J sh Hj _ IH]; [done|]. simpl. rewrite IH. f_equal.
  destruct (Nat.eqb_spec n 1); lia.
Qed.

Lemma indices_bounded sh J :
  J ∈ indices sh -> Forall2 (fun j n => (j < n)%nat) J sh.
Proof.
  revert J. induction sh as [|n sh IH]; intros J; simpl.
  - intros ->%list_elem_of_singleton. constructor.
  - intros (i & HJ & Hi)%list_elem_of_bind.
    apply list_elem_of_fmap in HJ as (J' & -> & HJ').
    apply elem_of_seq in Hi. constructor; [lia|by apply IH].
Qed.

Lemma src_offset_own sh J :
  J ∈ indices sh -> src_offset sh J = offset J (strides sh).
Proof.
  intros HJ. unfold src_offset.
  rewrite (indices_length _ _ HJ), Nat.sub_diag, drop_0.
  by rewrite (zip_clip_id _ _ (indices_bounded _ _ HJ)).
Qed.

Lemma omap_same_shape {X Y} (xs ys : list X) (g : X -> X -> Y) sh :
  length xs = prod_shape sh -> length ys = prod_shape sh ->
  omap (fun J => x ← xs !! src_offset sh J; y ← ys !! src_offset sh J;
                 Some (g x y)) (indices sh)
  = zip_with g xs ys.
Proof.
  intros Hx Hy.
  rewrite <- (take_idx_seq (zip_with g xs ys)).
  rewrite length_zip_with, Hx, Hy, Nat.min_id, <- offsets_row_major.
  unfold take_idx. apply list_omap_ext. apply Forall2_fmap_r.
  apply Forall_Forall2_diag, Forall_forall. intros J HJ. unfold compose.
  by rewrite lookup_zip_with, (src_offset_own _ _ HJ).
Qed.

Lemma binary_ufunc_same_shape op a b :
  shape a = shape b -> wf a -> wf b ->
  binary_ufunc op a b
  = Ok {| shape := shape a;
          buf := let d := result_dtype op (dtype_of a) (dtype_of b) in
                 buf_of d (zip_with (apply_binop op d)
                             (buf_scalars (buf a)) (buf_scalars (buf b))) |}.
Proof.
  intros Hs Ha Hb. unfold binary_ufunc.
  rewrite <- Hs, broadcast_shapes_same. cbv zeta. do 3 f_equal.
  apply omap_same_shape.
  - unfold wf, size in Ha. rewrite <- Ha. by destruct (buf a); simpl; rewrite ?length_fmap.
  - unfold wf, size in Hb. rewrite Hs, <- Hb. by destruct (buf b); simpl; rewrite ?length_fmap.
Qed.

Lemma zip_with_f8 op (l1 l2 : list f64) :
  to_f64 <$> zip_with (apply_binop op F8) (SF <$> l1) (SF <$> l2)
  = zip_with (f64_op op) l1 l2.
Proof.
  revert l2. induction l1 as [|x l1 IH]; intros [|y l2]; try done.
  simpl. rewrite IH. by destruct op.
Qed.

Lemma binary_ufunc_f8 op s l1 l2 :
  length l1 = prod_shape s -> length l2 = prod_shape s ->
  binary_ufunc op (f8 s l1) (f8 s l2) = Ok (f8 s (zip_with (f64_op op) l1 l2)).
Proof.
  intros H1 H2. rewrite binary_ufunc_same_shape; try done.
  unfold f8. cbn [shape buf dtype_of buf_dtype buf_scalars]. do 2 f_equal.
  replace (result_dtype op F8 F8) with F8 by (by destruct op).
  cbn [buf_of]. by rewrite zip_with_f8.
Qed.

Lemma np_sqrt_f8 s l :
  np_sqrt (Ok (f8 s l)) = Ok (f8 s (f64_sqrt <$> l)).
Proof.
  unfold np_sqrt, f8. cbn [rbind shape buf buf_scalars]. do 3 f_equal.
  by rewrite <- list_fmap_compose.
Qed.

Lemma norm3_f8 s l1 l2 l3 :
  length l1 = prod_shape s -> length l2 = prod_shape s ->
  length l3 = prod_shape s ->
  norm3 (Ok (f8 s l1)) (Ok (f8 s l2)) (Ok (f8 s l3))
  = Ok (f8 s (f64_sqrt <$>
               zip_with f64_add
                 (zip_with f64_add (zip_with f64_mul l1 l1) (zip_with f64_mul l2 l2))
                 (zip_with f64_mul l3 l3))).
Proof.
  intros H1 H2 H3. unfold norm3, np_add, np_square, np_binary. cbn [rbind].
  rewrite !binary_ufunc_f8 by done. cbn [rbind f64_op].
  rewrite binary_ufunc_f8 by (rewrite !length_zip_with; lia). cbn [rbind f64_op].
  rewrite binary_ufunc_f8 by (rewrite !length_zip_with; lia). cbn [rbind f64_op].
  apply np_sqrt_f8.
Qed.

Ltac len_solve :=
  repeat first [rewrite length_zip_with | rewrite length_fmap]; lia.

Lemma pitch_formula_f8 s vr vz vphi br bz bphi :
  Forall (fun l => length l = prod_shape s) [vr; vz; vphi; br; bz; bphi] ->
  exists l,
    pitch_formula (f8 s vr) (f8 s vz) (f8 s vphi) (f8 s br) (f8 s bz) (f8 s bphi)
    = Ok (f8 s l)
    /\ length l = prod_shape s
    /\ forall i a b c d e f,
         vr !! i = Some a -> vz !! i = Some b -> vphi !! i = Some c ->
         br !! i = Some d -> bz !! i = Some e -> bphi !! i = Some f ->
         l !! i = Some (pitch1 a b c d e f).
Proof.
  intros Hall. rewrite !Forall_cons in Hall. destruct_and!.
  unfold pitch_formula. rewrite !norm3_f8 by done.
  unfold np_truediv, np_add, np_mul, np_binary. cbn [rbind].
  repeat (rewrite binary_ufunc_f8 by len_solve; cbn [rbind f64_op]).
  eexists. split; [reflexivity|]. split; [len_solve|].
  intros i a b c d e f Ha Hb Hc Hd He Hf.
  rewrite !lookup_zip_with, !list_lookup_fmap, !lookup_zip_with.
  rewrite Ha, Hb, Hc, Hd, He, Hf. reflexivity.
Qed.

Lemma eval_pitch_reads
    (ev : ndarray -> ndarray -> ndarray -> scalar -> string -> result ndarray)
    self (fs : fsys) h5 r z phi vr vz vphi mass :
  mrk_prt.enter self fs = (Ok h5, fs) ->
  mrk_prt.read_data h5 "r" = Ok r ->
  mrk_prt.read_data h5 "z" = Ok z ->
  mrk_prt.read_data h5 "phi" = Ok phi ->
  mrk_prt.read_data h5 "vr" = Ok vr ->
  mrk_prt.read_data h5 "vz" = Ok vz ->
  mrk_prt.read_data h5 "vphi" = Ok vphi ->
  mrk_prt.read_data h5 "mass" = Ok mass ->
  mrk_prt.eval_pitch ev self fs
  = (let* br := ev r phi z (SI 0) "br" in
     let* bz := ev r phi z (SI 0) "bz" in
     let* bphi := ev r phi z (SI 0) "bphi" in
     pitch_formula vr vz vphi br bz bphi, fs).
Proof.
  intros Henter Hr Hz Hphi Hvr Hvz Hvphi Hmass.
  unfold mrk_prt.eval_pitch. rewrite (io_bind_ok _ _ _ _ _ Henter).
  rewrite Hr, Hz, Hphi, Hvr, Hvz, Hvphi, Hmass.
  rewrite !(io_bind_ok _ _ _ _ _ (lift_run _ _)).
  unfold lift. f_equal.
  destruct (ev r phi z (SI 0) "br") as [br|]; [|done].
  destruct (ev r phi z (SI 0) "bz") as [bz|]; [|done].
  destruct (ev r phi z (SI 0) "bphi") as [bphi|]; [|done].
  cbn [rbind].
  apply (pitch_let_norms _ (norm3 (Ok br) (Ok bz) (Ok bphi))
           (norm3 (Ok vr) (Ok vz) (Ok vphi))); try apply tame_norm3.
  unfold np_add, np_mul. repeat first [apply tame_np_binary | apply tame_Ok].
Qed.

Lemma enter_ok (fs : fsys) self G :
  group_at fs self = Some G -> mrk_prt.enter self fs = (Ok G, fs).
Proof.
  intros (f & Hf & HG)%group_at_file. unfold mrk_prt.enter.
  rewrite (io_bind_ok _ _ _ _ _ (File_r_ok _ _ _ Hf)). by rewrite HG.
Qed.

Lemma read_data_stored h5 nm a :
  dvalue <$> gdatasets h5 !! nm = Some a -> shape a <> [] ->
  mrk_prt.read_data h5 nm = Ok a.
Proof.
  intros Hd Hs. unfold mrk_prt.read_data, getitem.
  destruct (gdatasets h5 !! nm) as [d|]; [|done].
  injection Hd as <-. cbn [rbind]. unfold read_all.
  by destruct (shape (dvalue d)).
Qed.

(** C7.  For a marker group whose datasets r, z, phi, vr, vz, vphi and
    mass can be read, with the velocities stored as float64 arrays of one
    shape, and field components br, bz, bphi that the native library gives
    at (r, phi, z, t=0) as float64 arrays of that shape, [eval_pitch]
    returns an array of that shape whose element for marker i is
    (vr_i*br_i + vz_i*bz_i + vphi_i*bphi_i) / (|B_i| * |v_i|), with
    |B_i| = sqrt(br_i^2 + bz_i^2 + bphi_i^2) and
    |v_i| = sqrt(vr_i^2 + vz_i^2 + vphi_i^2), every operation rounded to
    binary64 and the sums taken from the left. *)
Theorem mrk_prt_eval_pitch_formula
    (ascotpy_evaluate : ndarray -> ndarray -> ndarray -> scalar -> string ->
                        result ndarray)
    (self : ghandle) (fs : fsys) (h5 : group) (s : list nat)
    (r z phi mass : ndarray) (vr vz vphi br bz bphi : list f64) :
  group_at fs self = Some h5 ->
  (forall nm a,
     (nm, a) ∈ [("r", r); ("z", z); ("phi", phi); ("vr", f8 s vr);
                ("vz", f8 s vz); ("vphi", f8 s vphi); ("mass", mass)] ->
     dvalue <$> gdatasets h5 !! nm = Some a /\ shape a <> []) ->
  ascotpy_evaluate r phi z (SI 0) "br" = Ok (f8 s br) ->
  ascotpy_evaluate r phi z (SI 0) "bz" = Ok (f8 s bz) ->
  ascotpy_evaluate r phi z (SI 0) "bphi" = Ok (f8 s bphi) ->
  Forall (fun l => length l = prod_shape s) [vr; vz; vphi; br; bz; bphi] ->
  exists pitch,
    mrk_prt.eval_pitch ascotpy_evaluate self fs = (Ok (f8 s pitch), fs)
    /\ length pitch = prod_shape s
    /\ forall i a b c d e f,
         vr !! i = Some a -> vz !! i = Some b -> vphi !! i = Some c ->
         br !! i = Some d -> bz !! i = Some e -> bphi !! i = Some f ->
         pitch !! i
         = Some (f64_div
                   (f64_add (f64_add (f64_mul a d) (f64_mul b e)) (f64_mul c f))
                   (f64_mul
                      (f64_sqrt (f64_add (f64_add (f64_mul d d) (f64_mul e e))
                                         (f64_mul f f)))
                      (f64_sqrt (f64_add (f64_add (f64_mul a a) (f64_mul b b))
                                         (f64_mul c c))))).
Proof.
  intros Hself Hds Hbr Hbz Hbphi Hall.
  assert (Hread : forall nm a,
            (nm, a) ∈ [("r", r); ("z", z); ("phi", phi); ("vr", f8 s vr);
                       ("vz", f8 s vz); ("vphi", f8 s vphi); ("mass", mass)] ->
            mrk_prt.read_data h5 nm = Ok a).
  { intros nm a Hin. destruct (Hds nm a Hin). by apply read_data_stored. }
  destruct (pitch_formula_f8 s vr vz vphi br bz bphi Hall)
    as (l & Hl & Hlen & Hpt).
  exists l. split; [|split; [exact Hlen|exact Hpt]].
  rewrite (eval_pitch_reads ascotpy_evaluate self fs h5 r z phi
             (f8 s vr) (f8 s vz) (f8 s vphi) mass (enter_ok _ _ _ Hself)).
  - rewrite Hbr, Hbz, Hbphi. cbn [rbind]. by rewrite Hl.
  - apply Hread. apply list_elem_of_here.
  - apply Hread. do 1 apply list_elem_of_further. apply list_elem_of_here.
  - apply Hread. do 2 apply list_elem_of_further. apply list_elem_of_here.
  - apply Hread. do 3 apply list_elem_of_further. apply list_elem_of_here.
  - apply Hread. do 4 apply list_elem_of_further. apply list_elem_of_here.
  - apply Hread. do 5 apply list_elem_of_further. apply list_elem_of_here.
  - apply Hread. do 6 apply list_elem_of_further. apply list_elem_of_here.
Qed.

Example decimal_tol : Decimal.parse "1.0001" = Some erad.tol.
Proof. vm_compute. reflexivity. Qed.

Example decimal_tenth :
  Decimal.parse "0.1" = Some (S754_finite false 7205759403792794 (-56)).
Proof. vm_compute. reflexivity. Qed.

Example decimal_exp :
  Decimal.parse "-25e-1" = Some (S754_finite true 5629499534213120 (-51)).
Proof. vm_compute. reflexivity. Qed.

Example decimal_bad : Decimal.parse "1.0.1" = None.
Proof. vm_compute. reflexivity. Qed.

(** ** erad: a linearly spaced profile is returned as read *)



Section erad_props.
Context `{!FloatParser}.


End erad_props.


Section read_erad_props.
Context `{!FloatParser} `{!erad.Resampler}.

End read_erad_props.

(** ** The theorems at concrete inputs *)

Lemma appendable_empty fn : appendable ∅ fn.
Proof. intros c H. by rewrite lookup_empty in H. Qed.

Lemma E_3DS_write_read_witness :
  let er := Sample.field in
  let one := SF Sample.f64_one in
  (scalar_fits F8 one = true
   /\ Forall (fun n => scalar_fits I4 (SI n) = true) [2; 1; 3]
   /\ wf er /\ Z.of_nat <$> shape er = [2; 1; 3] /\ dtype_of er = F8)
  /\ exists fs' out,
       @E_3DS.write_hdf5 indefinite_platform Sample.meta0 "in.h5"
         one one 2 one one 3 one one 1 er er er None ∅
       = (Ok "E_3DS_0000000001", fs')
       /\ E_3DS.read_hdf5 "in.h5" "0000000001" fs' = (Ok out, fs')
       /\ out !! "er" = Some er /\ out !! "ephi" = Some er
       /\ out !! "ez" = Some er.
Proof.
  cbv zeta.
  split; [split; [reflexivity|]; split; [by repeat constructor|];
          by repeat split|].
  destruct (@E_3DS_write_read indefinite_platform Sample.meta0 "in.h5"
              (SF Sample.f64_one) (SF Sample.f64_one) 2
              (SF Sample.f64_one) (SF Sample.f64_one) 3
              (SF Sample.f64_one) (SF Sample.f64_one) 1
              Sample.field Sample.field Sample.field None ∅)
    as (fs' & out & Hw & Hr & _ & _ & _ & Her & Hephi & Hez);
    [by repeat constructor | by repeat constructor
    | reflexivity | reflexivity | reflexivity | reflexivity | reflexivity
    | reflexivity | apply appendable_empty | reflexivity |].
  exists fs', out. repeat split; auto.
Defined.

Lemma E_3DS_write_bad_shape_witness :
  let er := Sample.field in
  let one := SF Sample.f64_one in
  Z.of_nat <$> shape Sample.two_floats <> [2; 1; 3]
  /\ exists msg,
       @E_3DS.write_hdf5 indefinite_platform Sample.meta0 "in.h5"
         one one 2 one one 3 one one 1 er Sample.two_floats er None ∅
       = (Raise (ValueError msg), ∅).
Proof.
  cbv zeta. split; [discriminate|].
  apply (@E_3DS_write_bad_shape_raises indefinite_platform).
  right; left. discriminate.
Defined.

Lemma mrk_prt_write_validation_witness :
  let a := Sample.two_floats in
  let i := Sample.two_ints in
  (Z.of_nat (size Sample.three_floats) <> 2
   /\ exists msg,
        @mrk_prt.write_hdf5 indefinite_platform Sample.meta0 "in.h5" 2
          i a i a a a a a a Sample.three_floats i a a None ∅
        = (Raise (ValueError msg), ∅))
  /\ @mrk_prt.write_hdf5 indefinite_platform Sample.meta0 "in.h5" 2
       i a i a a a a a a i i a a None ∅
     = @mrk_prt.write_body indefinite_platform Sample.meta0 "in.h5" 2
         i a i a a a a a a i i a a None ∅
  /\ exists fs',
       @mrk_prt.write_hdf5 indefinite_platform Sample.meta0 "in.h5" 2
         i a i a a a a a a i i a a None ∅
       = (Ok "prt_0000000001", fs').
Proof.
  cbv zeta. split; [split; [discriminate|]|].
  - apply (@mrk_prt_write_validation indefinite_platform).
    do 9 apply Exists_cons_tl. apply Exists_cons_hd. discriminate.
  - destruct (proj2 (@mrk_prt_write_validation indefinite_platform
                       Sample.meta0 "in.h5" 2
                       Sample.two_ints Sample.two_floats Sample.two_ints
                       Sample.two_floats Sample.two_floats Sample.two_floats
                       Sample.two_floats Sample.two_floats Sample.two_floats
                       Sample.two_ints Sample.two_ints Sample.two_floats
                       Sample.two_floats None ∅)) as [Hbody Hok].
    + repeat constructor.
    + split; [exact Hbody|]. apply Hok; [apply appendable_empty|reflexivity].
Defined.

Lemma options_roundtrip_counterexample :
  let w := @options.write_hdf5 indefinite_platform decimal_parser Sample.meta0
             "in.h5" [("GRID", options.PData (AArray Sample.square))] None ∅ in
  let flat := {| shape := [4]%nat; buf := Sample.floats [1; 2; 3; 4] |} in
  w.1 = Ok "/options/opt-0000000001"
  /\ (let* out := (options.read_hdf5 "in.h5" "0000000001" w.2).1 in
      Ok (out !! "GRID"))
     = Ok (Some (options.PData (AArray flat)))
  /\ options.PData (AArray flat) <> options.PData (AArray Sample.square).
Proof.
  cbv zeta. split; [vm_compute; reflexivity|].
  split; [vm_compute; reflexivity|]. discriminate.
Qed.

Lemma options_write_read_witness :
  (NoDup Sample.options_read_format.*1
   /\ forall k v, (k, v) ∈ Sample.options_read_format ->
        options.is_option k = true ->
        member_name k = true /\ @numeric_value decimal_parser v = true)
  /\ exists fs' out,
       @options.write_hdf5 indefinite_platform decimal_parser Sample.meta0
         "in.h5" Sample.options_read_format None ∅
       = (Ok "/options/opt-0000000001", fs')
       /\ options.read_hdf5 "in.h5" "0000000001" fs' = (Ok out, fs')
       /\ out !! "SIM_MODE"
          = Some (options.PData (AArray {| shape := [1]%nat;
                                           buf := Sample.floats [3] |}))
       /\ out !! "ENDCOND_LIM" = Some (options.PData (AArray Sample.two_floats)).
Proof.
  assert (Hnd : NoDup Sample.options_read_format.*1).
  { refine (bool_decide_unpack _ _). vm_compute. exact I. }
  assert (Hnum : forall k v, (k, v) ∈ Sample.options_read_format ->
            options.is_option k = true ->
            member_name k = true /\ @numeric_value decimal_parser v = true).
  { intros k v Hin Hopt. unfold Sample.options_read_format in Hin.
    apply elem_of_cons in Hin as [[= -> ->]|Hin]; [discriminate Hopt|].
    apply elem_of_cons in Hin as [[= -> ->]|Hin]; [by split|].
    apply elem_of_cons in Hin as [[= -> ->]|Hin]; [by split|].
    by apply elem_of_nil in Hin. }
  split; [by split|].
  destruct (@options_write_read indefinite_platform decimal_parser Sample.meta0
              "in.h5" Sample.options_read_format None ∅ Hnd Hnum
              (appendable_empty _) eq_refl) as (fs' & out & Hw & Hr & Hout & _).
  exists fs', out. split; [exact Hw|]. split; [exact Hr|].
  split.
  - apply (Hout "SIM_MODE" (AArray {| shape := [1]%nat;
                                      buf := Sample.floats [3] |}));
      [|reflexivity|].
    + apply list_elem_of_further, list_elem_of_here.
    + eexists _, _. split; [reflexivity|]. split; reflexivity.
  - apply (Hout "ENDCOND_LIM" (AArray Sample.two_floats)); [|reflexivity|].
    + do 2 apply list_elem_of_further. apply list_elem_of_here.
    + eexists _, _. split; [reflexivity|]. split; reflexivity.
Defined.

Lemma readers_propagate_errors_witness :
  let fs : fsys := {[ "empty.h5" := HDF5 ∅ ]} in
  (File_r "missing.h5" fs = (Raise (FileNotFoundError "missing.h5"), fs)
   /\ E_3DS.read_hdf5 "missing.h5" "0000000001" fs
      = (Raise (FileNotFoundError "missing.h5"), fs)
   /\ options.read_hdf5 "missing.h5" "0000000001" fs
      = (Raise (FileNotFoundError "missing.h5"), fs))
  /\ (getpath ∅ ("efield" +:+ "/E_3DS_" +:+ "0000000001")
      = Raise (KeyError "efield/E_3DS_0000000001")
      /\ E_3DS.read_hdf5 "empty.h5" "0000000001" fs
         = (Raise (KeyError "efield/E_3DS_0000000001"), fs)).
Proof.
  cbv zeta. split.
  - split; [reflexivity|].
    apply (readers_propagate_errors "missing.h5" "0000000001"). reflexivity.
  - split; [reflexivity|].
    apply (proj2 (readers_propagate_errors "empty.h5" "0000000001"
                    {[ "empty.h5" := HDF5 ∅ ]}
                    (KeyError "efield/E_3DS_0000000001")) ∅);
      reflexivity.
Defined.

Lemma LibMhd_evaluate_dispatch_witness :
  let a := Sample.two_floats in
  ("bphi" ∈ LibMhd.quantities
   /\ LibMhd.evaluate Sample.ones_mhd a a a (SI 0) "bphi"
      = (let* d := Sample.ones_mhd a a a (SI 0) in getitem d "bphi"))
  /\ (("rho" ∉ LibMhd.quantities)
      /\ LibMhd.evaluate Sample.ones_mhd a a a (SI 0) "rho"
         = Raise (AssertionError "Unknown quantity")).
Proof.
  cbv zeta.
  assert (H1 : "bphi" ∈ LibMhd.quantities).
  { apply list_elem_of_further, list_elem_of_here. }
  assert (H2 : "rho" ∉ LibMhd.quantities).
  { unfold LibMhd.quantities. rewrite !not_elem_of_cons.
    repeat split; try discriminate. apply not_elem_of_nil. }
  split; split; try assumption.
  - by apply LibMhd_evaluate_dispatch.
  - by apply LibMhd_evaluate_dispatch.
Defined.

Lemma mrk_prt_eval_pitch_witness :
  let col l := f8 [2; 1]%nat (f64_of_Z <$> l) in
  (group_at Sample.marker_files Sample.marker_self = Some Sample.marker_group
   /\ dvalue <$> gdatasets Sample.marker_group !! "vr" = Some (col [3; 0])
   /\ Sample.uniform_bz (col [6; 7]) (col [0; 90]) (col [0; 1]) (SI 0) "bz"
      = Ok (col [2; 2]))
  /\ exists pitch,
       mrk_prt.eval_pitch Sample.uniform_bz Sample.marker_self Sample.marker_files
       = (Ok (f8 [2; 1]%nat pitch), Sample.marker_files)
       /\ pitch !! 0%nat = Some (f64_div (f64_of_Z 4) (f64_of_Z 5))
       /\ pitch !! 1%nat = Some (f64_of_Z 0).
Proof.
  cbv zeta. split; [repeat split; vm_compute; reflexivity|].
  destruct (mrk_prt_eval_pitch_formula Sample.uniform_bz Sample.marker_self
              Sample.marker_files Sample.marker_group [2; 1]%nat
              (f8 [2; 1]%nat (f64_of_Z <$> [6; 7]))
              (f8 [2; 1]%nat (f64_of_Z <$> [0; 1]))
              (f8 [2; 1]%nat (f64_of_Z <$> [0; 90]))
              (f8 [2; 1]%nat (f64_of_Z <$> [4; 4]))
              (f64_of_Z <$> [3; 0]) (f64_of_Z <$> [4; 0]) (f64_of_Z <$> [0; 5])
              (f64_of_Z <$> [0; 0]) (f64_of_Z <$> [2; 2]) (f64_of_Z <$> [0; 0]))
    as (pitch & Hrun & _ & Hpt).
  - vm_compute. reflexivity.
  - intros nm a Hin.
    repeat (apply elem_of_cons in Hin as [[= -> ->]|Hin];
            [split; [vm_compute; reflexivity|discriminate]|]).
    by apply elem_of_nil in Hin.
  - vm_compute. reflexivity.
  - vm_compute. reflexivity.
  - vm_compute. reflexivity.
  - repeat constructor.
  - exists pitch. split; [exact Hrun|]. split.
    + rewrite (Hpt 0%nat (f64_of_Z 3) (f64_of_Z 4) (f64_of_Z 0)
                 (f64_of_Z 0) (f64_of_Z 2) (f64_of_Z 0))
        by reflexivity.
      vm_compute. reflexivity.
    + rewrite (Hpt 1%nat (f64_of_Z 0) (f64_of_Z 0) (f64_of_Z 5)
                 (f64_of_Z 0) (f64_of_Z 2) (f64_of_Z 0))
        by reflexivity.
      vm_compute. reflexivity.
Defined.

(** The pitch of the two sample markers in a field along z: 4/5 for the
    velocity (3, 0, 4), 0 for a velocity along phi. *)
Example pitch_of_sample_markers :
  pitch_formula
    {| shape := [2; 1]%nat; buf := Sample.floats [3; 0] |}
    {| shape := [2; 1]%nat; buf := Sample.floats [4; 0] |}
    {| shape := [2; 1]%nat; buf := Sample.floats [0; 5] |}
    {| shape := [2; 1]%nat; buf := Sample.floats [0; 0] |}
    {| shape := [2; 1]%nat; buf := Sample.floats [2; 2] |}
    {| shape := [2; 1]%nat; buf := Sample.floats [0; 0] |}
  = Ok {| shape := [2; 1]%nat;
          buf := BufF8 [f64_div (f64_of_Z 4) (f64_of_Z 5); f64_of_Z 0] |}.
Proof. vm_compute. reflexivity. Qed.

Lemma mrk_prt_write_dtypes_witness :
  let a := Sample.two_floats in
  let h := Sample.two_halves in
  let i := Sample.two_ints in
  let w := @mrk_prt.write_hdf5 indefinite_platform Sample.meta0 "in.h5" 2
             i a h a a a a a a i i a a None ∅ in
  w = (Ok "prt_0000000001", w.2)
  /\ exists G,
       group_at w.2 {| h_fn := "in.h5"; h_parent := "marker";
                       h_name := "prt_0000000001" |} = Some G
       /\ @stored_dataset indefinite_platform G "charge" I4 [2; 1]%nat h "e"
       /\ stored_truncated G "charge" I4 h
       /\ @stored_dataset indefinite_platform G "id" I8 [2; 1]%nat i "1"
       /\ @stored_dataset indefinite_platform G "mass" F8 [2; 1]%nat a "amu".
Proof.
  cbv zeta.
  assert (Hw : @mrk_prt.write_hdf5 indefinite_platform Sample.meta0 "in.h5" 2
                 Sample.two_ints Sample.two_floats Sample.two_halves
                 Sample.two_floats Sample.two_floats Sample.two_floats
                 Sample.two_floats Sample.two_floats Sample.two_floats
                 Sample.two_ints Sample.two_ints Sample.two_floats
                 Sample.two_floats None ∅
               = (Ok "prt_0000000001",
                  (@mrk_prt.write_hdf5 indefinite_platform Sample.meta0 "in.h5" 2
                     Sample.two_ints Sample.two_floats Sample.two_halves
                     Sample.two_floats Sample.two_floats Sample.two_floats
                     Sample.two_floats Sample.two_floats Sample.two_floats
                     Sample.two_ints Sample.two_ints Sample.two_floats
                     Sample.two_floats None ∅).2)).
  { vm_compute. reflexivity. }
  split; [exact Hw|].
  destruct (@mrk_prt_write_dtypes indefinite_platform _ _ _ _ _ _ _ _ _ _ _ _
              _ _ _ _ _ _ _ _ Hw)
    as (G & HG & (Hc & _ & _ & Hid) & (Htc & _) & (_ & _ & _ & _ & _ & _ & Hm & _)).
  exists G. by repeat split.
Defined.

(** The charges 2.5 and -1.5 are stored as 2 and -1. *)
Example charge_truncated :
  @buf_astype indefinite_platform I4 (buf Sample.two_halves) = BufI4 [2; -1].
Proof. vm_compute. reflexivity. Qed.

(** A value that is no number: the call raises and the entry is not
    written. *)
Lemma options_write_datasets_counterexample :
  let opts := [ ("SIM_MODE", options.PData (AScalar (SI 3)));
                ("ENDCOND_LIM", options.PStr "soon") ] in
  let w := @options.write_hdf5 indefinite_platform decimal_parser Sample.meta0
             "in.h5" opts None ∅ in
  options.is_option "ENDCOND_LIM" = true
  /\ (exists msg, w.1 = Raise (ValueError msg))
  /\ dataset_at w.2 {| h_fn := "in.h5"; h_parent := "options";
                       h_name := "opt-0000000001" |} "ENDCOND_LIM" = None.
Proof.
  cbv zeta. split; [reflexivity|]. split.
  - eexists. vm_compute. reflexivity.
  - vm_compute. reflexivity.
Qed.

Lemma options_write_datasets_witness :
  (NoDup Sample.options_text.*1
   /\ forall k v, (k, v) ∈ Sample.options_text ->
        has_slash k = false
        /\ (options.is_option k = true ->
            member_name k = true /\ @numeric_value decimal_parser v = true))
  /\ exists fs' G,
       @options.write_hdf5 indefinite_platform decimal_parser Sample.meta0
         "in.h5" Sample.options_text None ∅
       = (Ok "/options/opt-0000000001", fs')
       /\ group_at fs' {| h_fn := "in.h5"; h_parent := "options";
                          h_name := "opt-0000000001" |} = Some G
       /\ dataset_at fs' {| h_fn := "in.h5"; h_parent := "options";
                            h_name := "opt-0000000001" |} "description" = None
       /\ gdatasets G !! "SIM_MODE"
          = Some {| dvalue := {| shape := [1]%nat; buf := Sample.floats [3] |};
                    dattrs := ∅ |}
       /\ gdatasets G !! "FIXEDSTEP_USERDEFINED"
          = Some {| dvalue := {| shape := [1]%nat;
                                 buf := BufF8 [f64_div (f64_of_Z 1) (f64_of_Z 2)] |};
                    dattrs := ∅ |}.
Proof.
  assert (Hnd : NoDup Sample.options_text.*1).
  { refine (bool_decide_unpack _ _). vm_compute. exact I. }
  assert (Hall : forall k v, (k, v) ∈ Sample.options_text ->
            has_slash k = false
            /\ (options.is_option k = true ->
                member_name k = true /\ @numeric_value decimal_parser v = true)).
  { intros k v Hin. unfold Sample.options_text in Hin.
    apply elem_of_cons in Hin as [[= -> ->]|Hin];
      [split; [reflexivity|discriminate]|].
    apply elem_of_cons in Hin as [[= -> ->]|Hin];
      [split; [reflexivity|by split]|].
    apply elem_of_cons in Hin as [[= -> ->]|Hin];
      [split; [reflexivity|intros _; split; vm_compute; reflexivity]|].
    by apply elem_of_nil in Hin. }
  split; [by split|].
  pose proof (@options_write_datasets indefinite_platform decimal_parser
                Sample.meta0 "in.h5" Sample.options_text None ∅) as [Hmeta Hdata].
  destruct (Hdata Hnd (fun k v Hin => proj2 (Hall k v Hin))
              (appendable_empty _) eq_refl)
    as (fs' & G & Hw & HG & _ & _ & _ & Hin & Hstr & _).
  exists fs', G. split; [exact Hw|]. split; [exact HG|]. split; [|split].
  - rewrite (Hmeta (fun k v Hin => proj1 (Hall k v Hin)) _ fs'
               {| h_fn := "in.h5"; h_parent := "options";
                  h_name := "opt-0000000001" |} "description" Hw).
    + reflexivity.
    + do 2 apply list_elem_of_further. apply list_elem_of_here.
  - rewrite (Hin "SIM_MODE" (AScalar (SI 3))); [reflexivity| |reflexivity].
    apply list_elem_of_further, list_elem_of_here.
  - apply (Hstr "FIXEDSTEP_USERDEFINED" "0.5"); [|reflexivity|].
    + do 2 apply list_elem_of_further. apply list_elem_of_here.
    + vm_compute. reflexivity.
Defined.


(** ** The numpy and text models on small inputs *)

(** A column times a row broadcasts to a matrix. *)
Example broadcast_column_row :
  binary_ufunc Mul {| shape := [2; 1]%nat; buf := BufI8 [1; 2] |}
                   {| shape := [2]%nat; buf := BufI8 [10; 20] |}
  = Ok {| shape := [2; 2]%nat; buf := BufI8 [10; 20; 20; 40] |}.
Proof. vm_compute. reflexivity. Qed.

Example broadcast_mismatch :
  binary_ufunc Add {| shape := [2]%nat; buf := BufI8 [1; 2] |}
                   {| shape := [3]%nat; buf := BufI8 [1; 2; 3] |}
  = Raise broadcast_error.
Proof. reflexivity. Qed.

Example int32_wraps :
  binary_ufunc Mul {| shape := [1]%nat; buf := BufI4 [65536] |}
                   {| shape := [1]%nat; buf := BufI4 [32768] |}
  = Ok {| shape := [1]%nat; buf := BufI4 [- 2147483648] |}.
Proof. vm_compute. reflexivity. Qed.

Example transpose_2x3 :
  transpose {| shape := [2; 3]%nat; buf := BufI8 [1; 2; 3; 4; 5; 6] |} [1; 0]%nat
  = Ok {| shape := [3; 2]%nat; buf := BufI8 [1; 4; 2; 5; 3; 6] |}.
Proof. reflexivity. Qed.

Example transpose_bad_axes :
  transpose {| shape := [2; 3]%nat; buf := BufI8 [1; 2; 3; 4; 5; 6] |}
            [2; 1; 0]%nat
  = Raise (ValueError "axes don't match array").
Proof. reflexivity. Qed.

Example split_line :
  erad.split ("  3   points" +:+ String "010" "") = ["3"; "points"].
Proof. reflexivity. Qed.

Example readline_twice :
  erad.readline ("a b" +:+ String "010" ("c" +:+ String "010" "d"))
  = ("a b" +:+ String "010" "", "c" +:+ String "010" "d").
Proof. reflexivity. Qed.

(** One data row only: the table has a single axis and the column index
    raises. *)
Example read_erad_one_row :
  @erad.read_erad decimal_parser strict_resampler "erad.dat"
    {[ "erad.dat" := Other ("c" +:+ String "010" ("2" +:+ String "010" "0.0 1.0")) ]}
  = (Raise (IndexError "too many indices for array"),
     {[ "erad.dat" := Other ("c" +:+ String "010" ("2" +:+ String "010" "0.0 1.0")) ]}).
Proof. vm_compute. reflexivity. Qed.

(** * Further properties *)

(** ** mrk_prt: pitch and energy, marker by marker *)

(** X10.  [eval_pitch] works marker by marker.  When the three velocity
    datasets and the three field components are float64 arrays of one
    shape, the result has that shape and its i-th element is the pitch of
    the i-th velocity and the i-th field vector: no element depends on
    another marker. *)
Theorem mrk_prt_eval_pitch_pointwise
    (ev : ndarray -> ndarray -> ndarray -> scalar -> string -> result ndarray)
    self (fs : fsys) h5 r z phi mass s vr vz vphi br bz bphi :
  mrk_prt.enter self fs = (Ok h5, fs) ->
  mrk_prt.read_data h5 "r" = Ok r ->
  mrk_prt.read_data h5 "z" = Ok z ->
  mrk_prt.read_data h5 "phi" = Ok phi ->
  mrk_prt.read_data h5 "vr" = Ok (f8 s vr) ->
  mrk_prt.read_data h5 "vz" = Ok (f8 s vz) ->
  mrk_prt.read_data h5 "vphi" = Ok (f8 s vphi) ->
  mrk_prt.read_data h5 "mass" = Ok mass ->
  ev r phi z (SI 0) "br" = Ok (f8 s br) ->
  ev r phi z (SI 0) "bz" = Ok (f8 s bz) ->
  ev r phi z (SI 0) "bphi" = Ok (f8 s bphi) ->
  Forall (fun l => length l = prod_shape s) [vr; vz; vphi; br; bz; bphi] ->
  exists l,
    mrk_prt.eval_pitch ev self fs = (Ok (f8 s l), fs)
    /\ length l = prod_shape s
    /\ forall i a b c d e f,
         vr !! i = Some a -> vz !! i = Some b -> vphi !! i = Some c ->
         br !! i = Some d -> bz !! i = Some e -> bphi !! i = Some f ->
         l !! i = Some (pitch1 a b c d e f).
Proof.
  intros Henter Hr Hz Hphi Hvr Hvz Hvphi Hmass Hbr Hbz Hbphi Hall.
  destruct (pitch_formula_f8 s vr vz vphi br bz bphi Hall) as (l & Hl & Hlen & Hpt).
  exists l. split; [|by split].
  rewrite (eval_pitch_reads ev self fs h5 r z phi _ _ _ mass) by done.
  rewrite Hbr, Hbz, Hbphi. cbn [rbind]. by rewrite Hl.
Qed.

Lemma read_data_cases h5 k :
  (exists a, mrk_prt.read_data h5 k = Ok a)
  \/ (mrk_prt.read_data h5 k = Raise (KeyError k) /\ gdatasets h5 !! k = None)
  \/ (exists msg, mrk_prt.read_data h5 k = Raise (ValueError msg)
                  /\ is_Some (gdatasets h5 !! k)).
Proof.
  unfold mrk_prt.read_data, getitem.
  destruct (gdatasets h5 !! k) as [d|] eqn:E; cbn [rbind]; [|by right; left].
  unfold read_all. destruct (shape (dvalue d)); [right; right|left]; eauto.
Qed.

Lemma read_data_missing h5 k :
  gdatasets h5 !! k = None -> mrk_prt.read_data h5 k = Raise (KeyError k).
Proof. intros H. unfold mrk_prt.read_data, getitem. by rewrite H. Qed.

(** X11.  [eval_pitch] reads all seven datasets r, z, phi, vr, vz, vphi,
    mass before anything else.  If one of them is missing from the group
    (the mass too, which the pitch does not use), the call raises, a
    [KeyError] naming a missing dataset or the [ValueError] of a dataset
    that cannot be sliced, and the error is the same whatever the field
    evaluator: the native library is never called. *)
Theorem mrk_prt_eval_pitch_missing_dataset self (fs : fsys) h5 nm :
  mrk_prt.enter self fs = (Ok h5, fs) ->
  nm ∈ ["r"; "z"; "phi"; "vr"; "vz"; "vphi"; "mass"] ->
  gdatasets h5 !! nm = None ->
  exists e,
    ((exists k, e = KeyError k /\ gdatasets h5 !! k = None)
     \/ (exists msg, e = ValueError msg))
    /\ forall ev, mrk_prt.eval_pitch ev self fs = (Raise e, fs).
Proof.
  intros Henter Hnm Hmiss.
  assert (Hcls : forall k e, mrk_prt.read_data h5 k = Raise e ->
            (exists k, e = KeyError k /\ gdatasets h5 !! k = None)
            \/ (exists msg, e = ValueError msg)).
  { intros k e He.
    destruct (read_data_cases h5 k) as [[a Ha]|[[Hk Hn]|(msg & Hk & _)]];
      rewrite He in *; simplify_eq; eauto. }
  assert (Hrun : forall ev, mrk_prt.eval_pitch ev self fs
            = (r ← lift (mrk_prt.read_data h5 "r");
               z ← lift (mrk_prt.read_data h5 "z");
               phi ← lift (mrk_prt.read_data h5 "phi");
               vr ← lift (mrk_prt.read_data h5 "vr");
               vz ← lift (mrk_prt.read_data h5 "vz");
               vphi ← lift (mrk_prt.read_data h5 "vphi");
               mass ← lift (mrk_prt.read_data h5 "mass");
               lift (let* br := ev r phi z (SI 0) "br" in
                     let* bz := ev r phi z (SI 0) "bz" in
                     let* bphi := ev r phi z (SI 0) "bphi" in
                     let* b := norm3 (Ok br) (Ok bz) (Ok bphi) in
                     let* v := norm3 (Ok vr) (Ok vz) (Ok vphi) in
                     let* pitch :=
                       np_truediv
                         (np_add (np_add (np_mul (Ok vr) (Ok br))
                                         (np_mul (Ok vz) (Ok bz)))
                                 (np_mul (Ok vphi) (Ok bphi)))
                         (np_mul (Ok b) (Ok v)) in
                     Ok pitch)) fs).
  { intros ev. unfold mrk_prt.eval_pitch.
    by rewrite (io_bind_ok _ _ _ _ _ Henter). }
  destruct (mrk_prt.read_data h5 "r") as [?|e] eqn:H1;
    [|exists e; split; [by eapply Hcls|intros ev; by rewrite Hrun]].
  destruct (mrk_prt.read_data h5 "z") as [?|e] eqn:H2;
    [|exists e; split; [by eapply Hcls|intros ev; by rewrite Hrun]].
  destruct (mrk_prt.read_data h5 "phi") as [?|e] eqn:H3;
    [|exists e; split; [by eapply Hcls|intros ev; by rewrite Hrun]].
  destruct (mrk_prt.read_data h5 "vr") as [?|e] eqn:H4;
    [|exists e; split; [by eapply Hcls|intros ev; by rewrite Hrun]].
  destruct (mrk_prt.read_data h5 "vz") as [?|e] eqn:H5;
    [|exists e; split; [by eapply Hcls|
                        intros ev; by rewrite Hrun]].
  destruct (mrk_prt.read_data h5 "vphi") as [?|e] eqn:H6;
    [|exists e; split; [by eapply Hcls|
                        intros ev; by rewrite Hrun]].
  destruct (mrk_prt.read_data h5 "mass") as [?|e] eqn:H7;
    [|exists e; split; [by eapply Hcls|
                        intros ev; by rewrite Hrun]].
  exfalso. pose proof (read_data_missing _ _ Hmiss) as Hm.
  repeat (apply elem_of_cons in Hnm as [->|Hnm]; [congruence|]).
  by apply elem_of_nil in Hnm.
Qed.

Lemma eval_energy_reads
    (energy_velocity : ndarray -> ndarray -> result ndarray)
    self (fs : fsys) h5 vr vz vphi mass :
  mrk_prt.enter self fs = (Ok h5, fs) ->
  mrk_prt.read_data h5 "vr" = Ok vr ->
  mrk_prt.read_data h5 "vz" = Ok vz ->
  mrk_prt.read_data h5 "vphi" = Ok vphi ->
  mrk_prt.read_data h5 "mass" = Ok mass ->
  mrk_prt.eval_energy energy_velocity self fs
  = (let* v := norm3 (Ok vr) (Ok vz) (Ok vphi) in energy_velocity mass v, fs).
Proof.
  intros Henter Hvr Hvz Hvphi Hmass.
  unfold mrk_prt.eval_energy. rewrite (io_bind_ok _ _ _ _ _ Henter).
  rewrite Hvr, Hvz, Hvphi, Hmass.
  by rewrite !(io_bind_ok _ _ _ _ _ (lift_run _ _)).
Qed.

(** X12.  [eval_energy] needs the datasets vr, vz, vphi and mass only (no
    positions, no field).  For float64 velocities of one shape it returns
    what [energy_velocity] gives for the mass and the speeds, an array of
    that shape whose i-th element is sqrt(vr_i^2 + vz_i^2 + vphi_i^2) in
    binary64. *)
Theorem mrk_prt_eval_energy_speed
    (energy_velocity : ndarray -> ndarray -> result ndarray)
    self (fs : fsys) h5 s vr vz vphi mass :
  mrk_prt.enter self fs = (Ok h5, fs) ->
  mrk_prt.read_data h5 "vr" = Ok (f8 s vr) ->
  mrk_prt.read_data h5 "vz" = Ok (f8 s vz) ->
  mrk_prt.read_data h5 "vphi" = Ok (f8 s vphi) ->
  mrk_prt.read_data h5 "mass" = Ok mass ->
  Forall (fun l => length l = prod_shape s) [vr; vz; vphi] ->
  exists v,
    mrk_prt.eval_energy energy_velocity self fs
    = (energy_velocity mass (f8 s v), fs)
    /\ length v = prod_shape s
    /\ forall i a b c,
         vr !! i = Some a -> vz !! i = Some b -> vphi !! i = Some c ->
         v !! i = Some (len3 a b c).
Proof.
  intros Henter Hvr Hvz Hvphi Hmass Hall.
  rewrite !Forall_cons in Hall. destruct_and!.
  eexists. split.
  { rewrite (eval_energy_reads _ self fs h5 _ _ _ mass) by done.
    rewrite norm3_f8 by done. reflexivity. }
  split; [len_solve|].
  intros i a b c Ha Hb Hc.
  rewrite list_lookup_fmap, !lookup_zip_with, Ha, Hb, Hc. reflexivity.
Qed.

(** ** The writers change one group only *)

Lemma only_group_changed_refl g fs : only_group_changed g fs fs.
Proof. by split. Qed.

Lemma only_group_changed_trans g fs1 fs2 fs3 :
  only_group_changed g fs1 fs2 -> only_group_changed g fs2 fs3 ->
  only_group_changed g fs1 fs3.
Proof.
  intros [H1 H1'] [H2 H2']. split.
  - intros g' Hg. by rewrite H2, H1.
  - intros fn Hfn. by rewrite H2', H1'.
Qed.

Lemma changes_only_ret {A} g (a : A) : changes_only g (mret a).
Proof. intros fs r fs' [= <- <-]. apply only_group_changed_refl. Qed.

Lemma changes_only_raise {A} g e : changes_only g (@raise A e).
Proof. intros fs r fs' [= <- <-]. apply only_group_changed_refl. Qed.

Lemma changes_only_lift {A} g (x : result A) : changes_only g (lift x).
Proof. intros fs r fs' [= <- <-]. apply only_group_changed_refl. Qed.

Lemma changes_only_bind {A B} g (c : io A) (k : A -> io B) (Q : A -> Prop) :
  changes_only g c ->
  (forall fs a fs', c fs = (Ok a, fs') -> Q a) ->
  (forall a, Q a -> changes_only g (k a)) ->
  changes_only g (c ≫= k).
Proof.
  intros Hc HQ Hk fs r fs'. rewrite io_bind_run.
  destruct (c fs) as [[a|e] fs1] eqn:E.
  - intros Hrun. eapply only_group_changed_trans; [by eapply Hc|].
    eapply Hk; [by eapply HQ|done].
  - intros [= <- <-]. by eapply Hc.
Qed.

Lemma changes_only_seq {A B} g (c : io A) (k : A -> io B) :
  changes_only g c -> (forall a, changes_only g (k a)) ->
  changes_only g (c ≫= k).
Proof.
  intros Hc Hk. apply (changes_only_bind g c k (fun _ => True)); auto.
Qed.

Lemma changes_only_get_group g g0 : changes_only g (get_group g0).
Proof.
  intros fs r fs'. unfold get_group.
  destruct (file_at fs (h_fn g0)) as [f|]; [|intros [= <- <-]; by split].
  destruct (group_in f _ _); intros [= <- <-]; by split.
Qed.

Lemma changes_only_put_group g grp : changes_only g (put_group g grp).
Proof.
  intros fs r fs'. unfold put_group.
  destruct (file_at fs (h_fn g)) as [f|] eqn:Hf; intros [= <- <-]; [|by split].
  split.
  - intros g' Hg. rewrite (group_at_put _ _ _ _ _ Hf). by rewrite decide_False.
  - intros fn Hfn. by rewrite lookup_insert_ne.
Qed.

Lemma changes_only_File_a g : changes_only g (File_a (h_fn g)).
Proof.
  intros fs r fs' Hrun. split.
  - intros g' _. by eapply File_a_frame.
  - intros fn Hfn. revert Hrun. unfold File_a.
    destruct (fs !! h_fn g) as [[f|c]|]; intros [= <- <-]; try done.
    by rewrite lookup_insert_ne.
Qed.

Lemma changes_only_add_group sep m fn parent grp desc :
  changes_only {| h_fn := fn; h_parent := parent;
                  h_name := grp +:+ sep +:+ m_qid m |}
    (add_group_with sep m fn parent grp desc).
Proof.
  intros fs r fs'. unfold add_group_with.
  destruct (file_at fs fn) as [f|] eqn:Hf; [|intros [= <- <-]; by split].
  destruct (group_in f parent _) as [G|] eqn:HG; intros [= <- <-]; [by split|].
  split.
  - intros g' Hg.
    rewrite (group_at_put fs {| h_fn := fn; h_parent := parent;
                                h_name := grp +:+ sep +:+ m_qid m |} f _ g' Hf).
    by rewrite decide_False.
  - intros fn' Hfn. cbn [h_fn] in Hfn. by rewrite lookup_insert_ne.
Qed.

Lemma add_group_handle sep m fn parent grp desc (fs : fsys) g fs' :
  add_group_with sep m fn parent grp desc fs = (Ok g, fs') ->
  g = {| h_fn := fn; h_parent := parent; h_name := grp +:+ sep +:+ m_qid m |}.
Proof.
  unfold add_group_with. destruct (file_at fs fn); [|done].
  destruct (group_in _ _ _); [done|]. by intros [= <- <-].
Qed.

Section Frames.
Context `{!Platform}.

Lemma changes_only_create_dataset g nm shp data d :
  changes_only g (create_dataset g nm shp data d).
Proof.
  unfold create_dataset.
  case_bool_decide; [|apply changes_only_raise].
  destruct (forallb _ _); [|apply changes_only_raise].
  apply changes_only_seq; [apply changes_only_get_group|]. intros grp.
  destruct (gdatasets grp !! nm); [apply changes_only_raise|].
  apply changes_only_seq; [apply changes_only_put_group|]. intros _.
  apply changes_only_ret.
Qed.

Lemma create_dataset_handle g nm shp data d (fs : fsys) a fs' :
  create_dataset g nm shp data d fs = (Ok a, fs') -> a = (g, nm).
Proof.
  unfold create_dataset.
  case_bool_decide; [|done]. destruct (forallb _ _); [|done].
  rewrite io_bind_run. destruct (get_group g fs) as [[grp|e] fs1]; [|done].
  destruct (gdatasets grp !! nm); [done|].
  rewrite io_bind_run. destruct (put_group _ _ fs1) as [[[]|e] fs2]; [|done].
  by intros [= <- <-].
Qed.
End Frames.

Lemma changes_only_attrs_set g nm k v : changes_only g (attrs_set (g, nm) k v).
Proof.
  unfold attrs_set. cbn [fst snd].
  apply changes_only_seq; [apply changes_only_get_group|]. intros grp.
  destruct (gdatasets grp !! nm); [apply changes_only_put_group|].
  apply changes_only_raise.
Qed.

Section Frames2.
Context `{!Platform}.

Lemma changes_only_create_with_unit g nm shp data d u :
  changes_only g (mrk_prt.create_with_unit g nm shp data d u).
Proof.
  unfold mrk_prt.create_with_unit.
  apply (changes_only_bind g _ _ (fun a => a = (g, nm))).
  - apply changes_only_create_dataset.
  - intros fs a fs'. apply create_dataset_handle.
  - intros a ->. apply changes_only_attrs_set.
Qed.

Lemma changes_only_check_size g a n msg :
  changes_only g (mrk_prt.check_size a n msg).
Proof.
  unfold mrk_prt.check_size.
  destruct (negb _); [apply changes_only_raise|apply changes_only_ret].
Qed.

Lemma E_3DS_write_frame m fn rmin rmax nr zmin zmax nz phimin phimax nphi
    er ephi ez desc :
  changes_only {| h_fn := fn; h_parent := "efield";
                  h_name := "E_3DS_" +:+ m_qid m |}
    (E_3DS.write_hdf5 m fn rmin rmax nr zmin zmax nz phimin phimax nphi
       er ephi ez desc).
Proof.
  unfold E_3DS.write_hdf5.
  repeat (destruct (E_3DS.shape_ne _ _); [apply changes_only_raise|]).
  do 3 (apply changes_only_seq; [apply changes_only_lift|intros ?]).
  apply changes_only_seq; [apply (changes_only_File_a (mk_ghandle _ _ _))|].
  intros _.
  eapply changes_only_bind;
    [apply (changes_only_add_group "_")
    |intros ? ? ?; apply add_group_handle|].
  intros g ->. cbn [h_name].
  repeat (apply changes_only_seq; [apply changes_only_create_dataset|intros _]).
  apply changes_only_ret.
Qed.

Lemma mrk_prt_write_frame m fn n
    ids mass charge r phi z vr vphi vz anum znum weight time desc :
  changes_only {| h_fn := fn; h_parent := "marker";
                  h_name := "prt_" +:+ m_qid m |}
    (mrk_prt.write_hdf5 m fn n ids mass charge r phi z vr vphi vz anum znum
       weight time desc).
Proof.
  unfold mrk_prt.write_hdf5.
  repeat (apply changes_only_seq; [apply changes_only_check_size|intros _]).
  unfold mrk_prt.write_body.
  apply changes_only_seq; [apply (changes_only_File_a (mk_ghandle _ _ _))|].
  intros _.
  eapply changes_only_bind;
    [apply (changes_only_add_group "_")
    |intros ? ? ?; apply add_group_handle|].
  intros g ->. cbn [h_name].
  repeat (apply changes_only_seq; [apply changes_only_create_with_unit|intros _]).
  apply changes_only_ret.
Qed.
End Frames2.

Section Frames3.
Context `{!Platform} `{!FloatParser}.

Lemma changes_only_write_options g opts :
  changes_only g (options.write_options g opts).
Proof.
  induction opts as [|[k v] opts IH]; [apply changes_only_ret|].
  cbn [options.write_options].
  apply changes_only_seq; [|intros _; apply IH].
  destruct (options.is_option k); [|apply changes_only_ret].
  apply changes_only_seq; [apply changes_only_lift|intros data].
  apply changes_only_seq; [apply changes_only_create_dataset|intros _].
  apply changes_only_ret.
Qed.

Lemma options_write_group_frame m fn opts desc :
  changes_only {| h_fn := fn; h_parent := "options";
                  h_name := "opt-" +:+ m_qid m |}
    (options.write_hdf5 m fn opts desc).
Proof.
  unfold options.write_hdf5.
  apply changes_only_seq; [apply (changes_only_File_a (mk_ghandle _ _ _))|].
  intros _.
  eapply changes_only_bind;
    [apply (changes_only_add_group "-")
    |intros ? ? ?; apply add_group_handle|].
  intros g ->.
  apply changes_only_seq; [apply changes_only_write_options|intros _].
  apply changes_only_ret.
Qed.
End Frames3.

Lemma File_a_existing (fs : fsys) fn f :
  file_at fs fn = Some f -> File_a fn fs = (Ok tt, fs).
Proof.
  unfold file_at, File_a. by destruct (fs !! fn) as [[?|?]|].
Qed.

Lemma group_in_default_Some (fs : fsys) fn parent nm G :
  group_in (default ∅ (file_at fs fn)) parent nm = Some G ->
  exists f, file_at fs fn = Some f /\ group_in f parent nm = Some G.
Proof.
  destruct (file_at fs fn) as [f|]; simpl; [eauto|].
  unfold group_in. by rewrite lookup_empty.
Qed.

Lemma group_at_default (fs : fsys) fn parent nm :
  group_at fs {| h_fn := fn; h_parent := parent; h_name := nm |}
  = group_in (default ∅ (file_at fs fn)) parent nm.
Proof.
  unfold group_at. cbn [h_fn h_parent h_name].
  destruct (file_at fs fn); simpl; [done|].
  unfold group_in. by rewrite lookup_empty.
Qed.

(** Opening the file and adding a group whose name is taken, or opening
    something that is no HDF5 file, raises and changes nothing. *)
Lemma open_add_fails sep m fn parent grp desc (fs : fsys) {B} (k : ghandle -> io B) :
  (exists c, fs !! fn = Some (Other c))
  \/ is_Some (group_in (default ∅ (file_at fs fn)) parent (grp +:+ sep +:+ m_qid m)) ->
  exists e, (File_a fn ≫= fun _ => add_group_with sep m fn parent grp desc ≫= k) fs
            = (Raise e, fs).
Proof.
  intros [[c Hc]|[G HG]].
  - destruct (File_a_other fs fn c Hc) as [e He]. exists e.
    by rewrite (io_bind_raise _ _ _ _ _ He).
  - apply group_in_default_Some in HG as (f & Hf & HG).
    rewrite (io_bind_ok _ _ _ _ _ (File_a_existing _ _ _ Hf)).
    destruct (add_group_taken sep m fn parent grp desc fs f G Hf HG) as [e He].
    exists e. by rewrite (io_bind_raise _ _ _ _ _ He).
Qed.

Section AllOrNothing.
Context `{!Platform}.

Lemma with_datasets_keys g0 l k :
  is_Some (gdatasets (with_datasets g0 l) !! k)
  <-> k ∈ (fun x => x.1.1.1) <$> l \/ is_Some (gdatasets g0 !! k).
Proof.
  revert g0. induction l as [|[[[nm shp] data] d] l IH]; intros g0.
  { cbn. rewrite elem_of_nil. tauto. }
  cbn [with_datasets foldl]. fold (with_datasets
    (add_dataset g0 nm (stored_as shp (asarray d data))) l).
  rewrite IH. cbn [add_dataset gdatasets fmap list_fmap fst].
  rewrite lookup_insert_is_Some', elem_of_cons.
  split; [intros [?|[->|?]]|intros [[->|?]|?]]; auto.
Qed.

Lemma with_unit_datasets_keys g0 l k :
  is_Some (gdatasets (with_unit_datasets g0 l) !! k)
  <-> k ∈ (fun x => x.1.1.1.1) <$> l \/ is_Some (gdatasets g0 !! k).
Proof.
  revert g0. induction l as [|[[[[nm shp] data] d] u] l IH]; intros g0.
  { cbn. rewrite elem_of_nil. tauto. }
  cbn [with_unit_datasets foldl].
  lazymatch goal with
  | |- context [ foldl ?f ?g1 l ] => change (foldl f g1 l) with (with_unit_datasets g1 l)
  end.
  rewrite IH. cbn [set_dattr add_dataset gdatasets fmap list_fmap fst].
  rewrite lookup_insert_is_Some', lookup_insert_is_Some', elem_of_cons.
  split; [intros [?|[->|[->|?]]]|intros [[->|?]|?]]; auto.
Qed.

Lemma E_3DS_write_cases m fn rmin rmax nr zmin zmax nz
    phimin phimax nphi er ephi ez desc (fs : fsys) r fs' :
  let h := {| h_fn := fn; h_parent := "efield";
              h_name := "E_3DS_" +:+ m_qid m |} in
  E_3DS.write_hdf5 m fn rmin rmax nr zmin zmax nz phimin phimax nphi
    er ephi ez desc fs = (r, fs') ->
  (r = Ok ("E_3DS_" +:+ m_qid m)
   /\ (Z.of_nat <$> shape er = [nr; nphi; nz]
       /\ Z.of_nat <$> shape ephi = [nr; nphi; nz]
       /\ Z.of_nat <$> shape ez = [nr; nphi; nz])
   /\ group_at fs h = None
   /\ group_at fs' h
      = Some (E_3DS_group m desc rmin rmax nr zmin zmax nz phimin phimax nphi
                (rev_axes er) (rev_axes ephi) (rev_axes ez)))
  \/ (exists e, r = Raise e /\ fs' = fs).
Proof.
  intros h Hrun.
  destruct (decide (Z.of_nat <$> shape er = [nr; nphi; nz])) as [He|He].
  2: { right. revert Hrun. unfold E_3DS.write_hdf5, E_3DS.shape_ne.
       rewrite bool_decide_false by done. intros [= <- <-]. eauto. }
  destruct (decide (Z.of_nat <$> shape ephi = [nr; nphi; nz])) as [Hp|Hp].
  2: { right. revert Hrun. unfold E_3DS.write_hdf5, E_3DS.shape_ne.
       rewrite bool_decide_true by done. rewrite bool_decide_false by done.
       intros [= <- <-]. eauto. }
  destruct (decide (Z.of_nat <$> shape ez = [nr; nphi; nz])) as [Hz|Hz].
  2: { right. revert Hrun. unfold E_3DS.write_hdf5, E_3DS.shape_ne.
       rewrite !bool_decide_true by done. rewrite bool_decide_false by done.
       intros [= <- <-]. eauto. }
  destruct (appendable_dec fs fn) as [Happ|Hother];
    [destruct (group_in (default ∅ (file_at fs fn)) "efield"
                 ("E_3DS_" +:+ m_qid m)) as [G0|] eqn:Hfresh|].
  2: { left.
       destruct (E_3DS_write_ok m fn rmin rmax nr zmin zmax nz phimin phimax nphi
                   er ephi ez desc fs He Hp Hz Happ Hfresh) as (fs1 & Hw & Hg).
       rewrite Hw in Hrun. injection Hrun as <- <-.
       split; [done|]. split; [done|].
       split; [subst h; by rewrite group_at_default|done]. }
  all: right.
  all: pose proof (shape3_of_tuple _ _ _ _ He) as (Hse & _).
  all: pose proof (shape3_of_tuple _ _ _ _ Hp) as (Hsp & _).
  all: pose proof (shape3_of_tuple _ _ _ _ Hz) as (Hsz & _).
  all: revert Hrun; unfold E_3DS.write_hdf5, E_3DS.shape_ne.
  all: rewrite !bool_decide_true by done; cbn [negb].
  all: rewrite (transpose_rev_axes _ _ _ _ Hse), (transpose_rev_axes _ _ _ _ Hsp),
         (transpose_rev_axes _ _ _ _ Hsz).
  all: rewrite !(io_bind_ok _ _ _ _ _ (lift_run _ _)).
  all: unfold fileapi.add_group.
  all: lazymatch goal with
       | |- (File_a _ ≫= fun _ => add_group_with _ _ _ _ _ _ ≫= ?k) _ = _ -> _ =>
           destruct (open_add_fails "_" m fn "efield" "E_3DS" desc fs k) as [e Hfail];
           [eauto|rewrite Hfail; intros [= <- <-]; eauto]
       end.
Qed.

(** X5.  With grid limits that binary64 holds and counts that int32
    holds, [E_3DS.write_hdf5] is all or nothing.  Either it returns the
    name of a group that was not there before and now holds exactly the
    twelve datasets, and nothing but that group has changed: every other
    group of every file and every other file is as it was.  Or it raises
    and the files are exactly as they were: no file created, no group left
    half written.  (A limit or a count that its dtype cannot hold makes
    numpy raise after the group was added; that case is excluded.) *)
Theorem E_3DS_write_all_or_nothing m fn rmin rmax nr zmin zmax nz
    phimin phimax nphi er ephi ez desc (fs : fsys) r fs' :
  let h := {| h_fn := fn; h_parent := "efield";
              h_name := "E_3DS_" +:+ m_qid m |} in
  Forall (fun v => scalar_fits F8 v = true)
    [rmin; rmax; phimin; phimax; zmin; zmax] ->
  Forall (fun n => scalar_fits I4 (SI n) = true) [nr; nphi; nz] ->
  E_3DS.write_hdf5 m fn rmin rmax nr zmin zmax nz phimin phimax nphi
    er ephi ez desc fs = (r, fs') ->
  (r = Ok ("E_3DS_" +:+ m_qid m)
   /\ group_at fs h = None
   /\ (exists G, group_at fs' h = Some G
         /\ forall k, is_Some (gdatasets G !! k)
              <-> k ∈ ["rmin"; "rmax"; "nr"; "phimin"; "phimax"; "nphi";
                       "zmin"; "zmax"; "nz"; "er"; "ephi"; "ez"])
   /\ only_group_changed h fs fs')
  \/ (exists e, r = Raise e /\ fs' = fs).
Proof.
  intros h _ _ Hrun.
  pose proof (E_3DS_write_frame m fn rmin rmax nr zmin zmax nz phimin phimax
                nphi er ephi ez desc fs r fs' Hrun) as Hframe.
  destruct (E_3DS_write_cases m fn rmin rmax nr zmin zmax nz phimin phimax
              nphi er ephi ez desc fs r fs' Hrun)
    as [(Hr & _ & Hnew & Hg)|Hfail]; [left|by right].
  split; [done|]. split; [done|]. split; [|done].
  eexists. split; [exact Hg|].
  intros k. unfold E_3DS_group. rewrite with_datasets_keys.
  cbn [fmap list_fmap fst new_group gdatasets].
  rewrite lookup_empty, is_Some_alt. split; [by intros [?|[]]|by left].
Qed.

Lemma mrk_prt_write_cases m fn n
    ids mass charge r phi z vr vphi vz anum znum weight time desc
    (fs : fsys) res fs' :
  let h := {| h_fn := fn; h_parent := "marker";
              h_name := "prt_" +:+ m_qid m |} in
  mrk_prt.write_hdf5 m fn n ids mass charge r phi z vr vphi vz anum znum
    weight time desc fs = (res, fs') ->
  (res = Ok ("prt_" +:+ m_qid m)
   /\ Forall (fun a => Z.of_nat (size a) = n)
        [ids; mass; charge; r; phi; z; vr; vphi; vz; anum; znum; weight; time]
   /\ group_at fs h = None
   /\ group_at fs' h
      = Some (mrk_prt_group m desc n ids mass charge r phi z vr vphi vz
                anum znum weight time))
  \/ (exists e, res = Raise e /\ fs' = fs).
Proof.
  intros h Hrun.
  set (arrays := [ids; mass; charge; r; phi; z; vr; vphi; vz; anum; znum;
                  weight; time]).
  destruct (decide (Forall (fun a => Z.of_nat (size a) = n) arrays))
    as [Hall|Hnot].
  2: { right. apply not_Forall_Exists in Hnot; [|solve_decision].
       revert Hrun. unfold mrk_prt.write_hdf5.
       repeat lazymatch goal with
       | |- context [ (mrk_prt.check_size ?a ?n ?msg ≫= _) ?fs ] =>
           let He := fresh "He" in
           destruct (decide (Z.of_nat (size a) = n)) as [He|He];
           [ rewrite (io_bind_ok _ _ _ _ _ (check_size_pass a n msg fs He))
           | rewrite (io_bind_raise _ _ _ _ _ (check_size_fail a n msg fs He));
             intros [= <- <-]; by eauto ]
       end.
       subst arrays.
       repeat (apply Exists_cons in Hnot as [Hnot|Hnot]; [done|]).
       by apply Exists_nil in Hnot. }
  assert (Hbody : mrk_prt.write_body m fn n ids mass charge r phi z vr vphi vz
                    anum znum weight time desc fs = (res, fs')).
  { rewrite <- Hrun. unfold mrk_prt.write_hdf5. subst arrays.
    pose proof Hall as Hall'.
    rewrite !Forall_cons in Hall'. destruct_and!.
    by rewrite !check_size_pass_bind by done. }
  destruct (appendable_dec fs fn) as [Happ|Hother];
    [destruct (group_in (default ∅ (file_at fs fn)) "marker"
                 ("prt_" +:+ m_qid m)) as [G0|] eqn:Hfresh|].
  2: { left.
       destruct (mrk_prt_write_body_ok m fn n ids mass charge r phi z vr vphi vz
                   anum znum weight time desc fs Hall Happ Hfresh)
         as (fs1 & Hw & Hg).
       rewrite Hw in Hbody. injection Hbody as <- <-.
       split; [done|]. split; [done|].
       split; [subst h; by rewrite group_at_default|done]. }
  all: right; revert Hbody; unfold mrk_prt.write_body, fileapi.add_group.
  all: lazymatch goal with
       | |- (File_a _ ≫= fun _ => add_group_with _ _ _ _ _ _ ≫= ?k) _ = _ -> _ =>
           destruct (open_add_fails "_" m fn "marker" "prt" desc fs k) as [e Hfail];
           [eauto|rewrite Hfail; intros [= <- <-]; eauto]
       end.
Qed.

(** X7.  [mrk_prt.write_hdf5] is all or nothing.  Either it returns the
    name of a group that was not there before and now holds exactly the
    fourteen datasets n, r, phi, z, vr, vphi, vz, mass, charge, anum, znum,
    weight, time, id, and nothing but that group has changed.  Or it raises
    and the files are exactly as they were. *)
Theorem mrk_prt_write_all_or_nothing m fn n
    ids mass charge r phi z vr vphi vz anum znum weight time desc
    (fs : fsys) res fs' :
  let h := {| h_fn := fn; h_parent := "marker";
              h_name := "prt_" +:+ m_qid m |} in
  mrk_prt.write_hdf5 m fn n ids mass charge r phi z vr vphi vz anum znum
    weight time desc fs = (res, fs') ->
  (res = Ok ("prt_" +:+ m_qid m)
   /\ group_at fs h = None
   /\ (exists G, group_at fs' h = Some G
         /\ forall k, is_Some (gdatasets G !! k)
              <-> k ∈ ["n"; "r"; "phi"; "z"; "vr"; "vphi"; "vz"; "mass";
                       "charge"; "anum"; "znum"; "weight"; "time"; "id"])
   /\ only_group_changed h fs fs')
  \/ (exists e, res = Raise e /\ fs' = fs).
Proof.
  intros h Hrun.
  pose proof (mrk_prt_write_frame m fn n ids mass charge r phi z vr vphi vz
                anum znum weight time desc fs res fs' Hrun) as Hframe.
  destruct (mrk_prt_write_cases m fn n ids mass charge r phi z vr vphi vz
              anum znum weight time desc fs res fs' Hrun)
    as [(Hr & _ & Hnew & Hg)|Hfail]; [left|by right].
  split; [done|]. split; [done|]. split; [|done].
  eexists. split; [exact Hg|].
  intros k. unfold mrk_prt_group. rewrite with_unit_datasets_keys.
  cbn [fmap list_fmap fst new_group gdatasets].
  rewrite lookup_empty, is_Some_alt. split; [by intros [?|[]]|by left].
Qed.

(** X8.  After a successful [mrk_prt.write_hdf5], [n] is the size of the
    array [ids] (every other array has that size by the validation) and
    the dataset "n" of the new group holds it as one int64 in shape (1,1),
    with the unit "1" (for a count that fits int64). *)
Theorem mrk_prt_write_count m fn n
    ids mass charge r phi z vr vphi vz anum znum weight time desc
    (fs fs' : fsys) gname :
  mrk_prt.write_hdf5 m fn n ids mass charge r phi z vr vphi vz anum znum
    weight time desc fs = (Ok gname, fs') ->
  n <= int_max I8 ->
  n = Z.of_nat (size ids)
  /\ dataset_at fs' {| h_fn := fn; h_parent := "marker"; h_name := gname |} "n"
     = Some {| dvalue := {| shape := [1; 1]%nat; buf := BufI8 [n] |};
               dattrs := <["unit" := "1"]> ∅ |}.
Proof.
  intros Hrun Hmax. pose proof Hrun as Hsz. revert Hsz.
  unfold mrk_prt.write_hdf5 at 1. rewrite io_bind_run. unfold mrk_prt.check_size at 1.
  case_bool_decide as Hids; [|done]. intros _. split; [done|].
  apply mrk_prt_write_inv in Hrun as (-> & Hn & Hg).
  unfold dataset_at. rewrite Hg. cbn [mbind option_bind].
  unfold mrk_prt_group.
  cbn [with_unit_datasets foldl add_dataset set_dattr new_group gdatasets].
  rewrite !lookup_insert_ne by done. rewrite lookup_insert_eq.
  do 3 f_equal. unfold stored_as. cbn [asarray scalar_array default buf].
  do 2 f_equal. unfold to_int, in_range.
  replace (int_min I8 <=? n) with true by (symmetry; apply Z.leb_le; unfold int_min; lia).
  by replace (n <=? int_max I8) with true by (symmetry; by apply Z.leb_le).
Qed.
End AllOrNothing.

(** ** options: failure part way, keys, writing what was read *)

Section options_more.
Context `{!Platform} `{!FloatParser}.

Lemma write_options_app g l1 l2 (fs : fsys) :
  options.write_options g (l1 ++ l2)%list fs
  = (options.write_options g l1 ≫= fun _ => options.write_options g l2) fs.
Proof.
  revert fs. induction l1 as [|[k v] l1 IH]; intros fs; [done|].
  cbn [app options.write_options]. rewrite io_bind_assoc.
  lazymatch goal with
  | |- (?c ≫= _) fs = _ =>
      rewrite !(io_bind_run c); destruct (c fs) as [[[]|e] fs1]; [|done]
  end.
  apply IH.
Qed.

(** X13.  [options.write_hdf5] is not all or nothing.  When the value of
    an option is a string that is no number, and the options before it in
    the dictionary have names of members as keys and plain data (arrays,
    floats, ints that int64 holds) as values, the call raises a
    [ValueError] but the group it has created stays in the file, with a
    dataset for each option that came earlier and none for the failing
    option and those after it. *)
Theorem options_write_not_atomic m fn pre k s post desc (fs : fsys) :
  let h := {| h_fn := fn; h_parent := "options";
              h_name := "opt-" +:+ m_qid m |} in
  NoDup (pre ++ (k, options.PStr s) :: post)%list.*1 ->
  (forall k' v, (k', v) ∈ pre -> options.is_option k' = true ->
     member_name k' = true
     /\ exists x, v = options.PData x /\ plain_data x = true) ->
  options.is_option k = true ->
  float_of_string s = None ->
  appendable fs fn ->
  group_at fs h = None ->
  exists msg fs' G,
    options.write_hdf5 m fn (pre ++ (k, options.PStr s) :: post)%list desc fs
    = (Raise (ValueError msg), fs')
    /\ group_at fs' h = Some G
    /\ (forall k' x, (k', options.PData x) ∈ pre ->
          options.is_option k' = true ->
          gdatasets G !! k' = Some {| dvalue := flat_f8 x; dattrs := ∅ |})
    /\ (forall k' v, (k', v) ∈ (k, options.PStr s) :: post ->
          gdatasets G !! k' = None).
Proof.
  intros h Hnd Hnum Hopt Hbad Hfile Hfresh.
  subst h. rewrite group_at_default in Hfresh.
  rewrite fmap_app in Hnd. apply NoDup_app in Hnd as (Hnd1 & Hdisj & Hnd2).
  unfold options.write_hdf5.
  destruct (File_a_ok fs fn Hfile) as (fs1 & Hopen & Hf1). io_step Hopen.
  destruct (add_group_ok "-" m fn "options" "opt" desc fs1 _ Hf1 Hfresh)
    as (fs2 & Hadd & Hg).
  cbn zeta in Hadd, Hg. unfold ascot5file.add_group. io_step Hadd.
  destruct (write_options_ok _ pre fs2 _ Hg Hnd1) as (fs3 & Hloop & Hg3).
  { intros k' v Hin Hopt'. split; [apply lookup_empty|].
    by destruct (Hnum k' v Hin Hopt') as (_ & x & -> & _). }
  rewrite io_bind_run, write_options_app, (io_bind_ok _ _ _ _ _ Hloop).
  cbn [options.write_options]. rewrite Hopt.
  cbn [options.to_f8_array]. rewrite Hbad.
  eexists _, fs3, _. split; [reflexivity|]. split; [exact Hg3|].
  cbn [gdatasets new_group]. split.
  - intros k' x Hin Hopt'. rewrite options_stored_lookup by done.
    rewrite (elem_of_list_to_map_1 _ _ _ Hnd1 Hin), Hopt'.
    cbn [options.to_f8_array]. by rewrite flat_f8_stored.
  - intros k' v Hin. rewrite options_stored_lookup by done.
    rewrite (not_elem_of_list_to_map_1 pre k'); [by rewrite lookup_empty|].
    intros Hk'. apply (Hdisj k' Hk'). rewrite list_elem_of_fmap. by exists (k', v).
Qed.
End options_more.

(** X14.  [options.read_hdf5] on any group with the attributes "date" and
    "description" whose datasets can be sliced: the result has a key for
    every dataset and the keys "qid", "date" and "description", and no
    other.  Every dataset is returned as an array; the three metadata keys
    hold the QID asked for and the two attributes, unless a dataset of that
    name is in the group, which then takes the key. *)
Theorem options_read_keys fn qid (fs : fsys) G date descr :
  group_at fs {| h_fn := fn; h_parent := "options"; h_name := "opt-" +:+ qid |}
  = Some G ->
  gattrs G !! "date" = Some date ->
  gattrs G !! "description" = Some descr ->
  map_Forall (fun _ d => shape (dvalue d) <> []) (gdatasets G) ->
  exists out,
    options.read_hdf5 fn qid fs = (Ok out, fs)
    /\ (forall k ds, gdatasets G !! k = Some ds ->
          out !! k = Some (options.PData (AArray (dvalue ds))))
    /\ (gdatasets G !! "qid" = None -> out !! "qid" = Some (options.PStr qid))
    /\ (gdatasets G !! "date" = None -> out !! "date" = Some (options.PStr date))
    /\ (gdatasets G !! "description" = None ->
        out !! "description" = Some (options.PStr descr))
    /\ (forall k, is_Some (out !! k)
          <-> is_Some (gdatasets G !! k) \/ k ∈ ["qid"; "date"; "description"]).
Proof.
  intros (f & Hf & HG)%group_at_file Hdate Hdescr Hall.
  cbn [h_fn h_parent h_name] in *.
  eexists. split; [by eapply options_read_ok|].
  split; [|split; [|split; [|split]]].
  - intros k ds Hk. apply lookup_union_Some_l.
    by rewrite !lookup_fmap, Hk.
  - intros Hk. rewrite lookup_union_r by (by rewrite !lookup_fmap, Hk).
    rewrite !lookup_insert_ne by done. apply lookup_insert_eq.
  - intros Hk. rewrite lookup_union_r by (by rewrite !lookup_fmap, Hk).
    rewrite lookup_insert_ne by done. apply lookup_insert_eq.
  - intros Hk. rewrite lookup_union_r by (by rewrite !lookup_fmap, Hk).
    apply lookup_insert_eq.
  - intros k. rewrite lookup_union_is_Some, !lookup_fmap, !fmap_is_Some.
    rewrite !lookup_insert_is_Some', lookup_empty.
    rewrite !elem_of_cons, elem_of_nil.
    pose proof (@is_Some_None options.pyval) as HN. intuition auto.
Qed.

Lemma is_option_ne k :
  options.is_option k = true ->
  k <> "qid" /\ k <> "date" /\ k <> "description".
Proof. intros H. repeat split; by intros ->. Qed.

Lemma options_read_inv fn qid (fs : fsys) out fs' :
  options.read_hdf5 fn qid fs = (Ok out, fs') ->
  fs' = fs
  /\ exists G date descr,
       group_at fs {| h_fn := fn; h_parent := "options";
                      h_name := "opt-" +:+ qid |} = Some G
       /\ gattrs G !! "date" = Some date
       /\ gattrs G !! "description" = Some descr
       /\ map_Forall (fun _ d => shape (dvalue d) <> []) (gdatasets G)
       /\ out = ((fun a => options.PData (AArray a)) <$> (dvalue <$> gdatasets G))
                ∪ <["description" := options.PStr descr]>
                    (<["date" := options.PStr date]>
                       (<["qid" := options.PStr qid]> ∅)).
Proof.
  unfold options.read_hdf5. rewrite io_bind_run. unfold File_r at 1.
  rewrite group_at_default. unfold file_at. cbv beta.
  destruct (fs !! fn) as [[f|c]|]; [|by intros [=]..]. cbn [default].
  unfold lift, getpath. rewrite options_path.
  destruct (group_in f "options" ("opt-" +:+ qid)) as [G|] eqn:HG; [|done].
  cbn [rbind]. unfold getitem.
  destruct (gattrs G !! "date") as [date|] eqn:Hdate; [|done].
  destruct (gattrs G !! "description") as [descr|] eqn:Hdescr; [|done].
  cbn [rbind].
  unfold read_datasets. case_bool_decide as Hall; [|done]. cbn [rbind].
  intros [= <- <-]. split; [done|]. by exists G, date, descr.
Qed.

Section options_again.
Context `{!Platform} `{!FloatParser}.

(** X15.  What [options.read_hdf5] returns can be given to
    [options.write_hdf5], in whatever order the dictionary lists its keys:
    the write succeeds, and reading the new group gives, under every key
    other than "qid", "date" and "description", the value read before,
    converted to float64 and laid out in one dimension; so the very same
    value when it was a one-dimensional float64 array, as for a group that
    [write_hdf5] wrote.  No other option appears. *)
Theorem options_read_write_read m fn qid fn2 items desc (fs : fsys) out :
  options.read_hdf5 fn qid fs = (Ok out, fs) ->
  NoDup items.*1 ->
  list_to_map items = out ->
  appendable fs fn2 ->
  group_at fs {| h_fn := fn2; h_parent := "options";
                 h_name := "opt-" +:+ m_qid m |} = None ->
  exists fs' out2,
    options.write_hdf5 m fn2 items desc fs
    = (Ok ("/options/opt-" +:+ m_qid m), fs')
    /\ options.read_hdf5 fn2 (m_qid m) fs' = (Ok out2, fs')
    /\ (forall k, options.is_option k = true ->
          out2 !! k = as_read <$> out !! k)
    /\ ((forall k v, options.is_option k = true -> out !! k = Some v ->
           is_flat_f8 v) ->
        forall k, options.is_option k = true -> out2 !! k = out !! k).
Proof.
  intros Hread Hnd Hitems Hfile Hfresh. rewrite group_at_default in Hfresh.
  apply options_read_inv in Hread
    as (_ & G & date & descr & HG & _ & _ & _ & Hout).
  assert (Hopt : forall k, options.is_option k = true ->
            out !! k
            = (fun ds => options.PData (AArray (dvalue ds))) <$> gdatasets G !! k).
  { intros k (Hq & Hd & He)%is_option_ne. rewrite Hout, lookup_union.
    rewrite !lookup_insert_ne, lookup_empty by done.
    rewrite !lookup_fmap. by destruct (gdatasets G !! k). }
  destruct (options_write_ok m fn2 items desc fs Hnd) as (fs' & Hw & Hg);
    [|done|done|].
  { intros k v Hin Hk. apply (elem_of_list_to_map_1 _ _ _ Hnd) in Hin.
    rewrite Hitems, (Hopt k Hk) in Hin.
    by destruct (gdatasets G !! k); simplify_eq/=. }
  apply group_at_file in Hg as (f & Hf & HG'). cbn [h_fn h_parent h_name] in *.
  exists fs'. eexists. split; [exact Hw|]. split.
  { eapply options_read_ok; [exact Hf|exact HG'| | |].
    - cbn [gattrs new_group]. apply lookup_insert_eq.
    - cbn [gattrs new_group]. rewrite lookup_insert_ne by done.
      apply lookup_insert_eq.
    - cbn [gdatasets]. by apply options_stored_sliceable. }
  assert (Hout2 : forall k, options.is_option k = true ->
    (((fun a => options.PData (AArray a)) <$> (dvalue <$> options_stored items ∅))
     ∪ <["description" := options.PStr (default (m_defdesc m) desc)]>
         (<["date" := options.PStr (m_date m)]>
            (<["qid" := options.PStr (m_qid m)]> ∅))) !! k
    = as_read <$> out !! k).
  { intros k Hk. pose proof (is_option_ne k Hk) as (Hq & Hd & He).
    rewrite lookup_union, !lookup_insert_ne, lookup_empty by done.
    rewrite !lookup_fmap, options_stored_lookup, Hitems, Hk, lookup_empty by done.
    rewrite (Hopt k Hk).
    destruct (gdatasets G !! k) as [ds|]; [|done].
    cbn [fmap option_fmap option_map options.to_f8_array dvalue as_read
         union_with option_union_with].
    by rewrite flat_f8_stored. }
  cbn [gattrs gdatasets new_group]. split; [exact Hout2|].
  intros Hflat k Hk. etrans; [exact (Hout2 k Hk)|].
  destruct (out !! k) as [v|] eqn:Hv; [|done].
  destruct (Hflat k v Hk Hv) as (a & n & -> & Hs & Hd).
  cbn [fmap option_fmap option_map as_read]. by rewrite (flat_f8_id _ _ Hs Hd).
Qed.
End options_again.

(** ** E_3DS: the layout on disk and the grid *)

Lemma buf_scalars_take idx b :
  buf_scalars (buf_take idx b) = take_idx idx (buf_scalars b).
Proof. destruct b; simpl; by rewrite take_idx_fmap. Qed.

Lemma buf_scalars_astype_f8 `{!Platform} b :
  buf_scalars (buf_astype F8 b) = as_f8 <$> buf_scalars b.
Proof.
  destruct b; simpl; rewrite <- list_fmap_compose; by apply list_fmap_ext.
Qed.

Lemma length_buf_scalars b : length (buf_scalars b) = buf_len b.
Proof. destruct b; simpl; by rewrite length_fmap. Qed.

Lemma rev_axes_item a p q r i j k :
  wf a -> shape a = [p; q; r] ->
  (i < p)%nat -> (j < q)%nat -> (k < r)%nat ->
  item (rev_axes a) (pos3 q p k j i) = item a (pos3 q r i j k).
Proof.
  intros Hwf Hs Hi Hj Hk. unfold item, rev_axes, pos3. rewrite Hs.
  cbn [buf]. rewrite buf_scalars_take.
  assert (Hlen : length (buf_scalars (buf a)) = (p * q * r)%nat).
  { rewrite length_buf_scalars. unfold wf, size in Hwf. rewrite Hwf, Hs.
    unfold prod_shape. simpl. lia. }
  rewrite lookup_take_idx.
  - by rewrite lookup_tab3.
  - apply Forall_tab3. intros k' j' i' Hk' Hj' Hi'. rewrite Hlen.
    assert (H1 : (i' * q + j' + 1 <= p * q)%nat) by nia.
    apply (Nat.mul_le_mono_r _ _ r) in H1. lia.
Qed.

Lemma length_take_idx {X} idx (l : list X) :
  Forall (fun i => (i < length l)%nat) idx ->
  length (take_idx idx l) = length idx.
Proof.
  unfold take_idx. induction 1 as [|i idx Hi _ IH]; [done|].
  cbn [omap list_omap]. destruct (lookup_lt_is_Some_2 l i Hi) as [x ->].
  simpl. by rewrite IH.
Qed.

Lemma rev_axes_wf a p q r : wf a -> shape a = [p; q; r] -> wf (rev_axes a).
Proof.
  intros Hwf Hs. unfold wf, size, rev_axes in *. rewrite Hs in *.
  cbn [shape buf]. unfold prod_shape in *. simpl in *.
  assert (Hlen : forall X (l : list X), length l = (p * (q * (r * 1)))%nat ->
            length (take_idx (tab3 r q p (fun k j i => ((i * q + j) * r + k)%nat)) l)
            = (r * (q * (p * 1)))%nat).
  { intros X l Hl. rewrite length_take_idx, length_tab3; [lia|].
    apply Forall_tab3. intros k' j' i' Hk' Hj' Hi'. rewrite Hl.
    assert (H1 : (i' * q + j' + 1 <= p * q)%nat) by nia.
    apply (Nat.mul_le_mono_r _ _ r) in H1. lia. }
  destruct (buf a); simpl in *; by apply Hlen.
Qed.

Lemma E_3DS_write_inv `{!Platform} m fn rmin rmax nr zmin zmax nz
    phimin phimax nphi er ephi ez desc (fs fs' : fsys) gname :
  E_3DS.write_hdf5 m fn rmin rmax nr zmin zmax nz phimin phimax nphi
    er ephi ez desc fs = (Ok gname, fs') ->
  gname = "E_3DS_" +:+ m_qid m
  /\ (Z.of_nat <$> shape er = [nr; nphi; nz]
      /\ Z.of_nat <$> shape ephi = [nr; nphi; nz]
      /\ Z.of_nat <$> shape ez = [nr; nphi; nz])
  /\ group_at fs' {| h_fn := fn; h_parent := "efield"; h_name := gname |}
     = Some (E_3DS_group m desc rmin rmax nr zmin zmax nz phimin phimax nphi
               (rev_axes er) (rev_axes ephi) (rev_axes ez)).
Proof.
  intros Hrun.
  destruct (E_3DS_write_cases m fn rmin rmax nr zmin zmax nz phimin phimax
              nphi er ephi ez desc fs _ fs' Hrun)
    as [([= ->] & Hsh & _ & Hg)|(e & [=] & _)].
  done.
Qed.

(** The field datasets of the group [E_3DS.write_hdf5] leaves. *)
Lemma E_3DS_group_field `{!Platform} m desc rmin rmax nr zmin zmax nz
    phimin phimax nphi er ephi ez nm a :
  (nm, a) ∈ [("er", er); ("ephi", ephi); ("ez", ez)] ->
  gdatasets (E_3DS_group m desc rmin rmax nr zmin zmax nz phimin phimax nphi
               er ephi ez) !! nm
  = Some {| dvalue := stored_as [nz; nphi; nr] (astype F8 a); dattrs := ∅ |}.
Proof.
  intros Hin. unfold E_3DS_group.
  cbn [with_datasets foldl add_dataset new_group gdatasets asarray].
  repeat (apply elem_of_cons in Hin as [[= -> ->]|Hin];
          [rewrite ?lookup_insert_ne by done; apply lookup_insert_eq|]).
  by apply elem_of_nil in Hin.
Qed.

Section E_3DS_layout.
Context `{!Platform}.

(** X2.  On disk the field has its axes reversed.  After a successful
    [E_3DS.write_hdf5] each of the datasets er, ephi, ez is a float64
    dataset of shape (nz,nphi,nr), and its element (k,j,i) is element
    (i,j,k) of the array passed in, converted to float64. *)
Theorem E_3DS_stored_layout m fn rmin rmax nr zmin zmax nz
    phimin phimax nphi er ephi ez desc (fs fs' : fsys) gname nm a :
  E_3DS.write_hdf5 m fn rmin rmax nr zmin zmax nz phimin phimax nphi
    er ephi ez desc fs = (Ok gname, fs') ->
  (nm, a) ∈ [("er", er); ("ephi", ephi); ("ez", ez)] ->
  wf a ->
  let p := Z.to_nat nr in
  let q := Z.to_nat nphi in
  let r := Z.to_nat nz in
  exists ds,
    dataset_at fs' {| h_fn := fn; h_parent := "efield"; h_name := gname |} nm
    = Some ds
    /\ shape (dvalue ds) = [r; q; p]
    /\ dtype_of (dvalue ds) = F8
    /\ forall i j k, (i < p)%nat -> (j < q)%nat -> (k < r)%nat ->
         item (dvalue ds) (pos3 q p k j i) = as_f8 <$> item a (pos3 q r i j k).
Proof.
  intros Hrun Hin Hwf p q r.
  apply E_3DS_write_inv in Hrun as (-> & (He & Hp & Hz) & Hg).
  assert (Hs : shape a = [p; q; r]).
  { repeat (apply elem_of_cons in Hin as [[= -> ->]|Hin];
            [by eapply shape3_of_tuple|]).
    by apply elem_of_nil in Hin. }
  eexists. split.
  { unfold dataset_at. rewrite Hg. cbn [mbind option_bind].
    apply (E_3DS_group_field _ _ _ _ _ _ _ _ _ _ _ _ _ _ nm (rev_axes a)).
    repeat (apply elem_of_cons in Hin as [[= -> ->]|Hin];
            [set_solver|]).
    by apply elem_of_nil in Hin. }
  unfold stored_as, astype. cbn [dvalue shape buf fmap list_fmap].
  split; [done|]. split; [apply dtype_astype|].
  intros i j k Hi Hj Hk. unfold item at 1. cbn [buf].
  rewrite buf_scalars_astype_f8, list_lookup_fmap. f_equal.
  by apply rev_axes_item.
Qed.
End E_3DS_layout.

Lemma E_3DS_group_scalar `{!Platform} m desc rmin rmax nr zmin zmax nz
    phimin phimax nphi er ephi ez nm v d :
  (nm, v, d) ∈ [("rmin", rmin, F8); ("rmax", rmax, F8); ("nr", SI nr, I4);
                ("phimin", phimin, F8); ("phimax", phimax, F8);
                ("nphi", SI nphi, I4); ("zmin", zmin, F8); ("zmax", zmax, F8);
                ("nz", SI nz, I4)] ->
  gdatasets (E_3DS_group m desc rmin rmax nr zmin zmax nz phimin phimax nphi
               er ephi ez) !! nm
  = Some {| dvalue := stored_as [1] (scalar_array d v); dattrs := ∅ |}.
Proof.
  intros Hin. unfold E_3DS_group.
  cbn [with_datasets foldl add_dataset new_group gdatasets asarray default].
  repeat (apply elem_of_cons in Hin as [[= -> -> ->]|Hin];
          [rewrite ?lookup_insert_ne by done; apply lookup_insert_eq|]).
  by apply elem_of_nil in Hin.
Qed.

Lemma E_3DS_group_sliceable `{!Platform} m desc rmin rmax nr zmin zmax nz
    phimin phimax nphi er ephi ez :
  map_Forall (fun _ d => shape (dvalue d) <> [])
    (gdatasets (E_3DS_group m desc rmin rmax nr zmin zmax nz phimin phimax nphi
                  er ephi ez)).
Proof.
  unfold E_3DS_group.
  cbn [with_datasets foldl add_dataset new_group gdatasets].
  repeat (apply map_Forall_insert_2; [done|]). apply map_Forall_empty.
Qed.

Lemma to_int_in_range `{!Platform} d z :
  int_min d <= z <= int_max d -> to_int d (SI z) = z.
Proof.
  intros Hz. unfold to_int, in_range.
  replace (int_min d <=? z) with true by (symmetry; apply Z.leb_le; lia).
  by replace (z <=? int_max d) with true by (symmetry; apply Z.leb_le; lia).
Qed.

Ltac pick_elem :=
  repeat first [apply list_elem_of_here | apply list_elem_of_further].

Section E_3DS_grid.
Context `{!Platform}.

(** X1.  After a successful [E_3DS.write_hdf5], [E_3DS.read_hdf5] with the
    QID of the new group succeeds and returns the grid as one-element
    arrays: rmin, rmax, phimin, phimax, zmin and zmax as float64, nr, nphi
    and nz as int32 (the counts themselves, when they fit int32).  The
    dictionary has exactly the twelve keys of the datasets written. *)
Theorem E_3DS_write_read_grid m fn rmin rmax nr zmin zmax nz
    phimin phimax nphi er ephi ez desc (fs fs' : fsys) gname :
  E_3DS.write_hdf5 m fn rmin rmax nr zmin zmax nz phimin phimax nphi
    er ephi ez desc fs = (Ok gname, fs') ->
  nr <= int_max I4 -> nphi <= int_max I4 -> nz <= int_max I4 ->
  exists out,
    E_3DS.read_hdf5 fn (m_qid m) fs' = (Ok out, fs')
    /\ (out !! "rmin" = Some (one_f8 rmin) /\ out !! "rmax" = Some (one_f8 rmax)
        /\ out !! "phimin" = Some (one_f8 phimin)
        /\ out !! "phimax" = Some (one_f8 phimax)
        /\ out !! "zmin" = Some (one_f8 zmin) /\ out !! "zmax" = Some (one_f8 zmax))
    /\ (out !! "nr" = Some (one_i4 nr) /\ out !! "nphi" = Some (one_i4 nphi)
        /\ out !! "nz" = Some (one_i4 nz))
    /\ forall k, is_Some (out !! k)
         <-> k ∈ ["rmin"; "rmax"; "nr"; "phimin"; "phimax"; "nphi";
                  "zmin"; "zmax"; "nz"; "er"; "ephi"; "ez"].
Proof.
  intros Hrun Hnr Hnphi Hnz.
  apply E_3DS_write_inv in Hrun as (-> & (He & Hp & Hz) & Hg).
  pose proof (shape3_of_tuple _ _ _ _ He) as (_ & Hnr0 & Hnphi0 & Hnz0).
  apply group_at_file in Hg as (f & Hf & HG). cbn [h_fn h_parent h_name] in *.
  set (G := E_3DS_group _ _ _ _ _ _ _ _ _ _ _ _ _ _) in HG.
  assert (Hfield : forall nm a,
            (nm, a) ∈ [("er", rev_axes er); ("ephi", rev_axes ephi);
                       ("ez", rev_axes ez)] ->
            dvalue <$> gdatasets G !! nm
            = Some (stored_as [nz; nphi; nr] (astype F8 a))).
  { intros nm a Hin. subst G. by rewrite (E_3DS_group_field _ _ _ _ _ _ _ _ _ _ _ _ _ _ nm a). }
  eexists. split.
  { apply (E_3DS_read_ok fs' fn (m_qid m) f G
             (stored_as [nz; nphi; nr] (astype F8 (rev_axes er)))
             (stored_as [nz; nphi; nr] (astype F8 (rev_axes ephi)))
             (stored_as [nz; nphi; nr] (astype F8 (rev_axes ez))));
      [exact Hf|exact HG| | | | | | |].
    - apply E_3DS_group_sliceable.
    - apply Hfield. set_solver.
    - apply Hfield. set_solver.
    - apply Hfield. set_solver.
    - done.
    - done.
    - done. }
  assert (Hsc : forall nm v d,
            (nm, v, d) ∈ [("rmin", rmin, F8); ("rmax", rmax, F8); ("nr", SI nr, I4);
                          ("phimin", phimin, F8); ("phimax", phimax, F8);
                          ("nphi", SI nphi, I4); ("zmin", zmin, F8);
                          ("zmax", zmax, F8); ("nz", SI nz, I4)] ->
            forall x y z : ndarray,
            <["ez" := z]> (<["ephi" := y]> (<["er" := x]> (dvalue <$> gdatasets G)))
              !! nm
            = Some (stored_as [1] (scalar_array d v))).
  { intros nm v d Hin x y z.
    assert (Hne : nm <> "er" /\ nm <> "ephi" /\ nm <> "ez").
    { repeat (apply elem_of_cons in Hin as [[= -> -> ->]|Hin]; [done|]).
      by apply elem_of_nil in Hin. }
    destruct Hne as (? & ? & ?). rewrite !lookup_insert_ne by done.
    rewrite lookup_fmap. subst G.
    by rewrite (E_3DS_group_scalar _ _ _ _ _ _ _ _ _ _ _ _ _ _ nm v d Hin). }
  split; [|split].
  - repeat split; (etrans; [apply Hsc; pick_elem|done]).
  - unfold int_max in *.
    repeat split; (etrans; [apply Hsc; pick_elem|]);
      unfold stored_as, scalar_array, one_i4; cbn [shape buf fmap list_fmap];
      do 4 f_equal; apply to_int_in_range; unfold int_min, int_max; lia.
  - intros k. rewrite !lookup_insert_is_Some', lookup_fmap, fmap_is_Some.
    subst G. unfold E_3DS_group. rewrite with_datasets_keys.
    cbn [fmap list_fmap fst new_group gdatasets].
    rewrite lookup_empty, !elem_of_cons, elem_of_nil.
    pose proof (@is_Some_None dataset) as HN. intuition auto.
Qed.
End E_3DS_grid.

(** X3.  [E_3DS.read_hdf5] on any group whose datasets can be sliced and
    whose er, ephi, ez are 3-D: a field dataset stored with shape (r,q,p)
    comes back with shape (p,q,r), in the dtype it has on disk, and element
    (i,j,k) of the result is element (k,j,i) of the dataset; every other
    dataset of the group comes back as stored, whatever its name. *)
Theorem E_3DS_read_axes fn qid (fs : fsys) G er ephi ez :
  group_at fs {| h_fn := fn; h_parent := "efield";
                 h_name := "E_3DS_" +:+ qid |} = Some G ->
  map_Forall (fun _ d => shape (dvalue d) <> []) (gdatasets G) ->
  dvalue <$> gdatasets G !! "er" = Some er ->
  dvalue <$> gdatasets G !! "ephi" = Some ephi ->
  dvalue <$> gdatasets G !! "ez" = Some ez ->
  Forall (fun a => length (shape a) = 3%nat) [er; ephi; ez] ->
  exists out,
    E_3DS.read_hdf5 fn qid fs = (Ok out, fs)
    /\ (forall nm stored r q p,
          (nm, stored) ∈ [("er", er); ("ephi", ephi); ("ez", ez)] ->
          shape stored = [r; q; p] ->
          exists a,
            out !! nm = Some a
            /\ shape a = [p; q; r]
            /\ dtype_of a = dtype_of stored
            /\ (wf stored ->
                forall i j k, (i < p)%nat -> (j < q)%nat -> (k < r)%nat ->
                  item a (pos3 q r i j k) = item stored (pos3 q p k j i)))
    /\ (forall k, k ∉ ["er"; "ephi"; "ez"] ->
          out !! k = dvalue <$> gdatasets G !! k).
Proof.
  intros (f & Hf & HG)%group_at_file Hall Her Hephi Hez Hdim.
  cbn [h_fn h_parent h_name] in *.
  rewrite !Forall_cons in Hdim. destruct Hdim as (Hd1 & Hd2 & Hd3 & _).
  eexists. split; [by apply (E_3DS_read_ok fs fn qid f G er ephi ez)|].
  split.
  - intros nm stored r q p Hin Hs. exists (rev_axes stored).
    split.
    { repeat (apply elem_of_cons in Hin as [[= -> ->]|Hin];
              [rewrite ?lookup_insert_ne by done; apply lookup_insert_eq|]).
      by apply elem_of_nil in Hin. }
    split; [by apply rev_axes_shape|].
    split.
    { unfold rev_axes. rewrite Hs. unfold dtype_of. cbn [buf].
      by destruct (buf stored). }
    intros Hwf i j k Hi Hj Hk. by apply (rev_axes_item stored r q p k j i).
  - intros k Hk. rewrite !not_elem_of_cons in Hk. destruct Hk as (? & ? & ? & _).
    rewrite !lookup_insert_ne by done. by rewrite lookup_fmap.
Qed.

(** What [E_3DS.read_hdf5] returns depends on the group only. *)
Lemma E_3DS_read_of_group fn qid (fs1 fs2 : fsys) G :
  let h := {| h_fn := fn; h_parent := "efield"; h_name := "E_3DS_" +:+ qid |} in
  group_at fs1 h = Some G -> group_at fs2 h = Some G ->
  E_3DS.read_hdf5 fn qid fs2 = ((E_3DS.read_hdf5 fn qid fs1).1, fs2).
Proof.
  intros h H1 H2. subst h.
  apply group_at_file in H1 as (f1 & Hf1 & HG1).
  apply group_at_file in H2 as (f2 & Hf2 & HG2).
  cbn [h_fn h_parent h_name] in *. unfold E_3DS.read_hdf5.
  rewrite (io_bind_ok _ _ _ _ _ (File_r_ok _ _ _ Hf1)).
  rewrite (io_bind_ok _ _ _ _ _ (File_r_ok _ _ _ Hf2)).
  unfold getpath. rewrite E_3DS_path, HG1, HG2. cbn [rbind].
  rewrite !io_bind_run. unfold lift at 1 5.
  destruct (read_datasets G) as [out|e]; [|done].
  rewrite !io_bind_run. unfold lift at 1 4.
  destruct (let* a := getitem out "er" in transpose a [2; 1; 0]%nat) as [x|e];
    [|done].
  rewrite !io_bind_run. unfold lift at 1 3.
  destruct (let* a := getitem (<["er" := x]> out) "ephi" in
            transpose a [2; 1; 0]%nat) as [y|e]; [|done].
  rewrite !io_bind_run. unfold lift.
  by destruct (let* a := getitem (<["ephi" := y]> (<["er" := x]> out)) "ez" in
               transpose a [2; 1; 0]%nat) as [z|e].
Qed.

Section Immutable.
Context `{!Platform} `{!FloatParser}.

(** X6.  A stored field is not affected by later writes.  For a group
    "efield/E_3DS_<qid>" that is in the file, [E_3DS.read_hdf5] returns the
    same, value or error, after any later call of [E_3DS.write_hdf5] or
    [mrk_prt.write_hdf5] on any file with any arguments, and after any
    later call of [options.write_hdf5] with a dictionary whose keys have
    no "/" (a key with "/" is a path and can lead into another group),
    however that call ends (a write that generates the same QID again
    raises and changes nothing). *)
Theorem E_3DS_read_after_writes fn qid (fs : fsys) G :
  group_at fs {| h_fn := fn; h_parent := "efield";
                 h_name := "E_3DS_" +:+ qid |} = Some G ->
  (forall m fn2 rmin rmax nr zmin zmax nz phimin phimax nphi er ephi ez desc
          r fs',
     E_3DS.write_hdf5 m fn2 rmin rmax nr zmin zmax nz phimin phimax nphi
       er ephi ez desc fs = (r, fs') ->
     E_3DS.read_hdf5 fn qid fs' = ((E_3DS.read_hdf5 fn qid fs).1, fs'))
  /\ (forall m fn2 n ids mass charge r phi z vr vphi vz anum znum weight time
             desc res fs',
        mrk_prt.write_hdf5 m fn2 n ids mass charge r phi z vr vphi vz anum
          znum weight time desc fs = (res, fs') ->
        E_3DS.read_hdf5 fn qid fs' = ((E_3DS.read_hdf5 fn qid fs).1, fs'))
  /\ (forall m fn2 opts desc r fs',
        (forall k v, (k, v) ∈ opts -> has_slash k = false) ->
        options.write_hdf5 m fn2 opts desc fs = (r, fs') ->
        E_3DS.read_hdf5 fn qid fs' = ((E_3DS.read_hdf5 fn qid fs).1, fs')).
Proof.
  intros HG. split; [|split].
  - intros m fn2 rmin rmax nr zmin zmax nz phimin phimax nphi er ephi ez desc
      r fs' Hrun.
    apply (E_3DS_read_of_group fn qid fs fs' G HG).
    destruct (E_3DS_write_cases _ _ _ _ _ _ _ _ _ _ _ _ _ _ _ _ _ _ Hrun)
      as [(_ & _ & Hnew & _)|(e & _ & ->)]; [|done].
    rewrite (proj1 (E_3DS_write_frame _ _ _ _ _ _ _ _ _ _ _ _ _ _ _ _ _ _ Hrun));
      [done|].
    intros Heq. rewrite <- Heq in Hnew. congruence.
  - intros m fn2 n ids mass charge r phi z vr vphi vz anum znum weight time
      desc res fs' Hrun.
    apply (E_3DS_read_of_group fn qid fs fs' G HG).
    by rewrite (proj1 (mrk_prt_write_frame _ _ _ _ _ _ _ _ _ _ _ _ _ _ _ _ _
                         _ _ _ Hrun)).
  - intros m fn2 opts desc r fs' _ Hrun.
    apply (E_3DS_read_of_group fn qid fs fs' G HG).
    by rewrite (proj1 (options_write_group_frame _ _ _ _ _ _ _ Hrun)).
Qed.
End Immutable.

Section WritePitch.
Context `{!Platform}.

(** The float datasets of a written marker group, as [read_data] gives them. *)
Lemma mrk_prt_group_read m desc n
    ids mass charge r phi z vr vphi vz anum znum weight time nm a :
  (nm, a) ∈ [("r", r); ("phi", phi); ("z", z); ("vr", vr); ("vphi", vphi);
             ("vz", vz); ("mass", mass)] ->
  mrk_prt.read_data
    (mrk_prt_group m desc n ids mass charge r phi z vr vphi vz anum znum
       weight time) nm
  = Ok (stored_as [n; 1] (astype F8 a)).
Proof.
  intros Hin. unfold mrk_prt.read_data, getitem.
  assert (Hds : exists u,
    gdatasets (mrk_prt_group m desc n ids mass charge r phi z vr vphi vz anum
                 znum weight time) !! nm
    = Some {| dvalue := stored_as [n; 1] (astype F8 a);
              dattrs := <["unit" := u]> ∅ |}).
  { repeat (apply elem_of_cons in Hin as [[= -> ->]|Hin];
            [eexists; mrk_prt_lookup|]).
    by apply elem_of_nil in Hin. }
  destruct Hds as [u ->]. reflexivity.
Qed.

(** X9.  Markers written by [mrk_prt.write_hdf5] can be evaluated.  When
    the velocities passed in are float64 arrays and the field evaluation
    gives float64 arrays of shape (n,1) at the stored positions,
    [eval_pitch] on the new group returns an array of shape (n,1) whose
    entry for marker i is
    (vr_i*br_i + vz_i*bz_i + vphi_i*bphi_i) / (|B_i| * |v_i|),
    computed in binary64 from the velocities as they were passed in. *)
Theorem mrk_prt_write_eval_pitch
    (ev : ndarray -> ndarray -> ndarray -> scalar -> string -> result ndarray)
    m fn n ids mass charge r phi z vr vphi vz anum znum weight time desc
    (fs fs' : fsys) gname lvr lvphi lvz br bz bphi :
  let N := Z.to_nat n in
  let col a := stored_as [n; 1] (astype F8 a) in
  mrk_prt.write_hdf5 m fn n ids mass charge r phi z vr vphi vz anum znum
    weight time desc fs = (Ok gname, fs') ->
  wf vr -> wf vphi -> wf vz ->
  buf vr = BufF8 lvr -> buf vphi = BufF8 lvphi -> buf vz = BufF8 lvz ->
  ev (col r) (col phi) (col z) (SI 0) "br" = Ok (f8 [N; 1%nat] br) ->
  ev (col r) (col phi) (col z) (SI 0) "bz" = Ok (f8 [N; 1%nat] bz) ->
  ev (col r) (col phi) (col z) (SI 0) "bphi" = Ok (f8 [N; 1%nat] bphi) ->
  length br = N -> length bz = N -> length bphi = N ->
  exists l,
    mrk_prt.eval_pitch ev
      {| h_fn := fn; h_parent := "marker"; h_name := gname |} fs'
    = (Ok (f8 [N; 1%nat] l), fs')
    /\ length l = N
    /\ forall i a b c d e f,
         lvr !! i = Some a -> lvz !! i = Some b -> lvphi !! i = Some c ->
         br !! i = Some d -> bz !! i = Some e -> bphi !! i = Some f ->
         l !! i = Some (pitch1 a b c d e f).
Proof.
  intros N col Hrun Hwr Hwp Hwz Hbr Hbp Hbz Hebr Hebz Hebphi Hlr Hlz Hlp.
  destruct (mrk_prt_write_cases _ _ _ _ _ _ _ _ _ _ _ _ _ _ _ _ _ _ _ _ Hrun)
    as [([= ->] & Hall & _ & Hg)|(e & [=] & _)].
  rewrite !Forall_cons in Hall. destruct_and!.
  assert (Hcol : forall a l, wf a -> buf a = BufF8 l -> Z.of_nat (size a) = n ->
            col a = f8 [N; 1%nat] l /\ length l = prod_shape [N; 1%nat]).
  { intros a l Hwf Hb Hsz. subst col N. unfold stored_as, astype, f8.
    cbn [shape buf fmap list_fmap]. rewrite Hb. split; [done|].
    unfold wf in Hwf. rewrite Hb in Hwf. cbn [buf_len] in Hwf.
    unfold prod_shape. simpl. lia. }
  destruct (Hcol vr lvr) as [Hcr Hlen_r]; [done..|].
  destruct (Hcol vphi lvphi) as [Hcp Hlen_p]; [done..|].
  destruct (Hcol vz lvz) as [Hcz Hlen_z]; [done..|].
  assert (HN : prod_shape [N; 1%nat] = N) by (unfold prod_shape; simpl; lia).
  destruct (pitch_formula_f8 [N; 1%nat] lvr lvz lvphi br bz bphi)
    as (l & Hl & Hlen & Hpt).
  { repeat constructor; lia. }
  exists l. split; [|split; [lia|done]].
  rewrite (eval_pitch_reads ev _ fs' _ (col r) (col z) (col phi)
             (f8 [N; 1%nat] lvr) (f8 [N; 1%nat] lvz) (f8 [N; 1%nat] lvphi)
             (col mass) (enter_ok _ _ _ Hg)).
  - rewrite Hebr, Hebz, Hebphi. cbn [rbind]. by rewrite Hl.
  - apply mrk_prt_group_read. pick_elem.
  - apply mrk_prt_group_read. pick_elem.
  - apply mrk_prt_group_read. pick_elem.
  - rewrite <- Hcr. apply mrk_prt_group_read. pick_elem.
  - rewrite <- Hcz. apply mrk_prt_group_read. pick_elem.
  - rewrite <- Hcp. apply mrk_prt_group_read. pick_elem.
  - apply mrk_prt_group_read. pick_elem.
Qed.
End WritePitch.

Lemma transpose_not_3d a :
  length (shape a) <> 3%nat ->
  transpose a [2; 1; 0]%nat = Raise (ValueError "axes don't match array").
Proof.
  intros Hn. unfold transpose, is_perm_of_range.
  rewrite bool_decide_false; [done|]. simpl. lia.
Qed.

Lemma transpose_3d a :
  length (shape a) = 3%nat -> transpose a [2; 1; 0]%nat = Ok (rev_axes a).
Proof.
  intros Ha. destruct (shape a) as [|p [|q [|r [|]]]] eqn:E; try done.
  by apply transpose_rev_axes with p q r.
Qed.

(** X4.  [E_3DS.read_hdf5] needs all three field datasets.  For a group
    whose datasets can be sliced: if er, ephi or ez is missing from the
    group, or is there with a number of axes other than three, the call
    raises (a [KeyError] for a missing dataset or the
    [ValueError] of [np.transpose]), returns no partial dictionary and
    leaves the files as they were. *)
Theorem E_3DS_read_bad_field fn qid (fs : fsys) G nm :
  group_at fs {| h_fn := fn; h_parent := "efield";
                 h_name := "E_3DS_" +:+ qid |} = Some G ->
  map_Forall (fun _ d => shape (dvalue d) <> []) (gdatasets G) ->
  nm ∈ ["er"; "ephi"; "ez"] ->
  (forall ds, gdatasets G !! nm = Some ds -> length (shape (dvalue ds)) <> 3%nat) ->
  exists e,
    E_3DS.read_hdf5 fn qid fs = (Raise e, fs)
    /\ ((exists k, e = KeyError k /\ gdatasets G !! k = None)
        \/ e = ValueError "axes don't match array").
Proof.
  intros (f & Hf & HG)%group_at_file Hall Hnm Hbad.
  cbn [h_fn h_parent h_name] in *. unfold E_3DS.read_hdf5.
  rewrite (io_bind_ok _ _ _ _ _ (File_r_ok _ _ _ Hf)).
  unfold getpath. rewrite E_3DS_path, HG. cbn [rbind].
  unfold read_datasets. rewrite bool_decide_true by done.
  rewrite (io_bind_ok _ _ _ _ _ (lift_run _ _)).
  assert (Hfield : forall k (out : gmap string ndarray),
            out !! k = dvalue <$> gdatasets G !! k ->
            (exists a, (let* a := getitem out k in transpose a [2; 1; 0]%nat) = Ok a
                       /\ k <> nm)
            \/ exists e,
                 (let* a := getitem out k in transpose a [2; 1; 0]%nat) = Raise e
                 /\ ((exists k, e = KeyError k /\ gdatasets G !! k = None)
                     \/ e = ValueError "axes don't match array")).
  { intros k out Hk. unfold getitem. rewrite Hk.
    destruct (gdatasets G !! k) as [ds|] eqn:Hds; cbn [fmap option_fmap option_map rbind].
    - destruct (decide (length (shape (dvalue ds)) = 3%nat)) as [H3|H3].
      + left. rewrite (transpose_3d _ H3). eexists. split; [done|].
        intros ->. by apply (Hbad ds).
      + right. rewrite (transpose_not_3d _ H3). eauto.
    - right. eexists. split; [done|]. left; eauto. }
  destruct (Hfield "er" (dvalue <$> gdatasets G)) as [(x & Hx & Hne1)|(e & He & Hcl)];
    [by rewrite lookup_fmap| |].
  2: { exists e. split; [|done]. rewrite He.
       by rewrite (io_bind_raise _ _ _ e fs). }
  rewrite Hx. rewrite (io_bind_ok _ _ _ _ _ (lift_run _ _)).
  destruct (Hfield "ephi" (<["er" := x]> (dvalue <$> gdatasets G)))
    as [(y & Hy & Hne2)|(e & He & Hcl)];
    [by rewrite lookup_insert_ne, lookup_fmap| |].
  2: { exists e. split; [|done]. rewrite He.
       by rewrite (io_bind_raise _ _ _ e fs). }
  rewrite Hy. rewrite (io_bind_ok _ _ _ _ _ (lift_run _ _)).
  destruct (Hfield "ez" (<["ephi" := y]> (<["er" := x]> (dvalue <$> gdatasets G))))
    as [(z & Hz & Hne3)|(e & He & Hcl)];
    [by rewrite !lookup_insert_ne, lookup_fmap| |].
  2: { exists e. split; [|done]. rewrite He.
       by rewrite (io_bind_raise _ _ _ e fs). }
  exfalso.
  repeat (apply elem_of_cons in Hnm as [->|Hnm]; [done|]).
  by apply elem_of_nil in Hnm.
Qed.

(** ** erad: grids that are not increasing, and errors *)



Section read_erad_more.
Context `{!FloatParser} `{!erad.Resampler}.



End read_erad_more.

(** ** The further theorems at concrete inputs *)

Lemma E_3DS_write_read_grid_witness :
  let one := SF Sample.f64_one in
  let w := @E_3DS.write_hdf5 indefinite_platform Sample.meta0 "in.h5"
             one one 2 one one 3 one one 1
             Sample.field Sample.field Sample.field None ∅ in
  w = (Ok "E_3DS_0000000001", w.2)
  /\ exists out,
       E_3DS.read_hdf5 "in.h5" "0000000001" w.2 = (Ok out, w.2)
       /\ out !! "rmin" = Some (one_f8 one)
       /\ out !! "nr" = Some (one_i4 2)
       /\ out !! "nphi" = Some (one_i4 1)
       /\ out !! "nz" = Some (one_i4 3).
Proof.
  cbv zeta.
  assert (Hw : @E_3DS.write_hdf5 indefinite_platform Sample.meta0 "in.h5"
                 (SF Sample.f64_one) (SF Sample.f64_one) 2
                 (SF Sample.f64_one) (SF Sample.f64_one) 3
                 (SF Sample.f64_one) (SF Sample.f64_one) 1
                 Sample.field Sample.field Sample.field None ∅
               = (Ok "E_3DS_0000000001",
                  (@E_3DS.write_hdf5 indefinite_platform Sample.meta0 "in.h5"
                     (SF Sample.f64_one) (SF Sample.f64_one) 2
                     (SF Sample.f64_one) (SF Sample.f64_one) 3
                     (SF Sample.f64_one) (SF Sample.f64_one) 1
                     Sample.field Sample.field Sample.field None ∅).2)).
  { vm_compute. reflexivity. }
  split; [exact Hw|].
  destruct (@E_3DS_write_read_grid indefinite_platform _ _ _ _ _ _ _ _ _ _ _
              _ _ _ _ _ _ _ Hw)
    as (out & Hr & (Hrmin & _) & (Hnr & Hnphi & Hnz) & _);
    [unfold int_max; lia..|].
  exists out. by repeat split.
Defined.

Lemma E_3DS_stored_layout_witness :
  let one := SF Sample.f64_one in
  let w := @E_3DS.write_hdf5 indefinite_platform Sample.meta0 "in.h5"
             one one 2 one one 3 one one 1
             Sample.field Sample.field Sample.field None ∅ in
  (w = (Ok "E_3DS_0000000001", w.2) /\ wf Sample.field)
  /\ exists ds,
       dataset_at w.2 {| h_fn := "in.h5"; h_parent := "efield";
                         h_name := "E_3DS_0000000001" |} "er" = Some ds
       /\ shape (dvalue ds) = [3; 1; 2]%nat
       /\ item (dvalue ds) (pos3 1 2 2 0 1) = Some (SF (f64_of_Z 5))
       /\ item Sample.field (pos3 1 3 1 0 2) = Some (SF (f64_of_Z 5)).
Proof.
  cbv zeta.
  assert (Hw : @E_3DS.write_hdf5 indefinite_platform Sample.meta0 "in.h5"
                 (SF Sample.f64_one) (SF Sample.f64_one) 2
                 (SF Sample.f64_one) (SF Sample.f64_one) 3
                 (SF Sample.f64_one) (SF Sample.f64_one) 1
                 Sample.field Sample.field Sample.field None ∅
               = (Ok "E_3DS_0000000001",
                  (@E_3DS.write_hdf5 indefinite_platform Sample.meta0 "in.h5"
                     (SF Sample.f64_one) (SF Sample.f64_one) 2
                     (SF Sample.f64_one) (SF Sample.f64_one) 3
                     (SF Sample.f64_one) (SF Sample.f64_one) 1
                     Sample.field Sample.field Sample.field None ∅).2)).
  { vm_compute. reflexivity. }
  split; [split; [exact Hw|reflexivity]|].
  destruct (@E_3DS_stored_layout indefinite_platform _ _ _ _ _ _ _ _ _ _ _
              _ _ _ _ _ _ _ "er" Sample.field Hw)
    as (ds & Hds & Hsh & _ & Hitem); [apply list_elem_of_here|reflexivity|].
  exists ds. split; [exact Hds|]. split; [exact Hsh|].
  split; [|reflexivity].
  refine (eq_trans (Hitem 1%nat 0%nat 2%nat _ _ _) _);
    [simpl; lia..|vm_compute; reflexivity].
Defined.

Lemma E_3DS_read_axes_witness :
  let a := Cases.field_on_disk in
  (group_at Cases.field_files Cases.field_self = Some Cases.field_group
   /\ map_Forall (fun _ d => shape (dvalue d) <> [])
        (gdatasets Cases.field_group)
   /\ dvalue <$> gdatasets Cases.field_group !! "er" = Some a
   /\ wf a)
  /\ exists out b,
       E_3DS.read_hdf5 "in.h5" "0000000001" Cases.field_files
       = (Ok out, Cases.field_files)
       /\ out !! "er" = Some b
       /\ shape b = [2; 1; 3]%nat
       /\ item b (pos3 1 3 1 0 2) = item a (pos3 1 2 2 0 1)
       /\ out !! "nr" = dvalue <$> gdatasets Cases.field_group !! "nr".
Proof.
  cbv zeta.
  assert (Hg : group_at Cases.field_files Cases.field_self
               = Some Cases.field_group) by (vm_compute; reflexivity).
  assert (Hall : map_Forall (fun _ d => shape (dvalue d) <> [])
                   (gdatasets Cases.field_group)).
  { refine (bool_decide_unpack _ _). vm_compute. exact I. }
  assert (Her : dvalue <$> gdatasets Cases.field_group !! "er"
                = Some Cases.field_on_disk) by (vm_compute; reflexivity).
  assert (Hephi : dvalue <$> gdatasets Cases.field_group !! "ephi"
                  = Some Cases.field_on_disk) by (vm_compute; reflexivity).
  assert (Hez : dvalue <$> gdatasets Cases.field_group !! "ez"
                = Some Cases.field_on_disk) by (vm_compute; reflexivity).
  assert (Hwf : wf Cases.field_on_disk) by (vm_compute; reflexivity).
  split; [by repeat split|].
  destruct (E_3DS_read_axes "in.h5" "0000000001" Cases.field_files
              Cases.field_group Cases.field_on_disk Cases.field_on_disk
              Cases.field_on_disk Hg Hall Her Hephi Hez)
    as (out & Hr & Hfield & Hother).
  { repeat constructor. }
  destruct (Hfield "er" Cases.field_on_disk 3%nat 1%nat 2%nat)
    as (b & Hb & Hsh & _ & Hitem); [apply list_elem_of_here|reflexivity|].
  exists out, b. split; [exact Hr|]. split; [exact Hb|]. split; [exact Hsh|].
  split; [apply (Hitem Hwf); lia|].
  apply Hother. intros Hin.
  repeat (apply elem_of_cons in Hin as [Hin|Hin]; [discriminate Hin|]).
  by apply elem_of_nil in Hin.
Defined.

Lemma E_3DS_read_bad_field_witness :
  (group_at Cases.field_files_no_ez Cases.field_self
   = Some Cases.field_group_no_ez
   /\ gdatasets Cases.field_group_no_ez !! "ez" = None)
  /\ exists e,
       E_3DS.read_hdf5 "in.h5" "0000000001" Cases.field_files_no_ez
       = (Raise e, Cases.field_files_no_ez)
       /\ ((exists k, e = KeyError k
                      /\ gdatasets Cases.field_group_no_ez !! k = None)
           \/ e = ValueError "axes don't match array").
Proof.
  split; [split; reflexivity|].
  apply (E_3DS_read_bad_field "in.h5" "0000000001" Cases.field_files_no_ez
           Cases.field_group_no_ez "ez" eq_refl).
  - refine (bool_decide_unpack _ _). vm_compute. exact I.
  - do 2 apply list_elem_of_further. apply list_elem_of_here.
  - intros ds Hds. vm_compute in Hds. discriminate Hds.
Defined.

Lemma E_3DS_write_all_or_nothing_witness :
  let one := SF Sample.f64_one in
  let a := Sample.field in
  let h := {| h_fn := "in.h5"; h_parent := "efield";
              h_name := "E_3DS_0000000001" |} in
  let w := @E_3DS.write_hdf5 indefinite_platform Sample.meta0 "in.h5"
             one one 2 one one 3 one one 1 a a a None ∅ in
  (scalar_fits F8 one = true
   /\ Forall (fun n => scalar_fits I4 (SI n) = true) [2; 1; 3])
  /\ w.1 = Ok "E_3DS_0000000001"
  /\ group_at ∅ h = None
  /\ (exists G, group_at w.2 h = Some G
        /\ forall k, is_Some (gdatasets G !! k)
             <-> k ∈ ["rmin"; "rmax"; "nr"; "phimin"; "phimax"; "nphi";
                      "zmin"; "zmax"; "nz"; "er"; "ephi"; "ez"])
  /\ only_group_changed h ∅ w.2.
Proof.
  cbv zeta.
  split; [split; [reflexivity|by repeat constructor]|].
  assert (Hw : (@E_3DS.write_hdf5 indefinite_platform Sample.meta0 "in.h5"
                  (SF Sample.f64_one) (SF Sample.f64_one) 2
                  (SF Sample.f64_one) (SF Sample.f64_one) 3
                  (SF Sample.f64_one) (SF Sample.f64_one) 1
                  Sample.field Sample.field Sample.field None ∅).1
               = Ok "E_3DS_0000000001") by (vm_compute; reflexivity).
  split; [exact Hw|].
  destruct (@E_3DS_write_all_or_nothing indefinite_platform Sample.meta0 "in.h5"
              (SF Sample.f64_one) (SF Sample.f64_one) 2
              (SF Sample.f64_one) (SF Sample.f64_one) 3
              (SF Sample.f64_one) (SF Sample.f64_one) 1
              Sample.field Sample.field Sample.field None ∅ _ _
              ltac:(by repeat constructor) ltac:(by repeat constructor)
              (surjective_pairing _))
    as [(_ & Hnew & HG & Hframe)|(e & He & _)].
  - split; [exact Hnew|]. split; [exact HG|exact Hframe].
  - rewrite Hw in He. discriminate He.
Defined.

Lemma E_3DS_read_after_writes_witness :
  let a := Sample.two_floats in
  let i := Sample.two_ints in
  let one := SF Sample.f64_one in
  let m2 := {| m_qid := "0000000002"; m_date := "2020-01-02 00:00:00";
               m_defdesc := "No description." |} in
  let before := (E_3DS.read_hdf5 "in.h5" "0000000001" Cases.field_files).1 in
  let wm := @mrk_prt.write_hdf5 indefinite_platform Sample.meta0 "in.h5" 2
              i a i a a a a a a i i a a None Cases.field_files in
  let wo := @options.write_hdf5 indefinite_platform decimal_parser Sample.meta0
              "in.h5" Sample.options_text None Cases.field_files in
  let we := @E_3DS.write_hdf5 indefinite_platform m2 "in.h5"
              one one 2 one one 3 one one 1 Sample.field Sample.field
              Sample.field None Cases.field_files in
  (group_at Cases.field_files Cases.field_self = Some Cases.field_group
   /\ forall k v, (k, v) ∈ Sample.options_text -> has_slash k = false)
  /\ (wm.1 = Ok "prt_0000000001"
      /\ E_3DS.read_hdf5 "in.h5" "0000000001" wm.2 = (before, wm.2))
  /\ (wo.1 = Ok "/options/opt-0000000001"
      /\ E_3DS.read_hdf5 "in.h5" "0000000001" wo.2 = (before, wo.2))
  /\ (we.1 = Ok "E_3DS_0000000002"
      /\ E_3DS.read_hdf5 "in.h5" "0000000001" we.2 = (before, we.2)).
Proof.
  cbv zeta.
  assert (Hg : group_at Cases.field_files Cases.field_self
               = Some Cases.field_group) by (vm_compute; reflexivity).
  assert (Hkeys : forall k v, (k, v) ∈ Sample.options_text ->
            has_slash k = false).
  { intros k v Hin. unfold Sample.options_text in Hin.
    repeat (apply elem_of_cons in Hin as [[= -> ->]|Hin]; [reflexivity|]).
    by apply elem_of_nil in Hin. }
  split; [by split|].
  destruct (@E_3DS_read_after_writes indefinite_platform decimal_parser
              "in.h5" "0000000001" Cases.field_files Cases.field_group Hg)
    as (Hfield & Hmarker & Hoptions).
  split; [|split].
  - split; [vm_compute; reflexivity|].
    refine (Hmarker Sample.meta0 "in.h5" 2 _ _ _ _ _ _ _ _ _ _ _ _ _ None _ _ _).
    apply surjective_pairing.
  - split; [vm_compute; reflexivity|].
    refine (Hoptions Sample.meta0 "in.h5" Sample.options_text None _ _ Hkeys _).
    apply surjective_pairing.
  - split; [vm_compute; reflexivity|].
    refine (Hfield _ "in.h5" _ _ 2 _ _ 3 _ _ 1 _ _ _ None _ _ _).
    apply surjective_pairing.
Defined.

Lemma mrk_prt_write_all_or_nothing_witness :
  let a := Sample.two_floats in
  let i := Sample.two_ints in
  let h := {| h_fn := "in.h5"; h_parent := "marker";
              h_name := "prt_0000000001" |} in
  let w := @mrk_prt.write_hdf5 indefinite_platform Sample.meta0 "in.h5" 2
             i a i a a a a a a i i a a None Cases.field_files in
  w = (Ok "prt_0000000001", w.2)
  /\ group_at Cases.field_files h = None
  /\ is_Some (group_at w.2 h)
  /\ group_at w.2 Cases.field_self = Some Cases.field_group.
Proof.
  cbv zeta.
  assert (Hw : @mrk_prt.write_hdf5 indefinite_platform Sample.meta0 "in.h5" 2
                 Sample.two_ints Sample.two_floats Sample.two_ints
                 Sample.two_floats Sample.two_floats Sample.two_floats
                 Sample.two_floats Sample.two_floats Sample.two_floats
                 Sample.two_ints Sample.two_ints Sample.two_floats
                 Sample.two_floats None Cases.field_files
               = (Ok "prt_0000000001",
                  (@mrk_prt.write_hdf5 indefinite_platform Sample.meta0 "in.h5" 2
                     Sample.two_ints Sample.two_floats Sample.two_ints
                     Sample.two_floats Sample.two_floats Sample.two_floats
                     Sample.two_floats Sample.two_floats Sample.two_floats
                     Sample.two_ints Sample.two_ints Sample.two_floats
                     Sample.two_floats None Cases.field_files).2)).
  { vm_compute. reflexivity. }
  split; [exact Hw|].
  destruct (@mrk_prt_write_all_or_nothing indefinite_platform _ _ _ _ _ _ _ _
              _ _ _ _ _ _ _ _ _ _ _ _ Hw)
    as [(_ & Hnew & (G & HG & _) & Hframe)|(e & He & _)]; [|discriminate He].
  split; [exact Hnew|]. split; [by exists G|].
  rewrite (proj1 Hframe) by discriminate. vm_compute. reflexivity.
Defined.

Lemma mrk_prt_write_count_witness :
  let a := Sample.two_floats in
  let i := Sample.two_ints in
  let w := @mrk_prt.write_hdf5 indefinite_platform Sample.meta0 "in.h5" 2
             i a i a a a a a a i i a a None ∅ in
  (w = (Ok "prt_0000000001", w.2) /\ 2 <= int_max I8)
  /\ 2 = Z.of_nat (size i)
  /\ dataset_at w.2 {| h_fn := "in.h5"; h_parent := "marker";
                       h_name := "prt_0000000001" |} "n"
     = Some {| dvalue := {| shape := [1; 1]%nat; buf := BufI8 [2] |};
               dattrs := <["unit" := "1"]> ∅ |}.
Proof.
  cbv zeta.
  assert (Hw : @mrk_prt.write_hdf5 indefinite_platform Sample.meta0 "in.h5" 2
                 Sample.two_ints Sample.two_floats Sample.two_ints
                 Sample.two_floats Sample.two_floats Sample.two_floats
                 Sample.two_floats Sample.two_floats Sample.two_floats
                 Sample.two_ints Sample.two_ints Sample.two_floats
                 Sample.two_floats None ∅
               = (Ok "prt_0000000001",
                  (@mrk_prt.write_hdf5 indefinite_platform Sample.meta0 "in.h5" 2
                     Sample.two_ints Sample.two_floats Sample.two_ints
                     Sample.two_floats Sample.two_floats Sample.two_floats
                     Sample.two_floats Sample.two_floats Sample.two_floats
                     Sample.two_ints Sample.two_ints Sample.two_floats
                     Sample.two_floats None ∅).2)).
  { vm_compute. reflexivity. }
  assert (Hmax : 2 <= int_max I8) by (unfold int_max; lia).
  split; [by split|].
  exact (@mrk_prt_write_count indefinite_platform _ _ _ _ _ _ _ _ _ _ _ _ _ _
           _ _ _ _ _ _ Hw Hmax).
Defined.

Lemma mrk_prt_write_eval_pitch_witness :
  let a := Sample.two_floats in
  let i := Sample.two_ints in
  let vr := {| shape := [2%nat]; buf := Sample.floats [3; 0] |} in
  let vphi := {| shape := [2%nat]; buf := Sample.floats [0; 5] |} in
  let vz := {| shape := [2%nat]; buf := Sample.floats [4; 0] |} in
  let w := @mrk_prt.write_hdf5 indefinite_platform Sample.meta0 "in.h5" 2
             i a i a a a vr vphi vz i i a a None ∅ in
  w = (Ok "prt_0000000001", w.2)
  /\ exists l,
       mrk_prt.eval_pitch Sample.uniform_bz
         {| h_fn := "in.h5"; h_parent := "marker"; h_name := "prt_0000000001" |}
         w.2
       = (Ok (f8 [2; 1]%nat l), w.2)
       /\ l !! 0%nat
          = Some (pitch1 (f64_of_Z 3) (f64_of_Z 4) (f64_of_Z 0)
                         (f64_of_Z 0) (f64_of_Z 2) (f64_of_Z 0))
       /\ pitch1 (f64_of_Z 3) (f64_of_Z 4) (f64_of_Z 0)
                 (f64_of_Z 0) (f64_of_Z 2) (f64_of_Z 0)
          = f64_div (f64_of_Z 4) (f64_of_Z 5).
Proof.
  cbv zeta.
  set (vr := {| shape := [2%nat]; buf := Sample.floats [3; 0] |}).
  set (vphi := {| shape := [2%nat]; buf := Sample.floats [0; 5] |}).
  set (vz := {| shape := [2%nat]; buf := Sample.floats [4; 0] |}).
  assert (Hw : @mrk_prt.write_hdf5 indefinite_platform Sample.meta0 "in.h5" 2
                 Sample.two_ints Sample.two_floats Sample.two_ints
                 Sample.two_floats Sample.two_floats Sample.two_floats
                 vr vphi vz
                 Sample.two_ints Sample.two_ints Sample.two_floats
                 Sample.two_floats None ∅
               = (Ok "prt_0000000001",
                  (@mrk_prt.write_hdf5 indefinite_platform Sample.meta0 "in.h5" 2
                     Sample.two_ints Sample.two_floats Sample.two_ints
                     Sample.two_floats Sample.two_floats Sample.two_floats
                     vr vphi vz
                     Sample.two_ints Sample.two_ints Sample.two_floats
                     Sample.two_floats None ∅).2)).
  { vm_compute. reflexivity. }
  split; [exact Hw|].
  destruct (@mrk_prt_write_eval_pitch indefinite_platform Sample.uniform_bz
              _ _ _ _ _ _ _ _ _ _ _ _ _ _ _ _ _ _ _ _
              (f64_of_Z <$> [3; 0]) (f64_of_Z <$> [0; 5]) (f64_of_Z <$> [4; 0])
              (f64_of_Z <$> [0; 0]) (f64_of_Z <$> [2; 2]) (f64_of_Z <$> [0; 0])
              Hw)
    as (l & Hl & _ & Hpt); try (vm_compute; reflexivity).
  exists l. split; [exact Hl|]. split; [|vm_compute; reflexivity].
  apply Hpt; reflexivity.
Defined.

Lemma mrk_prt_eval_pitch_pointwise_witness :
  let col l := f8 [2; 1]%nat (f64_of_Z <$> l) in
  (mrk_prt.enter Sample.marker_self Sample.marker_files
   = (Ok Sample.marker_group, Sample.marker_files)
   /\ mrk_prt.read_data Sample.marker_group "vr" = Ok (col [3; 0])
   /\ Sample.uniform_bz (col [6; 7]) (col [0; 90]) (col [0; 1]) (SI 0) "bz"
      = Ok (col [2; 2]))
  /\ exists l,
       mrk_prt.eval_pitch Sample.uniform_bz Sample.marker_self Sample.marker_files
       = (Ok (f8 [2; 1]%nat l), Sample.marker_files)
       /\ length l = 2%nat
       /\ l !! 1%nat
          = Some (pitch1 (f64_of_Z 0) (f64_of_Z 0) (f64_of_Z 5)
                         (f64_of_Z 0) (f64_of_Z 2) (f64_of_Z 0)).
Proof.
  cbv zeta. split; [repeat split; vm_compute; reflexivity|].
  destruct (mrk_prt_eval_pitch_pointwise Sample.uniform_bz Sample.marker_self
              Sample.marker_files Sample.marker_group
              (f8 [2; 1]%nat (f64_of_Z <$> [6; 7]))
              (f8 [2; 1]%nat (f64_of_Z <$> [0; 1]))
              (f8 [2; 1]%nat (f64_of_Z <$> [0; 90]))
              (f8 [2; 1]%nat (f64_of_Z <$> [4; 4]))
              [2; 1]%nat
              (f64_of_Z <$> [3; 0]) (f64_of_Z <$> [4; 0]) (f64_of_Z <$> [0; 5])
              (f64_of_Z <$> [0; 0]) (f64_of_Z <$> [2; 2]) (f64_of_Z <$> [0; 0]))
    as (l & Hl & Hlen & Hpt); try (vm_compute; reflexivity).
  { repeat constructor. }
  exists l. split; [exact Hl|]. split; [exact Hlen|].
  apply Hpt; reflexivity.
Defined.

Lemma mrk_prt_eval_pitch_missing_dataset_witness :
  (mrk_prt.enter Sample.marker_self Cases.marker_files_no_mass
   = (Ok Cases.marker_group_no_mass, Cases.marker_files_no_mass)
   /\ gdatasets Cases.marker_group_no_mass !! "mass" = None)
  /\ exists e,
       ((exists k, e = KeyError k
                   /\ gdatasets Cases.marker_group_no_mass !! k = None)
        \/ (exists msg, e = ValueError msg))
       /\ forall ev,
            mrk_prt.eval_pitch ev Sample.marker_self Cases.marker_files_no_mass
            = (Raise e, Cases.marker_files_no_mass).
Proof.
  assert (Henter : mrk_prt.enter Sample.marker_self Cases.marker_files_no_mass
                   = (Ok Cases.marker_group_no_mass, Cases.marker_files_no_mass))
    by (vm_compute; reflexivity).
  assert (Hmiss : gdatasets Cases.marker_group_no_mass !! "mass" = None)
    by (vm_compute; reflexivity).
  split; [by split|].
  apply (mrk_prt_eval_pitch_missing_dataset Sample.marker_self
           Cases.marker_files_no_mass Cases.marker_group_no_mass "mass"
           Henter); [|exact Hmiss].
  do 6 apply list_elem_of_further. apply list_elem_of_here.
Defined.

Lemma mrk_prt_eval_energy_speed_witness :
  let col l := f8 [2; 1]%nat (f64_of_Z <$> l) in
  (mrk_prt.enter Sample.marker_self Sample.marker_files
   = (Ok Sample.marker_group, Sample.marker_files)
   /\ mrk_prt.read_data Sample.marker_group "vr" = Ok (col [3; 0])
   /\ mrk_prt.read_data Sample.marker_group "mass" = Ok (col [4; 4]))
  /\ exists v,
       mrk_prt.eval_energy Cases.mv2 Sample.marker_self Sample.marker_files
       = (Cases.mv2 (col [4; 4]) (f8 [2; 1]%nat v), Sample.marker_files)
       /\ v !! 0%nat = Some (len3 (f64_of_Z 3) (f64_of_Z 4) (f64_of_Z 0))
       /\ len3 (f64_of_Z 3) (f64_of_Z 4) (f64_of_Z 0) = f64_of_Z 5.
Proof.
  cbv zeta. split; [repeat split; vm_compute; reflexivity|].
  destruct (mrk_prt_eval_energy_speed Cases.mv2 Sample.marker_self
              Sample.marker_files Sample.marker_group [2; 1]%nat
              (f64_of_Z <$> [3; 0]) (f64_of_Z <$> [4; 0]) (f64_of_Z <$> [0; 5])
              (f8 [2; 1]%nat (f64_of_Z <$> [4; 4])))
    as (v & Hv & _ & Hpt);
    [first [vm_compute; reflexivity | repeat constructor]..|].
  exists v. split; [exact Hv|]. split; [|vm_compute; reflexivity].
  apply Hpt; reflexivity.
Defined.

Lemma options_write_not_atomic_witness :
  let h := {| h_fn := "in.h5"; h_parent := "options";
              h_name := "opt-0000000001" |} in
  (NoDup Cases.options_bad.*1
   /\ member_name "SIM_MODE" = true
   /\ plain_data (AScalar (SI 3)) = true
   /\ @float_of_string decimal_parser "soon" = None)
  /\ exists msg fs' G,
       @options.write_hdf5 indefinite_platform decimal_parser Sample.meta0
         "in.h5" Cases.options_bad None ∅
       = (Raise (ValueError msg), fs')
       /\ group_at fs' h = Some G
       /\ gdatasets G !! "SIM_MODE"
          = Some {| dvalue := {| shape := [1%nat]; buf := Sample.floats [3] |};
                    dattrs := ∅ |}
       /\ gdatasets G !! "ENDCOND_LIM" = None
       /\ gdatasets G !! "GRID" = None.
Proof.
  cbv zeta.
  assert (Hnd : NoDup Cases.options_bad.*1).
  { refine (bool_decide_unpack _ _). vm_compute. exact I. }
  assert (Hbad : @float_of_string decimal_parser "soon" = None)
    by (vm_compute; reflexivity).
  split; [split; [exact Hnd|]; split; [reflexivity|]; split;
          [reflexivity|exact Hbad]|].
  destruct (@options_write_not_atomic indefinite_platform decimal_parser
              Sample.meta0 "in.h5"
              [("SIM_MODE", options.PData (AScalar (SI 3)))]
              "ENDCOND_LIM" "soon"
              [("GRID", options.PData (AArray Sample.square))] None ∅ Hnd)
    as (msg & fs' & G & Hw & HG & Hpre & Hpost);
    [|reflexivity|exact Hbad|apply appendable_empty|reflexivity|].
  { intros k v Hin _. apply list_elem_of_singleton in Hin as [= -> ->].
    split; [reflexivity|]. eexists. by split. }
  exists msg, fs', G. split; [exact Hw|]. split; [exact HG|].
  split; [|split].
  - rewrite (Hpre "SIM_MODE" (AScalar (SI 3)));
      [vm_compute; reflexivity|apply list_elem_of_here|reflexivity].
  - apply (Hpost "ENDCOND_LIM" (options.PStr "soon")). apply list_elem_of_here.
  - apply (Hpost "GRID" (options.PData (AArray Sample.square))).
    apply list_elem_of_further, list_elem_of_here.
Defined.

Lemma options_read_keys_witness :
  (group_at Cases.options_files
     {| h_fn := "in.h5"; h_parent := "options"; h_name := "opt-0000000042" |}
   = Some Cases.options_group
   /\ gattrs Cases.options_group !! "date" = Some "2020-01-01 00:00:00"
   /\ gattrs Cases.options_group !! "description" = Some "test")
  /\ exists out,
       options.read_hdf5 "in.h5" "0000000042" Cases.options_files
       = (Ok out, Cases.options_files)
       /\ out !! "qid" = Some (options.PStr "0000000042")
       /\ out !! "description" = Some (options.PStr "test")
       /\ out !! "date" = Some (options.PData (AArray Sample.two_floats))
       /\ is_Some (out !! "SIM_MODE").
Proof.
  assert (Hg : group_at Cases.options_files
                 {| h_fn := "in.h5"; h_parent := "options";
                    h_name := "opt-0000000042" |}
               = Some Cases.options_group) by (vm_compute; reflexivity).
  assert (Hdate : gattrs Cases.options_group !! "date"
                  = Some "2020-01-01 00:00:00") by (vm_compute; reflexivity).
  assert (Hdescr : gattrs Cases.options_group !! "description" = Some "test")
    by (vm_compute; reflexivity).
  split; [by repeat split|].
  destruct (options_read_keys "in.h5" "0000000042" Cases.options_files
              Cases.options_group _ _ Hg Hdate Hdescr)
    as (out & Hr & Hds & Hqid & _ & Hdesc & Hkeys).
  { refine (bool_decide_unpack _ _). vm_compute. exact I. }
  exists out. split; [exact Hr|].
  split; [apply Hqid; vm_compute; reflexivity|].
  split; [apply Hdesc; vm_compute; reflexivity|].
  split.
  - apply (Hds "date" (Cases.stored Sample.two_floats)). vm_compute. reflexivity.
  - apply Hkeys. left. eexists. vm_compute. reflexivity.
Defined.

Lemma options_read_write_read_witness :
  let out : gmap string options.pyval := list_to_map Cases.options_items in
  (options.read_hdf5 "in.h5" "0000000042" Cases.options_files
   = (Ok out, Cases.options_files)
   /\ NoDup Cases.options_items.*1)
  /\ exists fs' out2,
       @options.write_hdf5 indefinite_platform decimal_parser Sample.meta0
         "in.h5" Cases.options_items None Cases.options_files
       = (Ok "/options/opt-0000000001", fs')
       /\ options.read_hdf5 "in.h5" "0000000001" fs' = (Ok out2, fs')
       /\ out2 !! "SIM_MODE" = out !! "SIM_MODE"
       /\ out2 !! "GRID" = None.
Proof.
  cbv zeta.
  assert (Hread : options.read_hdf5 "in.h5" "0000000042" Cases.options_files
                  = (Ok (list_to_map Cases.options_items), Cases.options_files))
    by (vm_compute; reflexivity).
  assert (Hnd : NoDup Cases.options_items.*1).
  { refine (bool_decide_unpack _ _). vm_compute. exact I. }
  split; [by split|].
  destruct (@options_read_write_read indefinite_platform decimal_parser
              Sample.meta0 "in.h5" "0000000042" "in.h5" Cases.options_items
              None Cases.options_files _ Hread Hnd eq_refl)
    as (fs' & out2 & Hw & Hr & Hopt & _).
  { intros c Hc. vm_compute in Hc. discriminate Hc. }
  { vm_compute. reflexivity. }
  exists fs', out2. split; [exact Hw|]. split; [exact Hr|]. split.
  - rewrite (Hopt "SIM_MODE") by reflexivity. vm_compute. reflexivity.
  - rewrite (Hopt "GRID") by reflexivity. vm_compute. reflexivity.
Defined.



(** ** options: the listing with comments *)

Example dedent_comment :
  textwrap.dedent ("    # a" +:+ String "010" ("      # b" +:+ String "010" "    "))
  = "# a" +:+ String "010" ("  # b" +:+ String "010" "").
Proof. vm_compute. reflexivity. Qed.

Example get_default_length : length options_info.get_default = 81%nat.
Proof. vm_compute. reflexivity. Qed.

Example get_default_first_param :
  options_info.get_default !! 1%nat
  = Some (options_info.Param "SIM_MODE"
            ("# Simulation mode (1, 2, 3, 4)" +:+ String "010" (
             "# - 1 Gyro-orbit" +:+ String "010" (
             "# - 2 Guiding center" +:+ String "010" (
             "# - 3 Hybrid" +:+ String "010" (
             "# - 4 Magnetic field lines" +:+ String "010" "")))))
            (options_info.py_int 3)).
Proof. vm_compute. reflexivity. Qed.

(** ** The annotated listing of [options.read_hdf5] *)

Section Listing.
Import options_info.
Context {V : Type}.
Implicit Types (D : list (entry options.pyval)) (U info : list (entry V)).

Lemma existsb_is_banner t info :
  existsb (is_banner t) info = true <-> Banner t ∈ info.
Proof.
  rewrite existsb_exists. split.
  - intros (e & Hin & He). destruct e as [t'|]; simpl in He; [|done].
    apply String.eqb_eq in He as ->. by apply list_elem_of_In.
  - intros Hin. exists (Banner t). split; [by apply list_elem_of_In|].
    simpl. apply String.eqb_refl.
Qed.

Lemma find_comment_cmt name D info :
  (find_comment name D info).2 = comment_of D name.
Proof.
  revert info. induction D as [|[t|n c v] D IH]; intros info; [done| |].
  - cbn [find_comment]. destruct (existsb _ _); apply IH.
  - cbn [find_comment]. unfold comment_of. cbn [List.find].
    destruct (String.eqb name n); [done|]. apply IH.
Qed.

Lemma find_comment_info name D info :
  exists bs,
    (find_comment name D info).1 = (info ++ bs)%list
    /\ Forall (fun e => exists t, e = Banner t
                 /\ @Banner options.pyval t ∈ D /\ Banner t ∉ info) bs
    /\ NoDup bs.
Proof.
  revert info. induction D as [|[t|n c v] D IH]; intros info.
  - exists []. split; [by rewrite app_nil_r|]. split; constructor.
  - cbn [find_comment]. destruct (existsb (is_banner t) info) eqn:Hin.
    + destruct (IH info) as (bs & Hbs & Hall & Hnd). exists bs.
      split; [done|]. split; [|done].
      eapply Forall_impl; [exact Hall|]. intros e (t' & -> & HD & Hno).
      exists t'. split; [done|]. split; [by right|done].
    + assert (Hno : Banner t ∉ info).
      { intros H. apply existsb_is_banner in H. congruence. }
      destruct (IH (info ++ [Banner t])%list) as (bs & Hbs & Hall & Hnd).
      exists (Banner t :: bs). split; [by rewrite Hbs, <- app_assoc|].
      split.
      * constructor; [exists t; split; [done|]; split; [by left|done]|].
        eapply Forall_impl; [exact Hall|]. intros e (t' & -> & HD & Hno').
        exists t'. split; [done|]. split; [by right|].
        intros H. apply Hno'. apply elem_of_app. by left.
      * constructor; [|done]. intros H.
        apply (proj1 (Forall_forall _ _) Hall) in H as (t' & [= <-] & _ & Hno').
        apply Hno'. apply elem_of_app. right. by left.
  - cbn [find_comment]. destruct (String.eqb name n).
    + exists []. split; [by rewrite app_nil_r|]. split; constructor.
    + destruct (IH info) as (bs & Hbs & Hall & Hnd). exists bs.
      split; [done|]. split; [|done].
      eapply Forall_impl; [exact Hall|]. intros e (t' & -> & HD & Hno).
      exists t'. split; [done|]. split; [by right|done].
Qed.

Lemma banners_keys (bs : list (entry V)) :
  Forall (fun e => exists t, e = Banner t) bs -> NoDup bs -> NoDup (key <$> bs).
Proof.
  induction 1 as [|e bs (t & ->) Hall IH]; [constructor|].
  intros [Hno Hnd]%NoDup_cons. cbn [fmap list_fmap]. constructor; [|by apply IH].
  intros (e & He & Hin)%list_elem_of_fmap.
  apply (proj1 (Forall_forall _ _) Hall) in Hin as Hb. destruct Hb as (t' & ->).
  simpl in He. by subst t'.
Qed.

Lemma parse_step D (done : list (string * V)) U k v :
  listed D done U ->
  k ∉ done.*1 ->
  @Banner options.pyval k ∉ D ->
  (forall k' v', (k', v') ∈ done -> @Banner options.pyval k' ∉ D) ->
  listed D (done ++ [(k, v)])%list
    (let '(info, cmt) := find_comment k D U in (info ++ [Param k cmt v])%list).
Proof.
  intros (Hnd & Hin & Hout) Hk Hkb Hdb.
  pose proof (find_comment_cmt k D U) as Hc.
  destruct (find_comment_info k D U) as (bs & Hbs & Hall & Hndb).
  destruct (find_comment k D U) as [info cmt]. cbn [fst snd] in *. subst info cmt.
  assert (Hbanner : forall e, e ∈ bs ->
            exists t, e = Banner t /\ @Banner options.pyval t ∈ D /\ Banner t ∉ U).
  { intros e He. by apply (proj1 (Forall_forall _ _) Hall). }
  split; [|split].
  - rewrite !fmap_app. cbn [fmap list_fmap key].
    apply NoDup_app. split; [|split].
    + apply NoDup_app. split; [done|]. split.
      * intros x (e & -> & He)%list_elem_of_fmap (b & Hb & Hbin)%list_elem_of_fmap.
        destruct (Hbanner b Hbin) as (t & -> & HD & Hno). simpl in Hb.
        destruct (Hin e He) as [(t' & -> & _)|(k' & v' & -> & Hd)];
          simpl in Hb; subst.
        -- done.
        -- by apply (Hdb _ _ Hd).
      * apply banners_keys; [|done].
        eapply Forall_impl; [exact Hall|]. intros e (t & -> & _). by exists t.
    + intros x Hx ->%list_elem_of_singleton.
      apply elem_of_app in Hx as [(e & He & Hein)%list_elem_of_fmap
                                 |(b & Hb & Hbin)%list_elem_of_fmap].
      * destruct (Hin e Hein) as [(t' & -> & HD)|(k' & v' & -> & Hd)];
          simpl in He; subst.
        -- done.
        -- apply Hk. apply list_elem_of_fmap. by exists (k', v').
      * destruct (Hbanner b Hbin) as (t & -> & HD & _). simpl in Hb. by subst.
    + apply NoDup_singleton.
  - intros e He. apply elem_of_app in He as [He|He%list_elem_of_singleton].
    + apply elem_of_app in He as [He|He].
      * destruct (Hin e He) as [?|(k' & v' & -> & Hd)]; [by left|].
        right. exists k', v'. split; [done|]. apply elem_of_app. by left.
      * destruct (Hbanner e He) as (t & -> & HD & _). left. by exists t.
    + right. exists k, v. split; [done|]. apply elem_of_app. right. by left.
  - intros k' v' Hd. apply elem_of_app in Hd as [Hd|[= -> ->]%list_elem_of_singleton].
    + apply elem_of_app. left. apply elem_of_app. left. by apply Hout.
    + apply elem_of_app. right. by left.
Qed.

Lemma parse_listed D (items : list (string * V)) :
  NoDup items.*1 ->
  (forall k v, (k, v) ∈ items -> @Banner options.pyval k ∉ D) ->
  listed D items (parse D items).
Proof.
  intros Hnd Hb. unfold parse.
  enough (Hgen : forall (done : list (string * V)) U rest,
            listed D done U -> NoDup (done ++ rest)%list.*1 ->
            (forall k v, (k, v) ∈ (done ++ rest)%list ->
               @Banner options.pyval k ∉ D) ->
            listed D (done ++ rest)%list
              (foldl (fun info '(name, val) =>
                        let '(info, cmt) := find_comment name D info in
                        (info ++ [Param name cmt val])%list) U rest)).
  { apply (Hgen [] [] items); [|done|done].
    split; [constructor|]. split; [intros e He|intros k v He]; by apply elem_of_nil in He. }
  intros done U rest. revert done U.
  induction rest as [|[k v] rest IH]; intros done U HU Hnd' Hb'.
  { by rewrite app_nil_r. }
  cbn [foldl]. replace (done ++ (k, v) :: rest)%list
    with ((done ++ [(k, v)]) ++ rest)%list by (by rewrite <- app_assoc).
  apply IH.
  - apply parse_step; [done| | |].
    + rewrite fmap_app in Hnd'. apply NoDup_app in Hnd' as (_ & Hdis & _).
      intros Hk. apply (Hdis k Hk). cbn. by left.
    + apply (Hb' k v). apply elem_of_app. right. by left.
    + intros k' v' Hd. apply (Hb' k' v'). apply elem_of_app. by left.
  - by rewrite <- app_assoc.
  - by rewrite <- app_assoc.
Qed.
End Listing.

Section Sorting.
Import options_info.
Context {V : Type}.
Implicit Types (D : list (entry options.pyval)) (U info : list (entry V)).

Lemma setitem_ok {A} (l : list A) i x :
  (i < length l)%nat -> setitem l i x = Ok (<[i := x]> l).
Proof.
  intros Hi. unfold setitem.
  by destruct (Nat.ltb_spec i (length l)); [|lia].
Qed.

Lemma take_S_insert {A} (l : list A) i x :
  (i < length l)%nat -> take (S i) (<[i := x]> l) = (take i l ++ [x])%list.
Proof.
  intros Hi. rewrite (take_S_r _ _ x); [|by apply list_lookup_insert_eq].
  by rewrite take_insert_ge.
Qed.

Lemma sort_known_spec D U info i :
  (i + length (known_part D U) <= length info)%nat ->
  sort_known D U info i
  = Ok ((take i info ++ known_part D U
           ++ drop (i + length (known_part D U)) info)%list,
        (i + length (known_part D U))%nat).
Proof.
  revert info i. induction D as [|opt D IH]; intros info i Hlen.
  { cbn. by rewrite Nat.add_0_r, take_drop. }
  cbn [sort_known]. unfold known_part in *. cbn [omap list_omap] in *.
  destruct (List.find _ U) as [e|].
  - cbn [length] in Hlen. rewrite setitem_ok by lia. cbn [rbind].
    rewrite IH by (rewrite length_insert; lia).
    rewrite take_S_insert by lia. rewrite drop_insert_lt by lia.
    cbn [length]. rewrite <- app_assoc. cbn [app].
    by replace (S i + length (omap _ D))%nat
      with (i + S (length (omap
              (fun opt => List.find (fun e => String.eqb (key opt) (key e)) U)
              D)))%nat by lia.
  - by apply IH.
Qed.

Lemma sort_unknown_spec U info i :
  (i + length (unknown_part U) <= length info)%nat ->
  sort_unknown U info i
  = Ok ((take i info ++ unknown_part U
           ++ drop (i + length (unknown_part U)) info)%list,
        (i + length (unknown_part U))%nat).
Proof.
  revert info i. induction U as [|e U IH]; intros info i Hlen.
  { cbn. by rewrite Nat.add_0_r, take_drop. }
  cbn [sort_unknown]. unfold unknown_part in *. cbn [List.filter] in *.
  destruct (is_unknown e).
  - cbn [length] in Hlen. rewrite setitem_ok by lia. cbn [rbind].
    rewrite IH by (rewrite length_insert; lia).
    rewrite take_S_insert by lia. rewrite drop_insert_lt by lia.
    cbn [length]. rewrite <- app_assoc. cbn [app].
    by replace (S i + length (List.filter is_unknown U))%nat
      with (i + S (length (List.filter is_unknown U)))%nat by lia.
  - by apply IH.
Qed.

(** Both loops of the sort, when the two runs fill the list. *)
Lemma sort_spec D U :
  (length (known_part D U) + length (unknown_part U))%nat = length U ->
  (let* known := sort_known D U U 0 in
   let* all := sort_unknown U known.1 known.2 in
   Ok all.1)
  = Ok (known_part D U ++ unknown_part U)%list.
Proof.
  intros Hlen. rewrite sort_known_spec by lia. cbn [rbind fst snd].
  rewrite take_0, Nat.add_0_l. cbn [app].
  rewrite sort_unknown_spec by (rewrite length_app, length_drop; lia).
  cbn [rbind fst snd]. f_equal.
  rewrite take_app_length.
  rewrite drop_app_ge by lia. rewrite drop_drop, drop_ge by lia.
  by rewrite app_nil_r.
Qed.
End Sorting.

Section Sorted.
Import options_info.
Context {V : Type}.
Implicit Types (D : list (entry options.pyval)) (U info : list (entry V)).

Lemma find_key_unique U e :
  NoDup (key <$> U) -> e ∈ U ->
  List.find (fun e' => String.eqb (key e) (key e')) U = Some e.
Proof.
  induction U as [|e' U IH]; intros Hnd He; [by apply elem_of_nil in He|].
  cbn [fmap list_fmap] in Hnd. apply NoDup_cons in Hnd as [Hno Hnd].
  cbn [List.find]. apply elem_of_cons in He as [->|He].
  - by rewrite String.eqb_refl.
  - destruct (String.eqb_spec (key e) (key e')) as [Heq|_]; [|by apply IH].
    exfalso. apply Hno. rewrite <- Heq. by apply list_elem_of_fmap_2.
Qed.

Lemma find_key_some U k e :
  List.find (fun e' => String.eqb k (key e')) U = Some e -> e ∈ U /\ key e = k.
Proof.
  intros [Hin He]%find_some. split; [by apply list_elem_of_In|].
  symmetry. by apply String.eqb_eq.
Qed.

Lemma known_part_elem D U e :
  e ∈ known_part D U <->
  exists opt, opt ∈ D
    /\ List.find (fun e' => String.eqb (key opt) (key e')) U = Some e.
Proof. unfold known_part. by rewrite list_elem_of_omap. Qed.

Lemma known_part_sublist D U :
  (key <$> known_part D U) `sublist_of` (key <$> D).
Proof.
  unfold known_part. induction D as [|opt D IH]; [done|].
  cbn [omap list_omap fmap list_fmap].
  destruct (List.find _ U) as [e|] eqn:He.
  - apply find_key_some in He as [_ He]. cbn [fmap list_fmap]. rewrite He.
    by apply sublist_skip.
  - by apply sublist_cons.
Qed.

Lemma comment_of_unknown D k :
  (forall n c v, @Param options.pyval n c v ∈ D -> c <> unknown) ->
  comment_of D k = unknown ->
  forall c v, @Param options.pyval k c v ∉ D.
Proof.
  intros Hcm. unfold comment_of.
  destruct (List.find _ D) as [[t|n c' v']|] eqn:Hf.
  - apply find_some in Hf as [_ [=]].
  - apply find_some in Hf as [Hin%list_elem_of_In _]. intros ->.
    by destruct (Hcm _ _ _ Hin).
  - intros _ c v Hin%list_elem_of_In.
    pose proof (find_none _ _ Hf _ Hin) as Hne. cbn in Hne.
    by rewrite String.eqb_refl in Hne.
Qed.

Lemma comment_of_known D k :
  comment_of D k <> unknown -> exists v, @Param options.pyval k (comment_of D k) v ∈ D.
Proof.
  unfold comment_of.
  destruct (List.find _ D) as [[t|n c' v']|] eqn:Hf; [done| |done].
  apply find_some in Hf as [Hin%list_elem_of_In ->%String.eqb_eq].
  intros _. by exists v'.
Qed.

Context (D : list (entry options.pyval)) (items : list (string * V))
        (U : list (entry V)).
Hypothesis HD : NoDup (key <$> D).
Hypothesis Hcm : forall n c v, @Param options.pyval n c v ∈ D -> c <> unknown.
Hypothesis Hb : forall k v, (k, v) ∈ items -> @Banner options.pyval k ∉ D.
Hypothesis HU : listed D items U.

Lemma unknown_not_default e :
  e ∈ U -> is_unknown e = true -> key e ∉ (key <$> D).
Proof.
  intros He Hun (opt & Hk & Hopt)%list_elem_of_fmap.
  destruct HU as (_ & Hin & _).
  destruct (Hin e He) as [(t & -> & _)|(k & v & -> & Hkv)]; [done|].
  cbn in Hun, Hk. apply String.eqb_eq in Hun.
  destruct opt as [t|n c' v']; cbn in Hk; subst.
  - by apply (Hb _ _ Hkv).
  - by apply (comment_of_unknown D n Hcm Hun c' v').
Qed.

Lemma known_part_in e : e ∈ known_part D U -> e ∈ U /\ key e ∈ (key <$> D).
Proof.
  intros (opt & Hopt & Hf)%known_part_elem.
  apply find_key_some in Hf as [He Hk]. split; [done|].
  rewrite Hk. by apply list_elem_of_fmap_2.
Qed.

Lemma known_part_not_unknown e : e ∈ known_part D U -> is_unknown e = false.
Proof.
  intros [He Hk]%known_part_in.
  destruct (is_unknown e) eqn:Hun; [|done].
  by destruct (unknown_not_default e He Hun).
Qed.

Lemma listed_split e : e ∈ U -> e ∈ known_part D U \/ e ∈ unknown_part U.
Proof.
  intros He. destruct HU as (Hnd & Hin & _).
  destruct (is_unknown e) eqn:Hun.
  { right. unfold unknown_part. apply list_elem_of_In, filter_In.
    split; [by apply list_elem_of_In|done]. }
  left. apply known_part_elem.
  destruct (Hin e He) as [(t & -> & Ht)|(k & v & -> & Hkv)].
  - exists (Banner t). split; [done|]. by apply (find_key_unique U (Banner t)).
  - cbn in Hun. apply String.eqb_neq in Hun.
    destruct (comment_of_known D k Hun) as (v' & Hv').
    exists (Param k (comment_of D k) v'). split; [done|].
    by apply (find_key_unique U (Param k (comment_of D k) v)).
Qed.

Lemma sorted_permutation : (known_part D U ++ unknown_part U)%list ≡ₚ U.
Proof.
  pose proof HU as (Hnd & _ & _).
  apply NoDup_Permutation.
  - apply NoDup_app. split; [|split].
    + apply (NoDup_fmap_1 key). exact (sublist_NoDup _ _ HD (known_part_sublist D U)).
    + intros e Hk Hu. apply known_part_not_unknown in Hk.
      unfold unknown_part in Hu. apply list_elem_of_In, filter_In in Hu as [_ Hu].
      congruence.
    + unfold unknown_part. apply NoDup_ListNoDup, List.NoDup_filter, NoDup_ListNoDup.
      by apply (NoDup_fmap_1 key).
  - by apply (NoDup_fmap_1 key).
  - intros e. rewrite elem_of_app. split.
    + intros [Hk|Hu]; [by apply known_part_in in Hk as [? _]|].
      unfold unknown_part in Hu. by apply list_elem_of_In, filter_In in Hu as [?%list_elem_of_In _].
    + apply listed_split.
Qed.

Lemma sorted_ok :
  (let* known := sort_known D U U 0 in
   let* all := sort_unknown U known.1 known.2 in
   Ok all.1)
  = Ok (known_part D U ++ unknown_part U)%list.
Proof.
  apply sort_spec. rewrite <- length_app.
  apply Permutation_length, sorted_permutation.
Qed.
End Sorted.

(** The defaults: no first component twice, no comment "Unknown parameter". *)
Lemma get_default_keys :
  NoDup (options_info.key <$> options_info.get_default).
Proof.
  apply (bool_decide_unpack _). vm_compute. exact I.
Qed.

Lemma get_default_comments n c v :
  options_info.Param n c v ∈ options_info.get_default ->
  c <> options_info.unknown.
Proof.
  assert (H : forallb (fun e => negb (options_info.is_unknown e))
                options_info.get_default = true) by (vm_compute; reflexivity).
  intros Hin%list_elem_of_In. apply (proj1 (forallb_forall _ _) H) in Hin.
  cbn in Hin. apply negb_true_iff, String.eqb_neq in Hin. exact Hin.
Qed.

Section Info.
Import options_info.
Context `{!GroupOrder}.

(** The options [read_hdf5] goes through, in the order of the group. *)
Lemma info_items_elem (G : gmap string dataset) k a :
  (k, a) ∈ omap (fun name => pair name <$> (dvalue <$> G) !! name)
             (List.filter options.is_option (keys_of G))
  <-> options.is_option k = true /\ dvalue <$> G !! k = Some a.
Proof.
  rewrite list_elem_of_omap. split.
  - intros (name & [Hin Hopt]%list_elem_of_In%filter_In & Hv).
    rewrite lookup_fmap in Hv.
    destruct (G !! name) as [d|] eqn:Hd; [|done]. cbn in Hv.
    injection Hv as <- <-. by rewrite Hd.
  - intros [Hopt Hv]. exists k. split.
    + apply list_elem_of_In, filter_In. split; [|done].
      apply list_elem_of_In, keys_of_elem.
      by destruct (G !! k).
    + rewrite lookup_fmap. by destruct (G !! k) as [d|]; [injection Hv as <-|].
Qed.

Lemma info_items_names (G : gmap string dataset) :
  (omap (fun name => pair name <$> (dvalue <$> G) !! name)
        (List.filter options.is_option (keys_of G))).*1
  = List.filter options.is_option (keys_of G).
Proof.
  assert (Hall : Forall (fun k => is_Some (G !! k))
                   (List.filter options.is_option (keys_of G))).
  { apply Forall_forall. intros k [Hin _]%list_elem_of_In%filter_In.
    by apply keys_of_elem, list_elem_of_In. }
  induction Hall as [|k l [d Hd] _ IH]; [done|].
  cbn [omap list_omap]. rewrite lookup_fmap, Hd. cbn. by rewrite IH.
Qed.

Lemma info_items_NoDup (G : gmap string dataset) :
  NoDup (omap (fun name => pair name <$> (dvalue <$> G) !! name)
           (List.filter options.is_option (keys_of G))).*1.
Proof.
  rewrite info_items_names.
  apply NoDup_ListNoDup, List.NoDup_filter, NoDup_ListNoDup, keys_of_NoDup.
Qed.

(** [read_hdf5] with [info=True] on a group that [read_hdf5] can read. *)
Lemma options_read_info_ok fs fn qid out fs' :
  options.read_hdf5 fn qid fs = (Ok out, fs') ->
  exists G,
    group_at fs {| h_fn := fn; h_parent := "options";
                   h_name := "opt-" +:+ qid |} = Some G
    /\ (forall k a, options.is_option k = true ->
          out !! k = Some (options.PData (AArray a))
          <-> dvalue <$> gdatasets G !! k = Some a)
    /\ (forall k, is_Some (gdatasets G !! k) -> is_Some (out !! k))
    /\ read_hdf5 fn qid fs
       = (let items :=
            omap (fun name => pair name <$> (dvalue <$> gdatasets G) !! name)
              (List.filter options.is_option (keys_of (gdatasets G))) in
          let U := parse get_default items in
          match (let* known := sort_known get_default U U 0 in
                 let* all := sort_unknown U known.1 known.2 in
                 Ok all.1) with
          | Ok info => Ok (out, info)
          | Raise e => Raise e
          end, fs').
Proof.
  intros (-> & G & date & descr & HG & Hdate & Hdescr & Hall & Hout)%options_read_inv.
  exists G. split; [done|].
  split; [|split].
  - intros k a (Hq & Hd & Hde)%is_option_ne. subst out.
    rewrite lookup_union, !lookup_fmap.
    rewrite !lookup_insert_ne, lookup_empty by done.
    destruct (gdatasets G !! k) as [d|]; cbn; [|done].
    split; [by intros [= ->]|by intros [= ->]].
  - intros k [d Hd]. subst out. rewrite lookup_union_is_Some. left.
    by rewrite !lookup_fmap, Hd.
  - apply group_at_file in HG as (f & Hf & HG). cbn [h_fn h_parent h_name] in *.
    unfold read_hdf5.
    rewrite (io_bind_ok _ _ _ _ _ (File_r_ok _ _ _ Hf)).
    unfold lift, getpath. rewrite options_path, HG. cbn [rbind].
    unfold getitem. rewrite Hdate, Hdescr. cbn [rbind].
    unfold read_datasets. rewrite bool_decide_true by done. cbn [rbind].
    cbv zeta. rewrite <- Hout.
    by destruct (sort_known _ _ _ _) as [[k1 i1]|]; cbn [rbind];
      [destruct (sort_unknown _ _ _) as [[k2 i2]|]|].
Qed.
End Info.

Section Order.
Import options_info.
Context {V : Type}.

Lemma parse_params (D : list (entry options.pyval)) (items : list (string * V)) :
  omap param_name (parse D items) = items.*1.
Proof.
  unfold parse.
  enough (Hgen : forall (U : list (entry V)),
            omap param_name
              (foldl (fun info '(name, val) =>
                        let '(info, cmt) := find_comment name D info in
                        (info ++ [Param name cmt val])%list) U items)
            = (omap param_name U ++ items.*1)%list) by apply (Hgen []).
  induction items as [|[k v] items IH]; intros U.
  { cbn. by rewrite app_nil_r. }
  cbn [foldl]. rewrite IH.
  destruct (find_comment_info k D U) as (bs & Hbs & Hall & _).
  destruct (find_comment k D U) as [info cmt]. cbn [fst] in Hbs. subst info.
  rewrite !omap_app. cbn. rewrite <- !app_assoc. do 2 f_equal.
  induction Hall as [|e bs (t & -> & _) _ IHbs]; [done|]. apply IHbs.
Qed.

Lemma unknown_keys_sublist (U : list (entry V)) :
  (key <$> unknown_part U) `sublist_of` omap param_name U.
Proof.
  unfold unknown_part. induction U as [|[t|n c v] U IH]; [done|done|].
  cbn [List.filter is_unknown omap list_omap param_name].
  destruct (String.eqb c unknown).
  - by apply sublist_skip.
  - by apply sublist_cons.
Qed.
End Order.

Section InfoInv.
Import options_info.
Context `{!GroupOrder}.

Lemma options_read_info_inv fs fn qid out info fs' :
  read_hdf5 fn qid fs = (Ok (out, info), fs') ->
  options.read_hdf5 fn qid fs = (Ok out, fs').
Proof.
  unfold read_hdf5, options.read_hdf5. rewrite !io_bind_run.
  unfold File_r. cbv beta.
  destruct (fs !! fn) as [[f|c]|]; [|by intros [=]..].
  unfold lift, getpath. rewrite options_path.
  destruct (group_in f "options" ("opt-" +:+ qid)) as [G|] eqn:HG; [|done].
  cbn [rbind]. unfold getitem.
  destruct (gattrs G !! "date") as [date|] eqn:Hdate; [|done].
  destruct (gattrs G !! "description") as [descr|] eqn:Hdescr; [|done].
  cbn [rbind].
  unfold read_datasets. case_bool_decide as Hall; [|done]. cbn [rbind].
  cbv zeta.
  destruct (sort_known _ _ _ _) as [[k1 i1]|]; cbn [rbind]; [|done].
  destruct (sort_unknown _ _ _) as [[k2 i2]|]; cbn [rbind]; [|done].
  by intros [= <- _ <-].
Qed.

Lemma no_banner_keys {A} (m : gmap string A) (D : list (entry options.pyval)) :
  forallb (fun k => negb (existsb (is_banner k) D)) (map_to_list m).*1 = true ->
  forall k, is_Some (m !! k) -> @Banner options.pyval k ∉ D.
Proof.
  intros Hall k [a Ha] Hin.
  assert (Hk : In k (map_to_list m).*1).
  { apply list_elem_of_In, list_elem_of_fmap. exists (k, a).
    split; [done|]. by apply elem_of_map_to_list. }
  apply (proj1 (forallb_forall _ _) Hall) in Hk.
  apply negb_true_iff in Hk.
  apply existsb_is_banner in Hin. congruence.
Qed.
End InfoInv.

Section Banners.
Import options_info.
Context {V : Type}.

Lemma find_comment_before name (D : list (entry options.pyval))
    (info : list (entry V)) t :
  Banner t ∈ (find_comment name D info).1
  <-> Banner t ∈ info \/ @Banner options.pyval t ∈ before name D.
Proof.
  revert info. induction D as [|[t0|n c v] D IH]; intros info.
  - cbn. rewrite elem_of_nil. tauto.
  - cbn [find_comment before].
    destruct (existsb (is_banner t0) info) eqn:Hin.
    + rewrite IH, elem_of_cons. apply existsb_is_banner in Hin.
      split; [tauto|]. intros [?|[[= ->]|?]]; tauto.
    + rewrite IH, elem_of_app, list_elem_of_singleton, elem_of_cons.
      split.
      * intros [[?|[= ->]]|?]; tauto.
      * intros [?|[[= ->]|?]]; tauto.
  - cbn [find_comment before]. destruct (String.eqb name n).
    + cbn. rewrite elem_of_nil. tauto.
    + rewrite IH, elem_of_cons. split; [tauto|].
      intros [?|[[=]|?]]; tauto.
Qed.

Lemma parse_banners (D : list (entry options.pyval))
    (items : list (string * V)) t :
  @Banner V t ∈ parse D items
  <-> exists k v, (k, v) ∈ items /\ @Banner options.pyval t ∈ before k D.
Proof.
  unfold parse.
  enough (Hgen : forall (U : list (entry V)),
            Banner t ∈ foldl (fun info '(name, val) =>
                        let '(info, cmt) := find_comment name D info in
                        (info ++ [Param name cmt val])%list) U items
            <-> Banner t ∈ U
                \/ exists k v, (k, v) ∈ items
                     /\ @Banner options.pyval t ∈ before k D).
  { rewrite (Hgen []), elem_of_nil. tauto. }
  induction items as [|[k v] items IH]; intros U.
  { cbn. split; [tauto|]. intros [?|(k & v & []%elem_of_nil & _)]. done. }
  cbn [foldl]. rewrite IH.
  pose proof (find_comment_before k D U t) as Hb.
  destruct (find_comment k D U) as [info cmt]. cbn [fst] in Hb.
  rewrite elem_of_app, list_elem_of_singleton, Hb. split.
  - intros [[[?|?]|[=]]|(k' & v' & Hin & Hbef)].
    + by left.
    + right. exists k, v. split; [by left|done].
    + right. exists k', v'. split; [by right|done].
  - intros [?|(k' & v' & Hin & Hbef)]; [tauto|].
    apply elem_of_cons in Hin as [[= -> ->]|Hin]; [tauto|].
    right. by exists k', v'.
Qed.
End Banners.

Section Comment.
Import options_info.

Lemma default_entry_by_key (D : list (entry options.pyval)) e1 e2 :
  NoDup (key <$> D) -> e1 ∈ D -> e2 ∈ D -> key e1 = key e2 -> e1 = e2.
Proof.
  induction D as [|e D IH]; intros Hnd H1 H2 Hk; [by apply elem_of_nil in H1|].
  cbn [fmap list_fmap] in Hnd. apply NoDup_cons in Hnd as [Hno Hnd].
  apply elem_of_cons in H1 as [->|H1]; apply elem_of_cons in H2 as [->|H2].
  - done.
  - destruct Hno. rewrite Hk. by apply list_elem_of_fmap_2.
  - destruct Hno. rewrite <- Hk. by apply list_elem_of_fmap_2.
  - by apply IH.
Qed.

Lemma comment_of_spec (D : list (entry options.pyval)) k c :
  NoDup (key <$> D) ->
  (forall n c v, @Param options.pyval n c v ∈ D -> c <> unknown) ->
  comment_of D k = c
  <-> (exists v, @Param options.pyval k c v ∈ D)
      \/ (c = unknown /\ forall c' v', @Param options.pyval k c' v' ∉ D).
Proof.
  intros Hnd Hcm. split.
  - intros <-. destruct (decide (comment_of D k = unknown)) as [Hu|Hk].
    + right. split; [done|]. by apply comment_of_unknown.
    + left. by apply comment_of_known.
  - intros [[v Hin]|[-> Hno]].
    + destruct (decide (comment_of D k = unknown)) as [Hu|Hk].
      * by destruct (comment_of_unknown D k Hcm Hu c v).
      * destruct (comment_of_known D k Hk) as (v' & Hin').
        by pose proof (default_entry_by_key D _ _ Hnd Hin Hin' eq_refl) as [= <- _].
    + destruct (decide (comment_of D k = unknown)) as [Hu|Hk]; [done|].
      destruct (comment_of_known D k Hk) as (v' & Hin').
      by destruct (Hno _ _ Hin').
Qed.

Lemma not_param_default name (D : list (entry options.pyval)) :
  forallb (fun e => negb (String.eqb name (key e))) D = true ->
  forall c v, @Param options.pyval name c v ∉ D.
Proof.
  intros Hall c v Hin%list_elem_of_In.
  apply (proj1 (forallb_forall _ _) Hall) in Hin. cbn in Hin.
  by rewrite String.eqb_refl in Hin.
Qed.

Lemma params_in_group {A} (G : gmap string A) (D : list (entry options.pyval)) :
  forallb (fun e => match e with
                    | Banner _ => true
                    | Param n _ _ => match G !! n with
                                     | Some _ => true
                                     | None => false
                                     end
                    end) D = true ->
  forall n c v, @Param options.pyval n c v ∈ D -> is_Some (G !! n).
Proof.
  intros Hall n c v Hin%list_elem_of_In.
  apply (proj1 (forallb_forall _ _) Hall) in Hin.
  by destruct (G !! n).
Qed.

Lemma filter_sublist {A} (f : A -> bool) (l : list A) :
  List.filter f l `sublist_of` l.
Proof.
  induction l as [|x l IH]; [done|]. cbn [List.filter].
  destruct (f x); [by apply sublist_skip|by apply sublist_cons].
Qed.
End Comment.

Section Complete.
Import options_info.
Context {V : Type}.
Context (D : list (entry options.pyval)) (items : list (string * V))
        (U : list (entry V)).
Hypothesis HD : NoDup (key <$> D).
Hypothesis Hcm : forall n c v, @Param options.pyval n c v ∈ D -> c <> unknown.
Hypothesis HU : listed D items U.

(** When all of [D'] is listed, the sort finds every element of it. *)
Lemma known_part_all (D' : list (entry options.pyval)) :
  D' ⊆ D ->
  (forall t, @Banner options.pyval t ∈ D' -> @Banner V t ∈ U) ->
  (forall n c v, @Param options.pyval n c v ∈ D' -> exists a, (n, a) ∈ items) ->
  Forall2 (fun e opt =>
             match opt with
             | Banner t => e = Banner t
             | Param n c _ => exists a, (n, a) ∈ items /\ e = Param n c a
             end) (known_part D' U) D'.
Proof.
  destruct HU as (Hnd & Hin & Hout).
  induction D' as [|opt D' IH]; intros Hsub Hban Hpar; [constructor|].
  assert (Hsub' : D' ⊆ D) by (intros e He; apply Hsub; by right).
  assert (IH' := IH Hsub' (fun t Ht => Hban t (list_elem_of_further _ _ _ Ht))
                   (fun n c v Hn => Hpar n c v (list_elem_of_further _ _ _ Hn))).
  unfold known_part in *. cbn [omap list_omap].
  destruct opt as [t|n c v].
  - pose proof (find_key_unique U (Banner t) Hnd
                  (Hban t (list_elem_of_here _ _))) as Hf.
    cbn [key] in Hf |- *. rewrite Hf. by constructor.
  - destruct (Hpar n c v (list_elem_of_here _ _)) as [a Ha].
    assert (Hc : comment_of D n = c).
    { apply (comment_of_spec D n c HD Hcm). left. exists v.
      apply Hsub. by left. }
    pose proof (Hout _ _ Ha) as He. rewrite Hc in He.
    pose proof (find_key_unique U (Param n c a) Hnd He) as Hf.
    cbn [key] in Hf |- *. rewrite Hf.
    constructor; [|done]. by exists a.
Qed.

Lemma unknown_part_nil :
  (forall k v, (k, v) ∈ items -> exists c v', @Param options.pyval k c v' ∈ D) ->
  unknown_part U = [].
Proof.
  intros Hknown. destruct HU as (_ & Hin & _).
  unfold unknown_part.
  destruct (List.filter is_unknown U) as [|e l] eqn:Hf; [done|].
  assert (He : In e (List.filter is_unknown U)) by (rewrite Hf; by left).
  apply filter_In in He as [He%list_elem_of_In Hun].
  destruct (Hin _ He) as [(t & -> & _)|(k & a & -> & Hkv)]; [done|].
  cbn in Hun. apply String.eqb_eq in Hun.
  destruct (Hknown _ _ Hkv) as (c & v' & Hd).
  by destruct (comment_of_unknown D k Hcm Hun c v').
Qed.
End Complete.

(** Every banner of the defaults comes before their last parameter, and no
    default is named like the metadata. *)
Lemma get_default_banners t :
  @options_info.Banner options.pyval t ∈ options_info.get_default ->
  @options_info.Banner options.pyval t
  ∈ before "ORBITWRITE_INTERVAL" options_info.get_default.
Proof.
  assert (H : forallb (fun e => match e with
                                | options_info.Banner t =>
                                    existsb (options_info.is_banner t)
                                      (before "ORBITWRITE_INTERVAL"
                                         options_info.get_default)
                                | options_info.Param _ _ _ => true
                                end) options_info.get_default = true)
    by (vm_compute; reflexivity).
  intros Hin%list_elem_of_In. apply (proj1 (forallb_forall _ _) H) in Hin.
  by apply existsb_is_banner in Hin.
Qed.

Lemma get_default_options n c v :
  options_info.Param n c v ∈ options_info.get_default ->
  options.is_option n = true.
Proof.
  assert (H : forallb (fun e => match e with
                                | options_info.Banner _ => true
                                | options_info.Param n _ _ => options.is_option n
                                end) options_info.get_default = true)
    by (vm_compute; reflexivity).
  intros Hin%list_elem_of_In. by apply (proj1 (forallb_forall _ _) H) in Hin.
Qed.

Lemma get_default_last :
  exists c v, options_info.Param "ORBITWRITE_INTERVAL" c v
              ∈ options_info.get_default.
Proof.
  assert (H : String.eqb (comment_of options_info.get_default
                            "ORBITWRITE_INTERVAL") options_info.unknown = false)
    by (vm_compute; reflexivity).
  apply String.eqb_neq, comment_of_known in H as [v Hv]. by eexists _, v.
Qed.

Section InfoTheorems.
Import options_info.
Context `{!GroupOrder}.

(** The call with [info=True] returns for every group the plain call can
    read, when no dataset is named like a banner of the defaults. *)
Lemma options_read_info_run fn qid (fs : fsys) G date descr :
  group_at fs {| h_fn := fn; h_parent := "options"; h_name := "opt-" +:+ qid |}
  = Some G ->
  gattrs G !! "date" = Some date ->
  gattrs G !! "description" = Some descr ->
  map_Forall (fun _ d => shape (dvalue d) <> []) (gdatasets G) ->
  (forall k, is_Some (gdatasets G !! k) ->
     @Banner options.pyval k ∉ get_default) ->
  exists out info,
    options.read_hdf5 fn qid fs = (Ok out, fs)
    /\ read_hdf5 fn qid fs = (Ok (out, info), fs).
Proof.
  intros HG Hdate Hdescr Hall Hban.
  pose proof HG as (f & Hf & HGf)%group_at_file. cbn [h_fn h_parent h_name] in *.
  pose proof (options_read_ok fs fn qid f G date descr Hf HGf Hdate Hdescr Hall)
    as Hread.
  destruct (options_read_info_ok fs fn qid _ fs Hread)
    as (G' & HG' & _ & _ & Hinfo).
  rewrite HG in HG'. injection HG' as <-.
  pose proof get_default_keys as HDk. pose proof get_default_comments as HDc.
  set (D := get_default) in *. clearbody D.
  set (items := omap (fun name => pair name <$> (dvalue <$> gdatasets G) !! name)
                  (List.filter options.is_option (keys_of (gdatasets G)))) in *.
  assert (Hb : forall k v, (k, v) ∈ items -> @Banner options.pyval k ∉ D).
  { intros k v [_ Hv]%info_items_elem. apply Hban.
    by destruct (gdatasets G !! k). }
  pose proof (parse_listed D items (info_items_NoDup _) Hb) as HU.
  eexists _, _. split; [exact Hread|].
  rewrite Hinfo. cbv zeta.
  by rewrite (sorted_ok D items _ HDk HDc Hb HU).
Qed.

(** X18.  [options.read_hdf5] with [info=True], on a group the plain call
    can read and none of whose datasets is named like a banner of the
    defaults.  The call returns, with the dictionary of the plain call and
    a list in which no first component comes twice.  The list has an entry
    (name, comment, value) exactly for every dataset that is not named
    qid, date or description, with the array read as value and as comment
    the comment that parameter has in [get_default], or "Unknown parameter"
    when [get_default] has no parameter of that name.  A banner is in the
    list exactly when it comes, in [get_default], before the parameter of
    one of these datasets (any banner, when a dataset is unknown). *)
Theorem options_read_info_listing fn qid (fs : fsys) G date descr :
  group_at fs {| h_fn := fn; h_parent := "options"; h_name := "opt-" +:+ qid |}
  = Some G ->
  gattrs G !! "date" = Some date ->
  gattrs G !! "description" = Some descr ->
  map_Forall (fun _ d => shape (dvalue d) <> []) (gdatasets G) ->
  (forall k, is_Some (gdatasets G !! k) ->
     @Banner options.pyval k ∉ get_default) ->
  exists out info,
    options.read_hdf5 fn qid fs = (Ok out, fs)
    /\ read_hdf5 fn qid fs = (Ok (out, info), fs)
    /\ NoDup (key <$> info)
    /\ (forall k c a,
          Param k c a ∈ info
          <-> options.is_option k = true
              /\ dvalue <$> gdatasets G !! k = Some a
              /\ ((exists v, @Param options.pyval k c v ∈ get_default)
                  \/ (c = unknown
                      /\ forall c' v', @Param options.pyval k c' v' ∉ get_default)))
    /\ (forall t,
          Banner t ∈ info
          <-> exists k, options.is_option k = true
                /\ is_Some (gdatasets G !! k)
                /\ @Banner options.pyval t ∈ before k get_default).
Proof.
  intros HG Hdate Hdescr Hall Hban.
  pose proof HG as (f & Hf & HGf)%group_at_file. cbn [h_fn h_parent h_name] in *.
  pose proof (options_read_ok fs fn qid f G date descr Hf HGf Hdate Hdescr Hall)
    as Hread.
  destruct (options_read_info_ok fs fn qid _ fs Hread)
    as (G' & HG' & _ & _ & Hinfo).
  rewrite HG in HG'. injection HG' as <-.
  pose proof get_default_keys as HDk. pose proof get_default_comments as HDc.
  set (D := get_default) in *. clearbody D.
  set (items := omap (fun name => pair name <$> (dvalue <$> gdatasets G) !! name)
                  (List.filter options.is_option (keys_of (gdatasets G)))) in *.
  assert (Hb : forall k v, (k, v) ∈ items -> @Banner options.pyval k ∉ D).
  { intros k v [_ Hv]%info_items_elem. apply Hban.
    by destruct (gdatasets G !! k). }
  pose proof (parse_listed D items (info_items_NoDup _) Hb) as HU.
  pose proof (sorted_permutation D items _ HDk
                HDc Hb HU) as Hperm.
  eexists _, (known_part D (parse D items)
              ++ unknown_part (parse D items))%list.
  split; [exact Hread|]. split.
  { rewrite Hinfo. cbv zeta.
    by rewrite (sorted_ok D items _ HDk HDc Hb HU). }
  destruct HU as (Hnd & Hin & Hout).
  split; [by rewrite Hperm|]. split.
  - intros k c a. rewrite Hperm. split.
    + intros He.
      destruct (Hin _ He) as [(t & [=] & _)|(k' & v' & [= -> -> ->] & Hkv)].
      apply info_items_elem in Hkv as [Hopt Hv].
      split; [done|]. split; [done|]. by apply comment_of_spec.
    + intros (Hopt & Hv & Hc).
      apply (comment_of_spec D k c HDk HDc) in Hc as <-.
      apply Hout. by apply info_items_elem.
  - intros t. rewrite Hperm, parse_banners. split.
    + intros (k & v & [Hopt Hv]%info_items_elem & Hbef). exists k.
      split; [done|]. split; [|done]. by destruct (gdatasets G !! k).
    + intros (k & Hopt & [d Hd] & Hbef). exists k, (dvalue d).
      split; [|done]. apply info_items_elem. by rewrite Hd.
Qed.

(** X19.  The order of the list [options.read_hdf5] returns with
    [info=True], for a group none of whose datasets is named like a banner
    of the defaults.  First come the banners and the parameters the defaults
    know, in the order of [get_default]; after them come the parameters
    with the comment "Unknown parameter", those [get_default] has no
    parameter for, in the order in which the group lists its members. *)
Theorem options_read_info_order fn qid (fs fs' : fsys) out info G :
  read_hdf5 fn qid fs = (Ok (out, info), fs') ->
  group_at fs {| h_fn := fn; h_parent := "options"; h_name := "opt-" +:+ qid |}
  = Some G ->
  (forall k, is_Some (gdatasets G !! k) ->
     @Banner options.pyval k ∉ get_default) ->
  exists known unk,
    info = (known ++ unk)%list
    /\ (key <$> known) `sublist_of` (key <$> get_default)
    /\ (key <$> unk) `sublist_of` keys_of (gdatasets G)
    /\ Forall (fun e => exists k a,
                 e = Param k unknown a
                 /\ forall c v, @Param options.pyval k c v ∉ get_default) unk.
Proof.
  intros Hrun HG Hban.
  pose proof (options_read_info_inv _ _ _ _ _ _ Hrun) as Hread.
  destruct (options_read_info_ok fs fn qid _ fs' Hread)
    as (G' & HG' & _ & _ & Hinfo).
  rewrite HG in HG'. injection HG' as <-.
  pose proof get_default_keys as HDk. pose proof get_default_comments as HDc.
  set (D := get_default) in *. clearbody D.
  set (items := omap (fun name => pair name <$> (dvalue <$> gdatasets G) !! name)
                  (List.filter options.is_option (keys_of (gdatasets G)))) in *.
  assert (Hb : forall k v, (k, v) ∈ items -> @Banner options.pyval k ∉ D).
  { intros k v [_ Hv]%info_items_elem. apply Hban.
    by destruct (gdatasets G !! k). }
  pose proof (parse_listed D items (info_items_NoDup _) Hb) as HU.
  exists (known_part D (parse D items)),
         (unknown_part (parse D items)).
  split.
  { rewrite Hinfo in Hrun. cbv zeta in Hrun.
    rewrite (sorted_ok D items _ HDk HDc Hb HU) in Hrun.
    by injection Hrun as <-. }
  split; [apply known_part_sublist|]. split.
  - etrans; [apply unknown_keys_sublist|].
    rewrite parse_params. unfold items. rewrite info_items_names.
    apply filter_sublist.
  - apply Forall_forall. intros e He.
    unfold unknown_part in He.
    apply list_elem_of_In, filter_In in He as [He%list_elem_of_In Hun].
    destruct HU as (_ & Hin & _).
    destruct (Hin _ He) as [(t & -> & _)|(k & a & -> & Hkv)]; [done|].
    cbn in Hun. apply String.eqb_eq in Hun. exists k, a. rewrite Hun.
    split; [done|]. by apply comment_of_unknown, Hun; apply HDc.
Qed.
(** X20.  For a group that has a dataset for every parameter of
    [get_default] and none named like a banner of the defaults, the list of [options.read_hdf5] with [info=True] is the
    list of defaults itself, banner for banner and comment for comment,
    with the array read in the place of every default value; the
    parameters the defaults do not have follow, and there are none when
    every option of the group is a parameter of the defaults. *)
Theorem options_read_info_all_defaults fn qid (fs fs' : fsys) out info G :
  read_hdf5 fn qid fs = (Ok (out, info), fs') ->
  group_at fs {| h_fn := fn; h_parent := "options"; h_name := "opt-" +:+ qid |}
  = Some G ->
  (forall k, is_Some (gdatasets G !! k) ->
     @Banner options.pyval k ∉ get_default) ->
  (forall n c v, @Param options.pyval n c v ∈ get_default ->
     is_Some (gdatasets G !! n)) ->
  exists known unk,
    info = (known ++ unk)%list
    /\ Forall2 (filled_in (gdatasets G)) known get_default
    /\ Forall (fun e => exists k a,
                 e = Param k unknown a
                 /\ forall c v, @Param options.pyval k c v ∉ get_default) unk
    /\ ((forall k, options.is_option k = true -> is_Some (gdatasets G !! k) ->
           exists c v, @Param options.pyval k c v ∈ get_default) ->
        unk = []).
Proof.
  intros Hrun HG Hban Hfull.
  pose proof (options_read_info_inv _ _ _ _ _ _ Hrun) as Hread.
  destruct (options_read_info_ok fs fn qid _ fs' Hread)
    as (G' & HG' & _ & _ & Hinfo).
  rewrite HG in HG'. injection HG' as <-.
  pose proof get_default_keys as HDk. pose proof get_default_comments as HDc.
  pose proof get_default_banners as HDb. pose proof get_default_options as HDo.
  pose proof get_default_last as HDl.
  set (D := get_default) in *. clearbody D.
  set (items := omap (fun name => pair name <$> (dvalue <$> gdatasets G) !! name)
                  (List.filter options.is_option (keys_of (gdatasets G)))) in *.
  assert (Hb : forall k v, (k, v) ∈ items -> @Banner options.pyval k ∉ D).
  { intros k v [_ Hv]%info_items_elem. apply Hban.
    by destruct (gdatasets G !! k). }
  pose proof (parse_listed D items (info_items_NoDup _) Hb) as HU.
  exists (known_part D (parse D items)), (unknown_part (parse D items)).
  split.
  { rewrite Hinfo in Hrun. cbv zeta in Hrun.
    rewrite (sorted_ok D items _ HDk HDc Hb HU) in Hrun.
    by injection Hrun as <-. }
  assert (Hitem : forall n c v, @Param options.pyval n c v ∈ D ->
            exists d, gdatasets G !! n = Some d /\ (n, dvalue d) ∈ items).
  { intros n c v Hn. destruct (Hfull n c v Hn) as [d Hd]. exists d.
    split; [done|]. apply info_items_elem. split; [by eapply HDo|].
    by rewrite Hd. }
  split; [|split].
  - eapply Forall2_impl.
    + apply (known_part_all D items _ HDk HDc HU D); [done| |].
      * intros t Ht. apply parse_banners.
        destruct HDl as (c & v & Hl). destruct (Hitem _ _ _ Hl) as (d & _ & Hd).
        exists "ORBITWRITE_INTERVAL", (dvalue d). split; [done|]. by apply HDb.
      * intros n c v Hn. destruct (Hitem _ _ _ Hn) as (d & _ & Hd). by eexists.
    + intros e [t|n c v]; cbn; [done|].
      intros (a & [_ Ha]%info_items_elem & ->).
      destruct (gdatasets G !! n) as [d|]; [|done]. exists d.
      split; [done|]. cbn in Ha. by injection Ha as <-.
  - apply Forall_forall. intros e He.
    unfold unknown_part in He.
    apply list_elem_of_In, filter_In in He as [He%list_elem_of_In Hun].
    destruct HU as (_ & Hin & _).
    destruct (Hin _ He) as [(t & -> & _)|(k & a & -> & Hkv)]; [done|].
    cbn in Hun. apply String.eqb_eq in Hun. exists k, a. rewrite Hun.
    split; [done|]. by apply comment_of_unknown, Hun; apply HDc.
  - intros Hknown. apply (unknown_part_nil D items _ HDc HU).
    intros k v [Hopt Hv]%info_items_elem. apply Hknown; [done|].
    by destruct (gdatasets G !! k).
Qed.
End InfoTheorems.

(** ** The listing at concrete groups *)

Lemma options_read_info_listing_witness :
  (group_at info_files
     {| h_fn := "in.h5"; h_parent := "options"; h_name := "opt-0000000042" |}
   = Some info_group
   /\ gattrs info_group !! "date" = Some "2020-01-01 00:00:00"
   /\ gattrs info_group !! "description" = Some "test"
   /\ map_Forall (fun _ d => shape (dvalue d) <> []) (gdatasets info_group)
   /\ (forall k, is_Some (gdatasets info_group !! k) ->
         @options_info.Banner options.pyval k ∉ options_info.get_default))
  /\ exists out info,
       options.read_hdf5 "in.h5" "0000000042" info_files = (Ok out, info_files)
       /\ @options_info.read_hdf5 listing_order "in.h5" "0000000042" info_files
          = (Ok (out, info), info_files)
       /\ NoDup (options_info.key <$> info)
       /\ options_info.Param "MY_FLAG" "Unknown parameter"
            {| shape := [1%nat]; buf := Sample.floats [7] |} ∈ info
       /\ (forall c a, options_info.Param "date" c a ∉ info).
Proof.
  assert (Hg : group_at info_files
                 {| h_fn := "in.h5"; h_parent := "options";
                    h_name := "opt-0000000042" |}
               = Some info_group) by (vm_compute; reflexivity).
  assert (Hdate : gattrs info_group !! "date" = Some "2020-01-01 00:00:00")
    by (vm_compute; reflexivity).
  assert (Hdescr : gattrs info_group !! "description" = Some "test")
    by (vm_compute; reflexivity).
  assert (Hall : map_Forall (fun _ d => shape (dvalue d) <> [])
                   (gdatasets info_group)).
  { refine (bool_decide_unpack _ _). vm_compute. exact I. }
  assert (Hban : forall k, is_Some (gdatasets info_group !! k) ->
            @options_info.Banner options.pyval k ∉ options_info.get_default).
  { apply no_banner_keys. vm_compute. reflexivity. }
  split; [by repeat split|].
  destruct (@options_read_info_listing listing_order "in.h5" "0000000042"
              info_files info_group _ _ Hg Hdate Hdescr Hall Hban)
    as (out & info & Hr & Hi & Hnd & Hpar & _).
  exists out, info. split; [exact Hr|]. split; [exact Hi|].
  split; [exact Hnd|]. split.
  - apply Hpar. split; [vm_compute; reflexivity|].
    split; [vm_compute; reflexivity|].
    right. split; [reflexivity|]. intros c' v' Hin.
    revert c' v' Hin. apply not_param_default. vm_compute. reflexivity.
  - intros c a Hin. apply Hpar in Hin as [Hopt _]. vm_compute in Hopt.
    discriminate Hopt.
Defined.

Lemma options_read_info_order_witness :
  exists out info,
    (@options_info.read_hdf5 listing_order "in.h5" "0000000042" info_files
     = (Ok (out, info), info_files)
     /\ group_at info_files
          {| h_fn := "in.h5"; h_parent := "options"; h_name := "opt-0000000042" |}
        = Some info_group
     /\ (forall k, is_Some (gdatasets info_group !! k) ->
           @options_info.Banner options.pyval k ∉ options_info.get_default))
    /\ exists known unk,
         info = (known ++ unk)%list
         /\ (options_info.key <$> known)
            `sublist_of` (options_info.key <$> options_info.get_default)
         /\ (options_info.key <$> unk)
            `sublist_of` @options_info.keys_of listing_order (gdatasets info_group)
         /\ Forall (fun e => exists k a,
                      e = options_info.Param k options_info.unknown a
                      /\ forall c v, @options_info.Param options.pyval k c v
                                     ∉ options_info.get_default) unk.
Proof.
  assert (Hg : group_at info_files
                 {| h_fn := "in.h5"; h_parent := "options";
                    h_name := "opt-0000000042" |}
               = Some info_group) by (vm_compute; reflexivity).
  assert (Hdate : gattrs info_group !! "date" = Some "2020-01-01 00:00:00")
    by (vm_compute; reflexivity).
  assert (Hdescr : gattrs info_group !! "description" = Some "test")
    by (vm_compute; reflexivity).
  assert (Hall : map_Forall (fun _ d => shape (dvalue d) <> [])
                   (gdatasets info_group)).
  { refine (bool_decide_unpack _ _). vm_compute. exact I. }
  assert (Hban : forall k, is_Some (gdatasets info_group !! k) ->
            @options_info.Banner options.pyval k ∉ options_info.get_default).
  { apply no_banner_keys. vm_compute. reflexivity. }
  destruct (@options_read_info_run listing_order "in.h5" "0000000042"
              info_files info_group _ _ Hg Hdate Hdescr Hall Hban)
    as (out & info & _ & Hrun).
  exists out, info. split; [exact (conj Hrun (conj Hg Hban))|].
  exact (@options_read_info_order listing_order "in.h5" "0000000042"
           info_files info_files out info info_group Hrun Hg Hban).
Defined.

Lemma options_read_info_all_defaults_witness :
  exists out info,
    (@options_info.read_hdf5 listing_order "in.h5" "0000000042" default_files
     = (Ok (out, info), default_files)
     /\ group_at default_files
          {| h_fn := "in.h5"; h_parent := "options"; h_name := "opt-0000000042" |}
        = Some default_group
     /\ (forall k, is_Some (gdatasets default_group !! k) ->
           @options_info.Banner options.pyval k ∉ options_info.get_default)
     /\ (forall n c v, @options_info.Param options.pyval n c v
                       ∈ options_info.get_default ->
           is_Some (gdatasets default_group !! n)))
    /\ exists known unk,
         info = (known ++ unk)%list
         /\ Forall2 (filled_in (gdatasets default_group)) known
              options_info.get_default
         /\ Forall (fun e => exists k a,
                      e = options_info.Param k options_info.unknown a
                      /\ forall c v, @options_info.Param options.pyval k c v
                                     ∉ options_info.get_default) unk
         /\ ((forall k, options.is_option k = true ->
                is_Some (gdatasets default_group !! k) ->
                exists c v, @options_info.Param options.pyval k c v
                            ∈ options_info.get_default) ->
             unk = []).
Proof.
  assert (Hg : group_at default_files
                 {| h_fn := "in.h5"; h_parent := "options";
                    h_name := "opt-0000000042" |}
               = Some default_group) by (vm_compute; reflexivity).
  assert (Hban : forall k, is_Some (gdatasets default_group !! k) ->
            @options_info.Banner options.pyval k ∉ options_info.get_default).
  { apply no_banner_keys. vm_compute. reflexivity. }
  assert (Hfull : forall n c v, @options_info.Param options.pyval n c v
                                ∈ options_info.get_default ->
            is_Some (gdatasets default_group !! n)).
  { apply params_in_group. vm_compute. reflexivity. }
  assert (Hdate : gattrs default_group !! "date" = Some "2020-01-01 00:00:00")
    by (vm_compute; reflexivity).
  assert (Hdescr : gattrs default_group !! "description" = Some "test")
    by (vm_compute; reflexivity).
  assert (Hall : map_Forall (fun _ d => shape (dvalue d) <> [])
                   (gdatasets default_group)).
  { refine (bool_decide_unpack _ _). vm_compute. exact I. }
  destruct (@options_read_info_run listing_order "in.h5" "0000000042"
              default_files default_group _ _ Hg Hdate Hdescr Hall Hban)
    as (out & info & _ & Hrun).
  exists out, info. split; [exact (conj Hrun (conj Hg (conj Hban Hfull)))|].
  exact (@options_read_info_all_defaults listing_order "in.h5" "0000000042"
           default_files default_files out info default_group
           Hrun Hg Hban Hfull).
Defined.
